(** * OSP telegram layer (aoosp): frame codec, exchange driver and
      multi-telegram procedures, embedded from [aoosp_send.cpp] and
      [aoosp_exec.cpp].

    Integers of the C code are modelled as [Z]; a store into a [uint8_t]
    lvalue truncates with [u8].  Pointer parameters are option cells:
    [None] is the null pointer, [Some v] a pointer to an object holding [v];
    a function returns the final content of every cell it may write.
    The SPI transport ([aospi_tx], [aospi_txrx]) and the checksum
    ([aoosp_crc]) live in other translation units; they are the fields of
    the [Platform] class.  The Serial logging of the send functions is
    presentation only and is left out: it never feeds back into results.
    The printers of [aoosp_prt.cpp] and the prints of [aoosp_exec_otpdump]
    are embedded with their buffer and their console. *)

From Stdlib Require Import ZArith List Bool Lia.
From Stdlib Require Import Ascii.
From Stdlib Require String.
Import ListNotations.
Open Scope Z_scope.

(** ** Result codes *)

(** The codes of [aoresult_t] that the telegram layer names, plus
    [aoresult_other] for every further code of the enumeration (such as the
    remaining SPI errors). *)
Inductive aoresult_t : Type :=
| aoresult_ok
| aoresult_outargnull
| aoresult_spi_noclock
| aoresult_osp_arg
| aoresult_osp_addr
| aoresult_osp_preamble
| aoresult_osp_tid
| aoresult_osp_size
| aoresult_osp_psi
| aoresult_osp_crc
| aoresult_sys_id
| aoresult_sys_cabling
| aoresult_dev_noi2cbridge
| aoresult_dev_i2ctimeout
| aoresult_dev_i2cnack
| aoresult_other (code : nat).

Definition is_ok (r : aoresult_t) : bool :=
  match r with aoresult_ok => true | _ => false end.

Definition is_noclock (r : aoresult_t) : bool :=
  match r with aoresult_spi_noclock => true | _ => false end.

(** ** Bit fields *)

Definition u8 (v : Z) : Z := v mod 256.
Definition u16 (v : Z) : Z := v mod 65536.
Definition u32 (v : Z) : Z := v mod 4294967296.

Definition BITS_MASK (n : Z) : Z := Z.shiftl 1 n - 1.
Definition BITS_SLICE (v lo hi : Z) : Z :=
  Z.land (Z.shiftr v lo) (BITS_MASK (hi - lo)).
Definition SIZE2PSI (payloadsize : Z) : Z :=
  if payloadsize <? 8 then payloadsize else 7.

(** C truth value of an integer expression. *)
Definition nonzero (v : Z) : bool := negb (v =? 0).

(** ** Telegrams *)

Definition AOOSP_TELE_MAXSIZE : nat := 12.

Record aoosp_tele_t : Type := mk_tele { data : list Z; size : Z }.

(** The array [data] has [AOOSP_TELE_MAXSIZE] cells, each a byte. *)
Definition tele_wf (t : aoosp_tele_t) : Prop :=
  length (data t) = AOOSP_TELE_MAXSIZE.

Fixpoint list_set (l : list Z) (i : nat) (v : Z) : list Z :=
  match l, i with
  | [], _ => []
  | _ :: l', O => v :: l'
  | x :: l', S i' => x :: list_set l' i' v
  end.

Definition data_at (t : aoosp_tele_t) (i : nat) : Z := nth i (data t) 0.
Definition set_data (t : aoosp_tele_t) (i : nat) (v : Z) : aoosp_tele_t :=
  mk_tele (list_set (data t) i (u8 v)) (size t).
Definition set_size (t : aoosp_tele_t) (n : Z) : aoosp_tele_t :=
  mk_tele (data t) (u8 n).
Arguments data_at t i%_nat.
Arguments set_data t i%_nat v%_Z.

(** The byte range [(data, n)] handed to the checksum or the transport. *)
Definition tele_bytes (t : aoosp_tele_t) (n : Z) : list Z :=
  firstn (Z.to_nat n) (data t).

Definition TELEPSI (tele : aoosp_tele_t) : Z :=
  BITS_SLICE (data_at tele 1) 0 2 * 2 + BITS_SLICE (data_at tele 2) 7 8.

(** A local telegram before anything was stored in it. *)
Definition uninit_tele : aoosp_tele_t := mk_tele (repeat 0 AOOSP_TELE_MAXSIZE) 0.

(** ** Addresses *)

Definition AOOSP_ADDR_BROADCAST : Z := 0x000.
Definition AOOSP_ADDR_UNICASTMIN : Z := 0x001.
Definition AOOSP_ADDR_UNICASTMAX : Z := 0x3EF.
Definition AOOSP_ADDR_GROUP0 : Z := 0x3F0.
Definition AOOSP_ADDR_GROUP14 : Z := 0x3FE.
Definition AOOSP_ADDR_UNINIT : Z := 0x3FF.

Definition AOOSP_ADDR_ISBROADCAST (addr : Z) : bool := addr =? AOOSP_ADDR_BROADCAST.
Definition AOOSP_ADDR_ISUNICAST (addr : Z) : bool :=
  (AOOSP_ADDR_UNICASTMIN <=? addr) && (addr <=? AOOSP_ADDR_UNICASTMAX).
Definition OAOSP_ADDR_ISMULTICAST (addr : Z) : bool :=
  (AOOSP_ADDR_GROUP0 <=? addr) && (addr <=? AOOSP_ADDR_GROUP14).
Definition AOOSP_ADDR_ISOK (addr : Z) : bool :=
  AOOSP_ADDR_ISBROADCAST addr || AOOSP_ADDR_ISUNICAST addr || OAOSP_ADDR_ISMULTICAST addr.

(** ** The platform: checksum and SPI transport *)

(** What the host asked of the bus, oldest first. *)
Inductive spi_event : Type :=
| ev_tx (tx : list Z)
| ev_txrx (tx : list Z) (rxsize : Z)
| ev_dirmux_loop
| ev_dirmux_bidir
| ev_delay_us (us : Z)
| ev_delay_ms (ms : Z).

(** [aoosp_crc] is the checksum of [aoosp_crc.h].  The transport of
    [aospi.h] is deterministic in the history of requests: [aospi_tx_result]
    is the result of transmitting a frame after that history, and
    [aospi_txrx_result] the result of transmit-and-receive together with the
    content of the receive buffer afterwards. *)
Class Platform : Type := {
  aoosp_crc : list Z -> Z;
  aospi_tx_result : list spi_event -> list Z -> aoresult_t;
  aospi_txrx_result : list spi_event -> list Z -> Z -> aoresult_t * list Z
}.

Section Codec.
Context {P : Platform}.

(** *** Telegram 00 RESET *)

Definition aoosp_con_reset (tele : option aoosp_tele_t) (addr : Z)
  : aoresult_t * option aoosp_tele_t :=
  match tele with
  | None => (aoresult_outargnull, tele)
  | Some t =>
    if negb (AOOSP_ADDR_ISOK addr) then (aoresult_osp_addr, tele) else
    let payloadsize := 0 in
    let tid := 0x00 in
    let t := set_size t (payloadsize + 4) in
    let t := set_data t 0 (Z.lor 0xA0 (BITS_SLICE addr 6 10)) in
    let t := set_data t 1 (Z.lor (Z.shiftl (BITS_SLICE addr 0 6) 2) (BITS_SLICE (SIZE2PSI payloadsize) 1 3)) in
    let t := set_data t 2 (Z.lor (Z.shiftl (BITS_SLICE (SIZE2PSI payloadsize) 0 1) 7) tid) in
    let t := set_data t 3 (aoosp_crc (tele_bytes t (size t - 1))) in
    (aoresult_ok, Some t)
  end.

(** *** Telegram 01 CLRERROR *)

Definition aoosp_con_clrerror (tele : option aoosp_tele_t) (addr : Z)
  : aoresult_t * option aoosp_tele_t :=
  match tele with
  | None => (aoresult_outargnull, tele)
  | Some t =>
    if negb (AOOSP_ADDR_ISOK addr) then (aoresult_osp_addr, tele) else
    let payloadsize := 0 in
    let tid := 0x01 in
    let t := set_size t (payloadsize + 4) in
    let t := set_data t 0 (Z.lor 0xA0 (BITS_SLICE addr 6 10)) in
    let t := set_data t 1 (Z.lor (Z.shiftl (BITS_SLICE addr 0 6) 2) (BITS_SLICE (SIZE2PSI payloadsize) 1 3)) in
    let t := set_data t 2 (Z.lor (Z.shiftl (BITS_SLICE (SIZE2PSI payloadsize) 0 1) 7) tid) in
    let t := set_data t 3 (aoosp_crc (tele_bytes t (size t - 1))) in
    (aoresult_ok, Some t)
  end.

(** *** Telegram 02 INITBIDIR *)

(** [respsize] is the out parameter receiving the size of the response
    telegram; it is written after the argument checks. *)
Definition set_respsize (respsize : option Z) (n : Z) : option Z :=
  match respsize with Some _ => Some (u8 n) | None => None end.

Definition aoosp_con_initbidir (tele : option aoosp_tele_t) (addr : Z) (respsize : option Z)
  : aoresult_t * option aoosp_tele_t * option Z :=
  match tele with
  | None => (aoresult_outargnull, tele, respsize)
  | Some t =>
    if negb (AOOSP_ADDR_ISOK addr) then (aoresult_osp_addr, tele, respsize) else
    let payloadsize := 0 in
    let tid := 0x02 in
    let respsize := set_respsize respsize (4 + 2) in
    let t := set_size t (payloadsize + 4) in
    let t := set_data t 0 (Z.lor 0xA0 (BITS_SLICE addr 6 10)) in
    let t := set_data t 1 (Z.lor (Z.shiftl (BITS_SLICE addr 0 6) 2) (BITS_SLICE (SIZE2PSI payloadsize) 1 3)) in
    let t := set_data t 2 (Z.lor (Z.shiftl (BITS_SLICE (SIZE2PSI payloadsize) 0 1) 7) tid) in
    let t := set_data t 3 (aoosp_crc (tele_bytes t (size t - 1))) in
    (aoresult_ok, Some t, respsize)
  end.

Definition aoosp_des_initbidir (tele : option aoosp_tele_t) (last temp stat : option Z)
  : aoresult_t * (option Z * option Z * option Z) :=
  let payloadsize := 2 in
  match tele, last, temp, stat with
  | Some t, Some _, Some _, Some _ =>
    if negb (size t =? 4 + payloadsize) then (aoresult_osp_size, (last, temp, stat)) else
    if negb (TELEPSI t =? SIZE2PSI payloadsize) then (aoresult_osp_psi, (last, temp, stat)) else
    if negb (BITS_SLICE (data_at t 0) 4 8 =? 0xA) then (aoresult_osp_preamble, (last, temp, stat)) else
    if negb (BITS_SLICE (data_at t 2) 0 7 =? 0x02) then (aoresult_osp_tid, (last, temp, stat)) else
    if negb (aoosp_crc (tele_bytes t (size t)) =? 0) then (aoresult_osp_crc, (last, temp, stat)) else
    let last := Some (u16 (Z.lor (Z.shiftl (BITS_SLICE (data_at t 0) 0 4) 6) (BITS_SLICE (data_at t 1) 2 8))) in
    let temp := Some (data_at t 3) in
    let stat := Some (data_at t 4) in
    (aoresult_ok, (last, temp, stat))
  | _, _, _, _ => (aoresult_outargnull, (last, temp, stat))
  end.

(** *** Telegram 03 INITLOOP *)

Definition aoosp_con_initloop (tele : option aoosp_tele_t) (addr : Z) (respsize : option Z)
  : aoresult_t * option aoosp_tele_t * option Z :=
  match tele with
  | None => (aoresult_outargnull, tele, respsize)
  | Some t =>
    if negb (AOOSP_ADDR_ISOK addr) then (aoresult_osp_addr, tele, respsize) else
    let payloadsize := 0 in
    let tid := 0x03 in
    let respsize := set_respsize respsize (4 + 2) in
    let t := set_size t (payloadsize + 4) in
    let t := set_data t 0 (Z.lor 0xA0 (BITS_SLICE addr 6 10)) in
    let t := set_data t 1 (Z.lor (Z.shiftl (BITS_SLICE addr 0 6) 2) (BITS_SLICE (SIZE2PSI payloadsize) 1 3)) in
    let t := set_data t 2 (Z.lor (Z.shiftl (BITS_SLICE (SIZE2PSI payloadsize) 0 1) 7) tid) in
    let t := set_data t 3 (aoosp_crc (tele_bytes t (size t - 1))) in
    (aoresult_ok, Some t, respsize)
  end.

Definition aoosp_des_initloop (tele : option aoosp_tele_t) (last temp stat : option Z)
  : aoresult_t * (option Z * option Z * option Z) :=
  let payloadsize := 2 in
  match tele, last, temp, stat with
  | Some t, Some _, Some _, Some _ =>
    if negb (size t =? 4 + payloadsize) then (aoresult_osp_size, (last, temp, stat)) else
    if negb (TELEPSI t =? SIZE2PSI payloadsize) then (aoresult_osp_psi, (last, temp, stat)) else
    if negb (BITS_SLICE (data_at t 0) 4 8 =? 0xA) then (aoresult_osp_preamble, (last, temp, stat)) else
    if negb (BITS_SLICE (data_at t 2) 0 7 =? 0x03) then (aoresult_osp_tid, (last, temp, stat)) else
    if negb (aoosp_crc (tele_bytes t (size t)) =? 0) then (aoresult_osp_crc, (last, temp, stat)) else
    let temp := Some (data_at t 3) in
    let stat := Some (data_at t 4) in
    let last := Some (u16 (Z.lor (Z.shiftl (BITS_SLICE (data_at t 0) 0 4) 6) (BITS_SLICE (data_at t 1) 2 8))) in
    (aoresult_ok, (last, temp, stat))
  | _, _, _, _ => (aoresult_outargnull, (last, temp, stat))
  end.

(** *** Telegram 04 GOSLEEP *)

Definition aoosp_con_gosleep (tele : option aoosp_tele_t) (addr : Z)
  : aoresult_t * option aoosp_tele_t :=
  match tele with
  | None => (aoresult_outargnull, tele)
  | Some t =>
    if negb (AOOSP_ADDR_ISOK addr) then (aoresult_osp_addr, tele) else
    let payloadsize := 0 in
    let tid := 0x04 in
    let t := set_size t (payloadsize + 4) in
    let t := set_data t 0 (Z.lor 0xA0 (BITS_SLICE addr 6 10)) in
    let t := set_data t 1 (Z.lor (Z.shiftl (BITS_SLICE addr 0 6) 2) (BITS_SLICE (SIZE2PSI payloadsize) 1 3)) in
    let t := set_data t 2 (Z.lor (Z.shiftl (BITS_SLICE (SIZE2PSI payloadsize) 0 1) 7) tid) in
    let t := set_data t 3 (aoosp_crc (tele_bytes t (size t - 1))) in
    (aoresult_ok, Some t)
  end.

(** *** Telegram 05 GOACTIVE *)

Definition aoosp_con_goactive (tele : option aoosp_tele_t) (addr : Z)
  : aoresult_t * option aoosp_tele_t :=
  match tele with
  | None => (aoresult_outargnull, tele)
  | Some t =>
    if negb (AOOSP_ADDR_ISOK addr) then (aoresult_osp_addr, tele) else
    let payloadsize := 0 in
    let tid := 0x05 in
    let t := set_size t (payloadsize + 4) in
    let t := set_data t 0 (Z.lor 0xA0 (BITS_SLICE addr 6 10)) in
    let t := set_data t 1 (Z.lor (Z.shiftl (BITS_SLICE addr 0 6) 2) (BITS_SLICE (SIZE2PSI payloadsize) 1 3)) in
    let t := set_data t 2 (Z.lor (Z.shiftl (BITS_SLICE (SIZE2PSI payloadsize) 0 1) 7) tid) in
    let t := set_data t 3 (aoosp_crc (tele_bytes t (size t - 1))) in
    (aoresult_ok, Some t)
  end.

(** *** Telegram 07 IDENTIFY *)

Definition aoosp_con_identify (tele : option aoosp_tele_t) (addr : Z) (respsize : option Z)
  : aoresult_t * option aoosp_tele_t * option Z :=
  match tele with
  | None => (aoresult_outargnull, tele, respsize)
  | Some t =>
    if negb (AOOSP_ADDR_ISOK addr) then (aoresult_osp_addr, tele, respsize) else
    let payloadsize := 0 in
    let tid := 0x07 in
    let respsize := set_respsize respsize (4 + 4) in
    let t := set_size t (payloadsize + 4) in
    let t := set_data t 0 (Z.lor 0xA0 (BITS_SLICE addr 6 10)) in
    let t := set_data t 1 (Z.lor (Z.shiftl (BITS_SLICE addr 0 6) 2) (BITS_SLICE (SIZE2PSI payloadsize) 1 3)) in
    let t := set_data t 2 (Z.lor (Z.shiftl (BITS_SLICE (SIZE2PSI payloadsize) 0 1) 7) tid) in
    let t := set_data t 3 (aoosp_crc (tele_bytes t (size t - 1))) in
    (aoresult_ok, Some t, respsize)
  end.

Definition aoosp_des_identify (tele : option aoosp_tele_t) (id : option Z)
  : aoresult_t * option Z :=
  let payloadsize := 4 in
  match tele, id with
  | Some t, Some _ =>
    if negb (size t =? 4 + payloadsize) then (aoresult_osp_size, id) else
    if negb (TELEPSI t =? SIZE2PSI payloadsize) then (aoresult_osp_psi, id) else
    if negb (BITS_SLICE (data_at t 0) 4 8 =? 0xA) then (aoresult_osp_preamble, id) else
    if negb (BITS_SLICE (data_at t 2) 0 7 =? 0x07) then (aoresult_osp_tid, id) else
    if negb (aoosp_crc (tele_bytes t (size t)) =? 0) then (aoresult_osp_crc, id) else
    let id := Some (u32 (Z.lor (Z.lor (Z.lor (Z.shiftl (data_at t 3) 24) (Z.shiftl (data_at t 4) 16))
                                      (Z.shiftl (data_at t 5) 8)) (data_at t 6))) in
    (aoresult_ok, id)
  | _, _ => (aoresult_outargnull, id)
  end.

(** *** Telegram 0C READMULT *)

Definition aoosp_con_readmult (tele : option aoosp_tele_t) (addr : Z) (respsize : option Z)
  : aoresult_t * option aoosp_tele_t * option Z :=
  match tele with
  | None => (aoresult_outargnull, tele, respsize)
  | Some t =>
    if negb (AOOSP_ADDR_ISOK addr) then (aoresult_osp_addr, tele, respsize) else
    let payloadsize := 0 in
    let tid := 0x0C in
    let respsize := set_respsize respsize (4 + 2) in
    let t := set_size t (payloadsize + 4) in
    let t := set_data t 0 (Z.lor 0xA0 (BITS_SLICE addr 6 10)) in
    let t := set_data t 1 (Z.lor (Z.shiftl (BITS_SLICE addr 0 6) 2) (BITS_SLICE (SIZE2PSI payloadsize) 1 3)) in
    let t := set_data t 2 (Z.lor (Z.shiftl (BITS_SLICE (SIZE2PSI payloadsize) 0 1) 7) tid) in
    let t := set_data t 3 (aoosp_crc (tele_bytes t (size t - 1))) in
    (aoresult_ok, Some t, respsize)
  end.

Definition aoosp_des_readmult (tele : option aoosp_tele_t) (groups : option Z)
  : aoresult_t * option Z :=
  let payloadsize := 2 in
  match tele, groups with
  | Some t, Some _ =>
    if negb (size t =? 4 + payloadsize) then (aoresult_osp_size, groups) else
    if negb (TELEPSI t =? SIZE2PSI payloadsize) then (aoresult_osp_psi, groups) else
    if negb (BITS_SLICE (data_at t 0) 4 8 =? 0xA) then (aoresult_osp_preamble, groups) else
    if negb (BITS_SLICE (data_at t 2) 0 7 =? 0x0C) then (aoresult_osp_tid, groups) else
    if negb (aoosp_crc (tele_bytes t (size t)) =? 0) then (aoresult_osp_crc, groups) else
    let groups := Some (u16 (Z.lor (Z.shiftl (data_at t 3) 8) (Z.shiftl (data_at t 4) 0))) in
    (aoresult_ok, groups)
  | _, _ => (aoresult_outargnull, groups)
  end.

(** *** Telegram 0D SETMULT *)

Definition aoosp_con_setmult (tele : option aoosp_tele_t) (addr : Z) (groups : Z)
  : aoresult_t * option aoosp_tele_t :=
  match tele with
  | None => (aoresult_outargnull, tele)
  | Some t =>
    if negb (AOOSP_ADDR_ISOK addr) then (aoresult_osp_addr, tele) else
    if nonzero (Z.land groups (Z.lnot 0x7FFF)) then (aoresult_osp_arg, tele) else
    let payloadsize := 2 in
    let tid := 0x0D in
    let t := set_size t (payloadsize + 4) in
    let t := set_data t 0 (Z.lor 0xA0 (BITS_SLICE addr 6 10)) in
    let t := set_data t 1 (Z.lor (Z.shiftl (BITS_SLICE addr 0 6) 2) (BITS_SLICE (SIZE2PSI payloadsize) 1 3)) in
    let t := set_data t 2 (Z.lor (Z.shiftl (BITS_SLICE (SIZE2PSI payloadsize) 0 1) 7) tid) in
    let t := set_data t 3 (BITS_SLICE groups 8 16) in
    let t := set_data t 4 (BITS_SLICE groups 0 8) in
    let t := set_data t 5 (aoosp_crc (tele_bytes t (size t - 1))) in
    (aoresult_ok, Some t)
  end.

(** *** Telegram 0F SYNC *)

Definition aoosp_con_sync (tele : option aoosp_tele_t) (addr : Z)
  : aoresult_t * option aoosp_tele_t :=
  match tele with
  | None => (aoresult_outargnull, tele)
  | Some t =>
    if negb (AOOSP_ADDR_ISOK addr) then (aoresult_osp_addr, tele) else
    let payloadsize := 0 in
    let tid := 0x0F in
    let t := set_size t (payloadsize + 4) in
    let t := set_data t 0 (Z.lor 0xA0 (BITS_SLICE addr 6 10)) in
    let t := set_data t 1 (Z.lor (Z.shiftl (BITS_SLICE addr 0 6) 2) (BITS_SLICE (SIZE2PSI payloadsize) 1 3)) in
    let t := set_data t 2 (Z.lor (Z.shiftl (BITS_SLICE (SIZE2PSI payloadsize) 0 1) 7) tid) in
    let t := set_data t 3 (aoosp_crc (tele_bytes t (size t - 1))) in
    (aoresult_ok, Some t)
  end.

(** *** Telegram 11 IDLE *)

Definition aoosp_con_idle (tele : option aoosp_tele_t) (addr : Z)
  : aoresult_t * option aoosp_tele_t :=
  match tele with
  | None => (aoresult_outargnull, tele)
  | Some t =>
    if negb (AOOSP_ADDR_ISOK addr) then (aoresult_osp_addr, tele) else
    let payloadsize := 0 in
    let tid := 0x11 in
    let t := set_size t (payloadsize + 4) in
    let t := set_data t 0 (Z.lor 0xA0 (BITS_SLICE addr 6 10)) in
    let t := set_data t 1 (Z.lor (Z.shiftl (BITS_SLICE addr 0 6) 2) (BITS_SLICE (SIZE2PSI payloadsize) 1 3)) in
    let t := set_data t 2 (Z.lor (Z.shiftl (BITS_SLICE (SIZE2PSI payloadsize) 0 1) 7) tid) in
    let t := set_data t 3 (aoosp_crc (tele_bytes t (size t - 1))) in
    (aoresult_ok, Some t)
  end.

(** *** Telegram 12 FOUNDRY *)

Definition aoosp_con_foundry (tele : option aoosp_tele_t) (addr : Z)
  : aoresult_t * option aoosp_tele_t :=
  match tele with
  | None => (aoresult_outargnull, tele)
  | Some t =>
    if negb (AOOSP_ADDR_ISOK addr) then (aoresult_osp_addr, tele) else
    let payloadsize := 0 in
    let tid := 0x12 in
    let t := set_size t (payloadsize + 4) in
    let t := set_data t 0 (Z.lor 0xA0 (BITS_SLICE addr 6 10)) in
    let t := set_data t 1 (Z.lor (Z.shiftl (BITS_SLICE addr 0 6) 2) (BITS_SLICE (SIZE2PSI payloadsize) 1 3)) in
    let t := set_data t 2 (Z.lor (Z.shiftl (BITS_SLICE (SIZE2PSI payloadsize) 0 1) 7) tid) in
    let t := set_data t 3 (aoosp_crc (tele_bytes t (size t - 1))) in
    (aoresult_ok, Some t)
  end.

(** *** Telegram 13 CUST *)

Definition aoosp_con_cust (tele : option aoosp_tele_t) (addr : Z)
  : aoresult_t * option aoosp_tele_t :=
  match tele with
  | None => (aoresult_outargnull, tele)
  | Some t =>
    if negb (AOOSP_ADDR_ISOK addr) then (aoresult_osp_addr, tele) else
    let payloadsize := 0 in
    let tid := 0x13 in
    let t := set_size t (payloadsize + 4) in
    let t := set_data t 0 (Z.lor 0xA0 (BITS_SLICE addr 6 10)) in
    let t := set_data t 1 (Z.lor (Z.shiftl (BITS_SLICE addr 0 6) 2) (BITS_SLICE (SIZE2PSI payloadsize) 1 3)) in
    let t := set_data t 2 (Z.lor (Z.shiftl (BITS_SLICE (SIZE2PSI payloadsize) 0 1) 7) tid) in
    let t := set_data t 3 (aoosp_crc (tele_bytes t (size t - 1))) in
    (aoresult_ok, Some t)
  end.

(** *** Telegram 14 BURN *)

Definition aoosp_con_burn (tele : option aoosp_tele_t) (addr : Z)
  : aoresult_t * option aoosp_tele_t :=
  match tele with
  | None => (aoresult_outargnull, tele)
  | Some t =>
    if negb (AOOSP_ADDR_ISOK addr) then (aoresult_osp_addr, tele) else
    let payloadsize := 0 in
    let tid := 0x14 in
    let t := set_size t (payloadsize + 4) in
    let t := set_data t 0 (Z.lor 0xA0 (BITS_SLICE addr 6 10)) in
    let t := set_data t 1 (Z.lor (Z.shiftl (BITS_SLICE addr 0 6) 2) (BITS_SLICE (SIZE2PSI payloadsize) 1 3)) in
    let t := set_data t 2 (Z.lor (Z.shiftl (BITS_SLICE (SIZE2PSI payloadsize) 0 1) 7) tid) in
    let t := set_data t 3 (aoosp_crc (tele_bytes t (size t - 1))) in
    (aoresult_ok, Some t)
  end.

(** *** Telegram 18 I2CREAD *)

Definition aoosp_con_i2cread8 (tele : option aoosp_tele_t) (addr : Z) (daddr7 raddr count : Z)
  : aoresult_t * option aoosp_tele_t :=
  match tele with
  | None => (aoresult_outargnull, tele)
  | Some t =>
    if negb (AOOSP_ADDR_ISOK addr) then (aoresult_osp_addr, tele) else
    if 127 <? daddr7 then (aoresult_osp_arg, tele) else
    if (count <? 1) || (8 <? count) then (aoresult_osp_arg, tele) else
    let payloadsize := 3 in
    let tid := 0x18 in
    let t := set_size t (payloadsize + 4) in
    let t := set_data t 0 (Z.lor 0xA0 (BITS_SLICE addr 6 10)) in
    let t := set_data t 1 (Z.lor (Z.shiftl (BITS_SLICE addr 0 6) 2) (BITS_SLICE (SIZE2PSI payloadsize) 1 3)) in
    let t := set_data t 2 (Z.lor (Z.shiftl (BITS_SLICE (SIZE2PSI payloadsize) 0 1) 7) tid) in
    let t := set_data t 3 (Z.shiftl daddr7 1) in
    let t := set_data t 4 raddr in
    let t := set_data t 5 count in
    let t := set_data t 6 (aoosp_crc (tele_bytes t (size t - 1))) in
    (aoresult_ok, Some t)
  end.


(** [for (int i = 0; i < n; i++) body], threading the object the body
    updates; called with [i = 0]. *)
Fixpoint for_loop {A : Type} (n i : nat) (body : nat -> A -> A) (a : A) : A :=
  match n with
  | O => a
  | S n' => for_loop n' (S i) body (body i a)
  end.

(** *** Telegram 19 I2CWRITE *)

Definition aoosp_con_i2cwrite8 (tele : option aoosp_tele_t) (addr : Z) (daddr7 raddr : Z)
  (buf : option (list Z)) (count : Z)
  : aoresult_t * option aoosp_tele_t :=
  match tele, buf with
  | Some t, Some b =>
    if negb (AOOSP_ADDR_ISOK addr) then (aoresult_osp_addr, tele) else
    if 127 <? daddr7 then (aoresult_osp_arg, tele) else
    if count <? 1 then (aoresult_osp_arg, tele) else
    if 8 <? count + 2 then (aoresult_osp_arg, tele) else
    if (count + 2 =? 5) || (count + 2 =? 7) then (aoresult_osp_arg, tele) else
    let payloadsize := u8 (2 + count) in
    let tid := 0x19 in
    let t := set_size t (payloadsize + 4) in
    let t := set_data t 0 (Z.lor 0xA0 (BITS_SLICE addr 6 10)) in
    let t := set_data t 1 (Z.lor (Z.shiftl (BITS_SLICE addr 0 6) 2) (BITS_SLICE (SIZE2PSI payloadsize) 1 3)) in
    let t := set_data t 2 (Z.lor (Z.shiftl (BITS_SLICE (SIZE2PSI payloadsize) 0 1) 7) tid) in
    let t := set_data t 3 (Z.shiftl daddr7 1) in
    let t := set_data t 4 raddr in
    let t := for_loop (Z.to_nat count) 0 (fun i t => set_data t (5 + i) (nth i b 0)) t in
    let t := set_data t (3 + 2 + Z.to_nat count) (aoosp_crc (tele_bytes t (size t - 1))) in
    (aoresult_ok, Some t)
  | _, _ => (aoresult_outargnull, tele)
  end.

(** *** Telegram 1E READLAST *)

Definition aoosp_con_readlast (tele : option aoosp_tele_t) (addr : Z) (respsize : option Z)
  : aoresult_t * option aoosp_tele_t * option Z :=
  match tele with
  | None => (aoresult_outargnull, tele, respsize)
  | Some t =>
    if negb (AOOSP_ADDR_ISOK addr) then (aoresult_osp_addr, tele, respsize) else
    let payloadsize := 0 in
    let tid := 0x1E in
    let respsize := set_respsize respsize (4 + 8) in
    let t := set_size t (payloadsize + 4) in
    let t := set_data t 0 (Z.lor 0xA0 (BITS_SLICE addr 6 10)) in
    let t := set_data t 1 (Z.lor (Z.shiftl (BITS_SLICE addr 0 6) 2) (BITS_SLICE (SIZE2PSI payloadsize) 1 3)) in
    let t := set_data t 2 (Z.lor (Z.shiftl (BITS_SLICE (SIZE2PSI payloadsize) 0 1) 7) tid) in
    let t := set_data t 3 (aoosp_crc (tele_bytes t (size t - 1))) in
    (aoresult_ok, Some t, respsize)
  end.

Definition aoosp_des_readlast (tele : option aoosp_tele_t) (buf : option (list Z)) (size' : Z)
  : aoresult_t * option (list Z) :=
  let payloadsize := 8 in
  match tele, buf with
  | Some t, Some b =>
    if negb (size t =? 4 + payloadsize) then (aoresult_osp_size, buf) else
    if negb (TELEPSI t =? SIZE2PSI payloadsize) then (aoresult_osp_psi, buf) else
    if negb (BITS_SLICE (data_at t 0) 4 8 =? 0xA) then (aoresult_osp_preamble, buf) else
    if negb (BITS_SLICE (data_at t 2) 0 7 =? 0x1E) then (aoresult_osp_tid, buf) else
    if negb (aoosp_crc (tele_bytes t (size t)) =? 0) then (aoresult_osp_crc, buf) else
    if (size' <? 1) || (8 <? size') then (aoresult_osp_arg, buf) else
    let b := for_loop (Z.to_nat size') 0
               (fun i b => list_set b i (data_at t (Z.to_nat (11 - size' + Z.of_nat i)))) b in
    (aoresult_ok, Some b)
  | _, _ => (aoresult_outargnull, buf)
  end.

(** *** Telegram 25 GOACTIVE_SR *)

Definition aoosp_con_goactive_sr (tele : option aoosp_tele_t) (addr : Z) (respsize : option Z)
  : aoresult_t * option aoosp_tele_t * option Z :=
  match tele with
  | None => (aoresult_outargnull, tele, respsize)
  | Some t =>
    if negb (AOOSP_ADDR_ISOK addr) then (aoresult_osp_addr, tele, respsize) else
    let payloadsize := 0 in
    let tid := 0x25 in
    let respsize := set_respsize respsize (4 + 2) in
    let t := set_size t (payloadsize + 4) in
    let t := set_data t 0 (Z.lor 0xA0 (BITS_SLICE addr 6 10)) in
    let t := set_data t 1 (Z.lor (Z.shiftl (BITS_SLICE addr 0 6) 2) (BITS_SLICE (SIZE2PSI payloadsize) 1 3)) in
    let t := set_data t 2 (Z.lor (Z.shiftl (BITS_SLICE (SIZE2PSI payloadsize) 0 1) 7) tid) in
    let t := set_data t 3 (aoosp_crc (tele_bytes t (size t - 1))) in
    (aoresult_ok, Some t, respsize)
  end.

(** Only [tele] and [stat] are checked against null; [temp] is written
    through without a check: it is taken as the object it points to. *)
Definition aoosp_des_goactive_sr (tele : option aoosp_tele_t) (temp : Z) (stat : option Z)
  : aoresult_t * (Z * option Z) :=
  let payloadsize := 2 in
  match tele, stat with
  | Some t, Some _ =>
    if negb (size t =? 4 + payloadsize) then (aoresult_osp_size, (temp, stat)) else
    if negb (TELEPSI t =? SIZE2PSI payloadsize) then (aoresult_osp_psi, (temp, stat)) else
    if negb (BITS_SLICE (data_at t 0) 4 8 =? 0xA) then (aoresult_osp_preamble, (temp, stat)) else
    if negb (BITS_SLICE (data_at t 2) 0 7 =? 0x25) then (aoresult_osp_tid, (temp, stat)) else
    if negb (aoosp_crc (tele_bytes t (size t)) =? 0) then (aoresult_osp_crc, (temp, stat)) else
    let temp := data_at t 3 in
    let stat := Some (data_at t 4) in
    (aoresult_ok, (temp, stat))
  | _, _ => (aoresult_outargnull, (temp, stat))
  end.

(** *** Telegram 40 READSTAT *)

Definition aoosp_con_readstat (tele : option aoosp_tele_t) (addr : Z) (respsize : option Z)
  : aoresult_t * option aoosp_tele_t * option Z :=
  match tele with
  | None => (aoresult_outargnull, tele, respsize)
  | Some t =>
    if negb (AOOSP_ADDR_ISOK addr) then (aoresult_osp_addr, tele, respsize) else
    let payloadsize := 0 in
    let tid := 0x40 in
    let respsize := set_respsize respsize (4 + 1) in
    let t := set_size t (payloadsize + 4) in
    let t := set_data t 0 (Z.lor 0xA0 (BITS_SLICE addr 6 10)) in
    let t := set_data t 1 (Z.lor (Z.shiftl (BITS_SLICE addr 0 6) 2) (BITS_SLICE (SIZE2PSI payloadsize) 1 3)) in
    let t := set_data t 2 (Z.lor (Z.shiftl (BITS_SLICE (SIZE2PSI payloadsize) 0 1) 7) tid) in
    let t := set_data t 3 (aoosp_crc (tele_bytes t (size t - 1))) in
    (aoresult_ok, Some t, respsize)
  end.

Definition aoosp_des_readstat (tele : option aoosp_tele_t) (stat : option Z)
  : aoresult_t * option Z :=
  let payloadsize := 1 in
  match tele, stat with
  | Some t, Some _ =>
    if negb (size t =? 4 + payloadsize) then (aoresult_osp_size, stat) else
    if negb (TELEPSI t =? SIZE2PSI payloadsize) then (aoresult_osp_psi, stat) else
    if negb (BITS_SLICE (data_at t 0) 4 8 =? 0xA) then (aoresult_osp_preamble, stat) else
    if negb (BITS_SLICE (data_at t 2) 0 7 =? 0x40) then (aoresult_osp_tid, stat) else
    if negb (aoosp_crc (tele_bytes t (size t)) =? 0) then (aoresult_osp_crc, stat) else
    let stat := Some (data_at t 3) in
    (aoresult_ok, stat)
  | _, _ => (aoresult_outargnull, stat)
  end.

(** *** Telegram 42 READTEMPSTAT *)

Definition aoosp_con_readtempstat (tele : option aoosp_tele_t) (addr : Z) (respsize : option Z)
  : aoresult_t * option aoosp_tele_t * option Z :=
  match tele with
  | None => (aoresult_outargnull, tele, respsize)
  | Some t =>
    if negb (AOOSP_ADDR_ISOK addr) then (aoresult_osp_addr, tele, respsize) else
    let payloadsize := 0 in
    let tid := 0x42 in
    let respsize := set_respsize respsize (4 + 2) in
    let t := set_size t (payloadsize + 4) in
    let t := set_data t 0 (Z.lor 0xA0 (BITS_SLICE addr 6 10)) in
    let t := set_data t 1 (Z.lor (Z.shiftl (BITS_SLICE addr 0 6) 2) (BITS_SLICE (SIZE2PSI payloadsize) 1 3)) in
    let t := set_data t 2 (Z.lor (Z.shiftl (BITS_SLICE (SIZE2PSI payloadsize) 0 1) 7) tid) in
    let t := set_data t 3 (aoosp_crc (tele_bytes t (size t - 1))) in
    (aoresult_ok, Some t, respsize)
  end.

Definition aoosp_des_readtempstat (tele : option aoosp_tele_t) (temp stat : option Z)
  : aoresult_t * (option Z * option Z) :=
  let payloadsize := 2 in
  match tele, temp, stat with
  | Some t, Some _, Some _ =>
    if negb (size t =? 4 + payloadsize) then (aoresult_osp_size, (temp, stat)) else
    if negb (TELEPSI t =? SIZE2PSI payloadsize) then (aoresult_osp_psi, (temp, stat)) else
    if negb (BITS_SLICE (data_at t 0) 4 8 =? 0xA) then (aoresult_osp_preamble, (temp, stat)) else
    if negb (BITS_SLICE (data_at t 2) 0 7 =? 0x42) then (aoresult_osp_tid, (temp, stat)) else
    if negb (aoosp_crc (tele_bytes t (size t)) =? 0) then (aoresult_osp_crc, (temp, stat)) else
    let temp := Some (data_at t 3) in
    let stat := Some (data_at t 4) in
    (aoresult_ok, (temp, stat))
  | _, _, _ => (aoresult_outargnull, (temp, stat))
  end.

(** *** Telegram 44 READCOMST *)

Definition aoosp_con_readcomst (tele : option aoosp_tele_t) (addr : Z) (respsize : option Z)
  : aoresult_t * option aoosp_tele_t * option Z :=
  match tele with
  | None => (aoresult_outargnull, tele, respsize)
  | Some t =>
    if negb (AOOSP_ADDR_ISOK addr) then (aoresult_osp_addr, tele, respsize) else
    let payloadsize := 0 in
    let tid := 0x44 in
    let respsize := set_respsize respsize (4 + 1) in
    let t := set_size t (payloadsize + 4) in
    let t := set_data t 0 (Z.lor 0xA0 (BITS_SLICE addr 6 10)) in
    let t := set_data t 1 (Z.lor (Z.shiftl (BITS_SLICE addr 0 6) 2) (BITS_SLICE (SIZE2PSI payloadsize) 1 3)) in
    let t := set_data t 2 (Z.lor (Z.shiftl (BITS_SLICE (SIZE2PSI payloadsize) 0 1) 7) tid) in
    let t := set_data t 3 (aoosp_crc (tele_bytes t (size t - 1))) in
    (aoresult_ok, Some t, respsize)
  end.

Definition aoosp_des_readcomst (tele : option aoosp_tele_t) (com : option Z)
  : aoresult_t * option Z :=
  let payloadsize := 1 in
  match tele, com with
  | Some t, Some _ =>
    if negb (size t =? 4 + payloadsize) then (aoresult_osp_size, com) else
    if negb (TELEPSI t =? SIZE2PSI payloadsize) then (aoresult_osp_psi, com) else
    if negb (BITS_SLICE (data_at t 0) 4 8 =? 0xA) then (aoresult_osp_preamble, com) else
    if negb (BITS_SLICE (data_at t 2) 0 7 =? 0x44) then (aoresult_osp_tid, com) else
    if negb (aoosp_crc (tele_bytes t (size t)) =? 0) then (aoresult_osp_crc, com) else
    let com := Some (data_at t 3) in
    (aoresult_ok, com)
  | _, _ => (aoresult_outargnull, com)
  end.

(** *** Telegram 48 READTEMP *)

Definition aoosp_con_readtemp (tele : option aoosp_tele_t) (addr : Z) (respsize : option Z)
  : aoresult_t * option aoosp_tele_t * option Z :=
  match tele with
  | None => (aoresult_outargnull, tele, respsize)
  | Some t =>
    if negb (AOOSP_ADDR_ISOK addr) then (aoresult_osp_addr, tele, respsize) else
    let payloadsize := 0 in
    let tid := 0x48 in
    let respsize := set_respsize respsize (4 + 1) in
    let t := set_size t (payloadsize + 4) in
    let t := set_data t 0 (Z.lor 0xA0 (BITS_SLICE addr 6 10)) in
    let t := set_data t 1 (Z.lor (Z.shiftl (BITS_SLICE addr 0 6) 2) (BITS_SLICE (SIZE2PSI payloadsize) 1 3)) in
    let t := set_data t 2 (Z.lor (Z.shiftl (BITS_SLICE (SIZE2PSI payloadsize) 0 1) 7) tid) in
    let t := set_data t 3 (aoosp_crc (tele_bytes t (size t - 1))) in
    (aoresult_ok, Some t, respsize)
  end.

Definition aoosp_des_readtemp (tele : option aoosp_tele_t) (temp : option Z)
  : aoresult_t * option Z :=
  let payloadsize := 1 in
  match tele, temp with
  | Some t, Some _ =>
    if negb (size t =? 4 + payloadsize) then (aoresult_osp_size, temp) else
    if negb (TELEPSI t =? SIZE2PSI payloadsize) then (aoresult_osp_psi, temp) else
    if negb (BITS_SLICE (data_at t 0) 4 8 =? 0xA) then (aoresult_osp_preamble, temp) else
    if negb (BITS_SLICE (data_at t 2) 0 7 =? 0x48) then (aoresult_osp_tid, temp) else
    if negb (aoosp_crc (tele_bytes t (size t)) =? 0) then (aoresult_osp_crc, temp) else
    let temp := Some (data_at t 3) in
    (aoresult_ok, temp)
  | _, _ => (aoresult_outargnull, temp)
  end.

(** *** Telegram 4C READSETUP *)

Definition aoosp_con_readsetup (tele : option aoosp_tele_t) (addr : Z) (respsize : option Z)
  : aoresult_t * option aoosp_tele_t * option Z :=
  match tele with
  | None => (aoresult_outargnull, tele, respsize)
  | Some t =>
    if negb (AOOSP_ADDR_ISOK addr) then (aoresult_osp_addr, tele, respsize) else
    let payloadsize := 0 in
    let tid := 0x4C in
    let respsize := set_respsize respsize (4 + 1) in
    let t := set_size t (payloadsize + 4) in
    let t := set_data t 0 (Z.lor 0xA0 (BITS_SLICE addr 6 10)) in
    let t := set_data t 1 (Z.lor (Z.shiftl (BITS_SLICE addr 0 6) 2) (BITS_SLICE (SIZE2PSI payloadsize) 1 3)) in
    let t := set_data t 2 (Z.lor (Z.shiftl (BITS_SLICE (SIZE2PSI payloadsize) 0 1) 7) tid) in
    let t := set_data t 3 (aoosp_crc (tele_bytes t (size t - 1))) in
    (aoresult_ok, Some t, respsize)
  end.

Definition aoosp_des_readsetup (tele : option aoosp_tele_t) (flags : option Z)
  : aoresult_t * option Z :=
  let payloadsize := 1 in
  match tele, flags with
  | Some t, Some _ =>
    if negb (size t =? 4 + payloadsize) then (aoresult_osp_size, flags) else
    if negb (TELEPSI t =? SIZE2PSI payloadsize) then (aoresult_osp_psi, flags) else
    if negb (BITS_SLICE (data_at t 0) 4 8 =? 0xA) then (aoresult_osp_preamble, flags) else
    if negb (BITS_SLICE (data_at t 2) 0 7 =? 0x4C) then (aoresult_osp_tid, flags) else
    if negb (aoosp_crc (tele_bytes t (size t)) =? 0) then (aoresult_osp_crc, flags) else
    let flags := Some (data_at t 3) in
    (aoresult_ok, flags)
  | _, _ => (aoresult_outargnull, flags)
  end.

(** *** Telegram 4D SETSETUP *)

Definition aoosp_con_setsetup (tele : option aoosp_tele_t) (addr : Z) (flags : Z)
  : aoresult_t * option aoosp_tele_t :=
  match tele with
  | None => (aoresult_outargnull, tele)
  | Some t =>
    if negb (AOOSP_ADDR_ISOK addr) then (aoresult_osp_addr, tele) else
    let payloadsize := 1 in
    let tid := 0x4D in
    let t := set_size t (payloadsize + 4) in
    let t := set_data t 0 (Z.lor 0xA0 (BITS_SLICE addr 6 10)) in
    let t := set_data t 1 (Z.lor (Z.shiftl (BITS_SLICE addr 0 6) 2) (BITS_SLICE (SIZE2PSI payloadsize) 1 3)) in
    let t := set_data t 2 (Z.lor (Z.shiftl (BITS_SLICE (SIZE2PSI payloadsize) 0 1) 7) tid) in
    let t := set_data t 3 flags in
    let t := set_data t 4 (aoosp_crc (tele_bytes t (size t - 1))) in
    (aoresult_ok, Some t)
  end.


(** *** Telegram 4E READPWM (RGBi only) *)

Definition aoosp_con_readpwm (tele : option aoosp_tele_t) (addr : Z) (respsize : option Z)
  : aoresult_t * option aoosp_tele_t * option Z :=
  match tele with
  | None => (aoresult_outargnull, tele, respsize)
  | Some t =>
    if negb (AOOSP_ADDR_ISOK addr) then (aoresult_osp_addr, tele, respsize) else
    let payloadsize := 0 in
    let tid := 0x4E in
    let respsize := set_respsize respsize (4 + 6) in
    let t := set_size t (payloadsize + 4) in
    let t := set_data t 0 (Z.lor 0xA0 (BITS_SLICE addr 6 10)) in
    let t := set_data t 1 (Z.lor (Z.shiftl (BITS_SLICE addr 0 6) 2) (BITS_SLICE (SIZE2PSI payloadsize) 1 3)) in
    let t := set_data t 2 (Z.lor (Z.shiftl (BITS_SLICE (SIZE2PSI payloadsize) 0 1) 7) tid) in
    let t := set_data t 3 (aoosp_crc (tele_bytes t (size t - 1))) in
    (aoresult_ok, Some t, respsize)
  end.

Definition aoosp_des_readpwm (tele : option aoosp_tele_t) (red green blue daytimes : option Z)
  : aoresult_t * (option Z * option Z * option Z * option Z) :=
  let payloadsize := 6 in
  match tele, red, green, blue, daytimes with
  | Some t, Some _, Some _, Some _, Some _ =>
    if negb (size t =? 4 + payloadsize) then (aoresult_osp_size, (red, green, blue, daytimes)) else
    if negb (TELEPSI t =? SIZE2PSI payloadsize) then (aoresult_osp_psi, (red, green, blue, daytimes)) else
    if negb (BITS_SLICE (data_at t 0) 4 8 =? 0xA) then (aoresult_osp_preamble, (red, green, blue, daytimes)) else
    if negb (BITS_SLICE (data_at t 2) 0 7 =? 0x4E) then (aoresult_osp_tid, (red, green, blue, daytimes)) else
    if negb (aoosp_crc (tele_bytes t (size t)) =? 0) then (aoresult_osp_crc, (red, green, blue, daytimes)) else
    let red := Some (u16 (Z.lor (Z.shiftl (BITS_SLICE (data_at t 3) 0 7) 8) (data_at t 4))) in
    let green := Some (u16 (Z.lor (Z.shiftl (BITS_SLICE (data_at t 5) 0 7) 8) (data_at t 6))) in
    let blue := Some (u16 (Z.lor (Z.shiftl (BITS_SLICE (data_at t 7) 0 7) 8) (data_at t 8))) in
    let daytimes := Some (u8 (Z.lor (Z.lor (Z.shiftl (BITS_SLICE (data_at t 3) 7 8) 2)
                                        (Z.shiftl (BITS_SLICE (data_at t 5) 7 8) 1))
                                 (BITS_SLICE (data_at t 7) 7 8))) in
    (aoresult_ok, (red, green, blue, daytimes))
  | _, _, _, _, _ => (aoresult_outargnull, (red, green, blue, daytimes))
  end.

(** *** Telegram 4E READPWMCHN (SAID only) *)

Definition aoosp_con_readpwmchn (tele : option aoosp_tele_t) (addr : Z) (chn : Z) (respsize : option Z)
  : aoresult_t * option aoosp_tele_t * option Z :=
  match tele with
  | None => (aoresult_outargnull, tele, respsize)
  | Some t =>
    if negb (AOOSP_ADDR_ISOK addr) then (aoresult_osp_addr, tele, respsize) else
    if negb (chn =? 0) && negb (chn =? 1) && negb (chn =? 2) then (aoresult_osp_arg, tele, respsize) else
    let payloadsize := 1 in
    let tid := 0x4E in
    let respsize := set_respsize respsize (4 + 6) in
    let t := set_size t (payloadsize + 4) in
    let t := set_data t 0 (Z.lor 0xA0 (BITS_SLICE addr 6 10)) in
    let t := set_data t 1 (Z.lor (Z.shiftl (BITS_SLICE addr 0 6) 2) (BITS_SLICE (SIZE2PSI payloadsize) 1 3)) in
    let t := set_data t 2 (Z.lor (Z.shiftl (BITS_SLICE (SIZE2PSI payloadsize) 0 1) 7) tid) in
    let t := set_data t 3 chn in
    let t := set_data t 4 (aoosp_crc (tele_bytes t (size t - 1))) in
    (aoresult_ok, Some t, respsize)
  end.

Definition aoosp_des_readpwmchn (tele : option aoosp_tele_t) (red green blue : option Z)
  : aoresult_t * (option Z * option Z * option Z) :=
  let payloadsize := 6 in
  match tele, red, green, blue with
  | Some t, Some _, Some _, Some _ =>
    if negb (size t =? 4 + payloadsize) then (aoresult_osp_size, (red, green, blue)) else
    if negb (TELEPSI t =? SIZE2PSI payloadsize) then (aoresult_osp_psi, (red, green, blue)) else
    if negb (BITS_SLICE (data_at t 0) 4 8 =? 0xA) then (aoresult_osp_preamble, (red, green, blue)) else
    if negb (BITS_SLICE (data_at t 2) 0 7 =? 0x4E) then (aoresult_osp_tid, (red, green, blue)) else
    if negb (aoosp_crc (tele_bytes t (size t)) =? 0) then (aoresult_osp_crc, (red, green, blue)) else
    let red := Some (u16 (Z.lor (Z.shiftl (data_at t 3) 8) (data_at t 4))) in
    let green := Some (u16 (Z.lor (Z.shiftl (data_at t 5) 8) (data_at t 6))) in
    let blue := Some (u16 (Z.lor (Z.shiftl (data_at t 7) 8) (data_at t 8))) in
    (aoresult_ok, (red, green, blue))
  | _, _, _, _ => (aoresult_outargnull, (red, green, blue))
  end.

(** *** Telegram 4F SETPWM (RGBi only) *)

Definition aoosp_con_setpwm (tele : option aoosp_tele_t) (addr : Z) (red green blue daytimes : Z)
  : aoresult_t * option aoosp_tele_t :=
  match tele with
  | None => (aoresult_outargnull, tele)
  | Some t =>
    if negb (AOOSP_ADDR_ISOK addr) then (aoresult_osp_addr, tele) else
    if nonzero (Z.land red (Z.lnot (BITS_MASK 15))) then (aoresult_osp_arg, tele) else
    if nonzero (Z.land green (Z.lnot (BITS_MASK 15))) then (aoresult_osp_arg, tele) else
    if nonzero (Z.land blue (Z.lnot (BITS_MASK 15))) then (aoresult_osp_arg, tele) else
    if nonzero (Z.land daytimes (Z.lnot (BITS_MASK 3))) then (aoresult_osp_arg, tele) else
    let payloadsize := 6 in
    let tid := 0x4F in
    let t := set_size t (payloadsize + 4) in
    let t := set_data t 0 (Z.lor 0xA0 (BITS_SLICE addr 6 10)) in
    let t := set_data t 1 (Z.lor (Z.shiftl (BITS_SLICE addr 0 6) 2) (BITS_SLICE (SIZE2PSI payloadsize) 1 3)) in
    let t := set_data t 2 (Z.lor (Z.shiftl (BITS_SLICE (SIZE2PSI payloadsize) 0 1) 7) tid) in
    let t := set_data t 3 (Z.lor (Z.shiftl (BITS_SLICE daytimes 2 3) 7) (BITS_SLICE red 8 15)) in
    let t := set_data t 4 (BITS_SLICE red 0 8) in
    let t := set_data t 5 (Z.lor (Z.shiftl (BITS_SLICE daytimes 1 2) 7) (BITS_SLICE green 8 15)) in
    let t := set_data t 6 (BITS_SLICE green 0 8) in
    let t := set_data t 7 (Z.lor (Z.shiftl (BITS_SLICE daytimes 0 1) 7) (BITS_SLICE blue 8 15)) in
    let t := set_data t 8 (BITS_SLICE blue 0 8) in
    let t := set_data t 9 (aoosp_crc (tele_bytes t (size t - 1))) in
    (aoresult_ok, Some t)
  end.

(** *** Telegram 4F SETPWMCHN (SAID only) *)

Definition aoosp_con_setpwmchn (tele : option aoosp_tele_t) (addr : Z) (chn red green blue : Z)
  : aoresult_t * option aoosp_tele_t :=
  match tele with
  | None => (aoresult_outargnull, tele)
  | Some t =>
    if negb (AOOSP_ADDR_ISOK addr) then (aoresult_osp_addr, tele) else
    if negb (chn =? 0) && negb (chn =? 1) && negb (chn =? 2) then (aoresult_osp_arg, tele) else
    let payloadsize := 8 in
    let tid := 0x4F in
    let t := set_size t (payloadsize + 4) in
    let t := set_data t 0 (Z.lor 0xA0 (BITS_SLICE addr 6 10)) in
    let t := set_data t 1 (Z.lor (Z.shiftl (BITS_SLICE addr 0 6) 2) (BITS_SLICE (SIZE2PSI payloadsize) 1 3)) in
    let t := set_data t 2 (Z.lor (Z.shiftl (BITS_SLICE (SIZE2PSI payloadsize) 0 1) 7) tid) in
    let t := set_data t 3 chn in
    let t := set_data t 4 0xFF in
    let t := set_data t 5 (BITS_SLICE red 8 16) in
    let t := set_data t 6 (BITS_SLICE red 0 8) in
    let t := set_data t 7 (BITS_SLICE green 8 16) in
    let t := set_data t 8 (BITS_SLICE green 0 8) in
    let t := set_data t 9 (BITS_SLICE blue 8 16) in
    let t := set_data t 10 (BITS_SLICE blue 0 8) in
    let t := set_data t 11 (aoosp_crc (tele_bytes t (size t - 1))) in
    (aoresult_ok, Some t)
  end.

(** *** Telegram 50 READCURCHN *)

Definition aoosp_con_readcurchn (tele : option aoosp_tele_t) (addr : Z) (chn : Z) (respsize : option Z)
  : aoresult_t * option aoosp_tele_t * option Z :=
  match tele with
  | None => (aoresult_outargnull, tele, respsize)
  | Some t =>
    if negb (AOOSP_ADDR_ISOK addr) then (aoresult_osp_addr, tele, respsize) else
    if negb (chn =? 0) && negb (chn =? 1) && negb (chn =? 2) then (aoresult_osp_arg, tele, respsize) else
    let payloadsize := 1 in
    let tid := 0x50 in
    let respsize := set_respsize respsize (4 + 2) in
    let t := set_size t (payloadsize + 4) in
    let t := set_data t 0 (Z.lor 0xA0 (BITS_SLICE addr 6 10)) in
    let t := set_data t 1 (Z.lor (Z.shiftl (BITS_SLICE addr 0 6) 2) (BITS_SLICE (SIZE2PSI payloadsize) 1 3)) in
    let t := set_data t 2 (Z.lor (Z.shiftl (BITS_SLICE (SIZE2PSI payloadsize) 0 1) 7) tid) in
    let t := set_data t 3 chn in
    let t := set_data t 4 (aoosp_crc (tele_bytes t (size t - 1))) in
    (aoresult_ok, Some t, respsize)
  end.

Definition aoosp_des_readcurchn (tele : option aoosp_tele_t) (flags rcur gcur bcur : option Z)
  : aoresult_t * (option Z * option Z * option Z * option Z) :=
  let payloadsize := 2 in
  match tele, flags, rcur, gcur, bcur with
  | Some t, Some _, Some _, Some _, Some _ =>
    if negb (size t =? 4 + payloadsize) then (aoresult_osp_size, (flags, rcur, gcur, bcur)) else
    if negb (TELEPSI t =? SIZE2PSI payloadsize) then (aoresult_osp_psi, (flags, rcur, gcur, bcur)) else
    if negb (BITS_SLICE (data_at t 0) 4 8 =? 0xA) then (aoresult_osp_preamble, (flags, rcur, gcur, bcur)) else
    if negb (BITS_SLICE (data_at t 2) 0 7 =? 0x50) then (aoresult_osp_tid, (flags, rcur, gcur, bcur)) else
    if negb (aoosp_crc (tele_bytes t (size t)) =? 0) then (aoresult_osp_crc, (flags, rcur, gcur, bcur)) else
    let flags := Some (u8 (BITS_SLICE (data_at t 3) 4 8)) in
    let rcur := Some (u8 (BITS_SLICE (data_at t 3) 0 4)) in
    let gcur := Some (u8 (BITS_SLICE (data_at t 4) 4 8)) in
    let bcur := Some (u8 (BITS_SLICE (data_at t 4) 0 4)) in
    (aoresult_ok, (flags, rcur, gcur, bcur))
  | _, _, _, _, _ => (aoresult_outargnull, (flags, rcur, gcur, bcur))
  end.

(** *** Telegram 51 SETCURCHN *)

Definition AOOSP_CUR_NORM_OK (v : Z) : bool := (0 <=? v) && (v <=? 4).
Definition AOOSP_CUR_AGE_OK (v : Z) : bool := (8 <=? v) && (v <=? 11).
Definition AOOSP_CUR_OK (v : Z) : bool := AOOSP_CUR_NORM_OK v || AOOSP_CUR_AGE_OK v.

Definition aoosp_con_setcurchn (tele : option aoosp_tele_t) (addr : Z) (chn flags rcur gcur bcur : Z)
  : aoresult_t * option aoosp_tele_t :=
  match tele with
  | None => (aoresult_outargnull, tele)
  | Some t =>
    if negb (AOOSP_ADDR_ISOK addr) then (aoresult_osp_addr, tele) else
    if nonzero (Z.land flags (Z.lnot 0x07)) then (aoresult_osp_arg, tele) else
    if negb (AOOSP_CUR_OK rcur) then (aoresult_osp_arg, tele) else
    if negb (AOOSP_CUR_OK gcur) then (aoresult_osp_arg, tele) else
    if negb (AOOSP_CUR_OK bcur) then (aoresult_osp_arg, tele) else
    if negb (chn =? 0) && negb (chn =? 1) && negb (chn =? 2) then (aoresult_osp_arg, tele) else
    let payloadsize := 3 in
    let tid := 0x51 in
    let t := set_size t (payloadsize + 4) in
    let t := set_data t 0 (Z.lor 0xA0 (BITS_SLICE addr 6 10)) in
    let t := set_data t 1 (Z.lor (Z.shiftl (BITS_SLICE addr 0 6) 2) (BITS_SLICE (SIZE2PSI payloadsize) 1 3)) in
    let t := set_data t 2 (Z.lor (Z.shiftl (BITS_SLICE (SIZE2PSI payloadsize) 0 1) 7) tid) in
    let t := set_data t 3 chn in
    let t := set_data t 4 (Z.lor (Z.shiftl flags 4) rcur) in
    let t := set_data t 5 (Z.lor (Z.shiftl gcur 4) bcur) in
    let t := set_data t 6 (aoosp_crc (tele_bytes t (size t - 1))) in
    (aoresult_ok, Some t)
  end.

(** *** Telegram 56 READI2CCFG *)

Definition aoosp_con_readi2ccfg (tele : option aoosp_tele_t) (addr : Z) (respsize : option Z)
  : aoresult_t * option aoosp_tele_t * option Z :=
  match tele with
  | None => (aoresult_outargnull, tele, respsize)
  | Some t =>
    if negb (AOOSP_ADDR_ISOK addr) then (aoresult_osp_addr, tele, respsize) else
    let payloadsize := 0 in
    let tid := 0x56 in
    let respsize := set_respsize respsize (4 + 1) in
    let t := set_size t (payloadsize + 4) in
    let t := set_data t 0 (Z.lor 0xA0 (BITS_SLICE addr 6 10)) in
    let t := set_data t 1 (Z.lor (Z.shiftl (BITS_SLICE addr 0 6) 2) (BITS_SLICE (SIZE2PSI payloadsize) 1 3)) in
    let t := set_data t 2 (Z.lor (Z.shiftl (BITS_SLICE (SIZE2PSI payloadsize) 0 1) 7) tid) in
    let t := set_data t 3 (aoosp_crc (tele_bytes t (size t - 1))) in
    (aoresult_ok, Some t, respsize)
  end.

Definition aoosp_des_readi2ccfg (tele : option aoosp_tele_t) (flags speed : option Z)
  : aoresult_t * (option Z * option Z) :=
  let payloadsize := 1 in
  match tele, flags, speed with
  | Some t, Some _, Some _ =>
    if negb (size t =? 4 + payloadsize) then (aoresult_osp_size, (flags, speed)) else
    if negb (TELEPSI t =? SIZE2PSI payloadsize) then (aoresult_osp_psi, (flags, speed)) else
    if negb (BITS_SLICE (data_at t 0) 4 8 =? 0xA) then (aoresult_osp_preamble, (flags, speed)) else
    if negb (BITS_SLICE (data_at t 2) 0 7 =? 0x56) then (aoresult_osp_tid, (flags, speed)) else
    if negb (aoosp_crc (tele_bytes t (size t)) =? 0) then (aoresult_osp_crc, (flags, speed)) else
    let flags := Some (u8 (BITS_SLICE (data_at t 3) 4 8)) in
    let speed := Some (u8 (BITS_SLICE (data_at t 3) 0 4)) in
    (aoresult_ok, (flags, speed))
  | _, _, _ => (aoresult_outargnull, (flags, speed))
  end.

(** *** Telegram 57 SETI2CCFG *)

Definition aoosp_con_seti2ccfg (tele : option aoosp_tele_t) (addr : Z) (flags speed : Z)
  : aoresult_t * option aoosp_tele_t :=
  match tele with
  | None => (aoresult_outargnull, tele)
  | Some t =>
    if negb (AOOSP_ADDR_ISOK addr) then (aoresult_osp_addr, tele) else
    if nonzero (Z.land flags (Z.lnot 0x0F)) then (aoresult_osp_arg, tele) else
    if nonzero (Z.land speed (Z.lnot 0x0F)) then (aoresult_osp_arg, tele) else
    if speed =? 0 then (aoresult_osp_arg, tele) else
    let payloadsize := 1 in
    let tid := 0x57 in
    let t := set_size t (payloadsize + 4) in
    let t := set_data t 0 (Z.lor 0xA0 (BITS_SLICE addr 6 10)) in
    let t := set_data t 1 (Z.lor (Z.shiftl (BITS_SLICE addr 0 6) 2) (BITS_SLICE (SIZE2PSI payloadsize) 1 3)) in
    let t := set_data t 2 (Z.lor (Z.shiftl (BITS_SLICE (SIZE2PSI payloadsize) 0 1) 7) tid) in
    let t := set_data t 3 (Z.lor (Z.shiftl flags 4) speed) in
    let t := set_data t 4 (aoosp_crc (tele_bytes t (size t - 1))) in
    (aoresult_ok, Some t)
  end.

(** *** Telegram 58 READOTP *)

Definition aoosp_con_readotp (tele : option aoosp_tele_t) (addr : Z) (otpaddr : Z) (respsize : option Z)
  : aoresult_t * option aoosp_tele_t * option Z :=
  match tele with
  | None => (aoresult_outargnull, tele, respsize)
  | Some t =>
    if negb (AOOSP_ADDR_ISOK addr) then (aoresult_osp_addr, tele, respsize) else
    if 0x1F <? otpaddr then (aoresult_osp_arg, tele, respsize) else
    let payloadsize := 1 in
    let tid := 0x58 in
    let respsize := set_respsize respsize (4 + 8) in
    let t := set_size t (payloadsize + 4) in
    let t := set_data t 0 (Z.lor 0xA0 (BITS_SLICE addr 6 10)) in
    let t := set_data t 1 (Z.lor (Z.shiftl (BITS_SLICE addr 0 6) 2) (BITS_SLICE (SIZE2PSI payloadsize) 1 3)) in
    let t := set_data t 2 (Z.lor (Z.shiftl (BITS_SLICE (SIZE2PSI payloadsize) 0 1) 7) tid) in
    let t := set_data t 3 otpaddr in
    let t := set_data t 4 (aoosp_crc (tele_bytes t (size t - 1))) in
    (aoresult_ok, Some t, respsize)
  end.

(** OSP telegrams are big endian, C byte arrays little endian: the row is
    reversed while it is copied out. *)
Definition aoosp_des_readotp (tele : option aoosp_tele_t) (buf : option (list Z)) (size' : Z)
  : aoresult_t * option (list Z) :=
  let payloadsize := 8 in
  match tele, buf with
  | Some t, Some b =>
    if negb (size t =? 4 + payloadsize) then (aoresult_osp_size, buf) else
    if negb (TELEPSI t =? SIZE2PSI payloadsize) then (aoresult_osp_psi, buf) else
    if negb (BITS_SLICE (data_at t 0) 4 8 =? 0xA) then (aoresult_osp_preamble, buf) else
    if negb (BITS_SLICE (data_at t 2) 0 7 =? 0x58) then (aoresult_osp_tid, buf) else
    if negb (aoosp_crc (tele_bytes t (size t)) =? 0) then (aoresult_osp_crc, buf) else
    if (size' <? 1) || (8 <? size') then (aoresult_osp_arg, buf) else
    let b := for_loop (Z.to_nat size') 0 (fun i b => list_set b i (data_at t (10 - i))) b in
    (aoresult_ok, Some b)
  | _, _ => (aoresult_outargnull, buf)
  end.

(** *** Telegram 59 SETOTP *)

(** [buf] is read without a null check; it is taken as the array it points to. *)
Definition aoosp_con_setotp (tele : option aoosp_tele_t) (addr : Z) (otpaddr : Z) (buf : list Z) (size' : Z)
  : aoresult_t * option aoosp_tele_t :=
  match tele with
  | None => (aoresult_outargnull, tele)
  | Some t =>
    if negb (AOOSP_ADDR_ISOK addr) then (aoresult_osp_addr, tele) else
    if 0x1F <? otpaddr then (aoresult_osp_arg, tele) else
    if negb (size' =? 7) then (aoresult_osp_arg, tele) else
    let payloadsize := 8 in
    let tid := 0x59 in
    let t := set_size t (payloadsize + 4) in
    let t := set_data t 0 (Z.lor 0xA0 (BITS_SLICE addr 6 10)) in
    let t := set_data t 1 (Z.lor (Z.shiftl (BITS_SLICE addr 0 6) 2) (BITS_SLICE (SIZE2PSI payloadsize) 1 3)) in
    let t := set_data t 2 (Z.lor (Z.shiftl (BITS_SLICE (SIZE2PSI payloadsize) 0 1) 7) tid) in
    let t := for_loop (Z.to_nat size') 0 (fun i t => set_data t (9 - i) (nth i buf 0)) t in
    let t := set_data t 10 otpaddr in
    let t := set_data t 11 (aoosp_crc (tele_bytes t (size t - 1))) in
    (aoresult_ok, Some t)
  end.

(** *** Telegram 5B SETTESTDATA *)

Definition aoosp_con_settestdata (tele : option aoosp_tele_t) (addr : Z) (data' : Z)
  : aoresult_t * option aoosp_tele_t :=
  match tele with
  | None => (aoresult_outargnull, tele)
  | Some t =>
    if negb (AOOSP_ADDR_ISOK addr) then (aoresult_osp_addr, tele) else
    let payloadsize := 2 in
    let tid := 0x5B in
    let t := set_size t (payloadsize + 4) in
    let t := set_data t 0 (Z.lor 0xA0 (BITS_SLICE addr 6 10)) in
    let t := set_data t 1 (Z.lor (Z.shiftl (BITS_SLICE addr 0 6) 2) (BITS_SLICE (SIZE2PSI payloadsize) 1 3)) in
    let t := set_data t 2 (Z.lor (Z.shiftl (BITS_SLICE (SIZE2PSI payloadsize) 0 1) 7) tid) in
    let t := set_data t 3 (BITS_SLICE data' 8 16) in
    let t := set_data t 4 (BITS_SLICE data' 0 8) in
    let t := set_data t 5 (aoosp_crc (tele_bytes t (size t - 1))) in
    (aoresult_ok, Some t)
  end.

(** *** Telegram 5F SETTESTPW *)

Definition AOOSP_SAID_TESTPW_UNKNOWN : Z := 0x0000FFFFFFFFFFFF.

(** [memcpy(&tele->data[3], &pw, 6)] on the little-endian host: byte [i] of
    [pw] goes to [data[3+i]]. *)
Definition aoosp_con_settestpw (tele : option aoosp_tele_t) (addr : Z) (pw : Z)
  : aoresult_t * option aoosp_tele_t :=
  match tele with
  | None => (aoresult_outargnull, tele)
  | Some t =>
    if negb (AOOSP_ADDR_ISOK addr) then (aoresult_osp_addr, tele) else
    if nonzero (Z.land pw (Z.lnot 0x0000FFFFFFFFFFFF)) then (aoresult_osp_arg, tele) else
    let payloadsize := 6 in
    let tid := 0x5F in
    let t := set_size t (payloadsize + 4) in
    let t := set_data t 0 (Z.lor 0xA0 (BITS_SLICE addr 6 10)) in
    let t := set_data t 1 (Z.lor (Z.shiftl (BITS_SLICE addr 0 6) 2) (BITS_SLICE (SIZE2PSI payloadsize) 1 3)) in
    let t := set_data t 2 (Z.lor (Z.shiftl (BITS_SLICE (SIZE2PSI payloadsize) 0 1) 7) tid) in
    let t := for_loop 6 0 (fun i t => set_data t (3 + i) (Z.shiftr pw (8 * Z.of_nat i))) t in
    let t := set_data t 9 (aoosp_crc (tele_bytes t (size t - 1))) in
    (aoresult_ok, Some t)
  end.

End Codec.

(** ** Host state and the exchange driver *)

(** The mutable state the library touches: the bus history, the cached
    chain length of [aoosp_exec.cpp] and the test password of [aoosp.cpp]. *)
Record host : Type := mk_host {
  spi_log : list spi_event;
  aoosp_exec_resetinit_last_ : Z;
  aoosp_said_testpw : Z
}.

Definition M (A : Type) : Type := host -> A * host.

Definition ret {A : Type} (a : A) : M A := fun h => (a, h).
Definition bind {A B : Type} (m : M A) (k : A -> M B) : M B :=
  fun h => let (a, h') := m h in k a h'.

Declare Scope host_scope.
Delimit Scope host_scope with host.
Notation "x <- m ;; k" := (bind m (fun x => k))
  (at level 61, m at next level, right associativity) : host_scope.
Notation "' p <- m ;; k" := (bind m (fun p => k))
  (at level 61, p pattern, m at next level, right associativity) : host_scope.
Notation "m ;;; k" := (bind m (fun _ => k))
  (at level 61, right associativity) : host_scope.

Definition log_event (e : spi_event) : M unit :=
  fun h => (tt, mk_host (spi_log h ++ [e]) (aoosp_exec_resetinit_last_ h) (aoosp_said_testpw h)).

Definition set_resetinit_last (v : Z) : M unit :=
  fun h => (tt, mk_host (spi_log h) (u16 v) (aoosp_said_testpw h)).

Definition aoosp_said_testpw_get : M Z := fun h => (aoosp_said_testpw h, h).
Definition aoosp_said_testpw_set (pw : Z) : M unit :=
  fun h => (tt, mk_host (spi_log h) (aoosp_exec_resetinit_last_ h) pw).

Definition aospi_dirmux_set_loop : M unit := log_event ev_dirmux_loop.
Definition aospi_dirmux_set_bidir : M unit := log_event ev_dirmux_bidir.
Definition delayMicroseconds (us : Z) : M unit := log_event (ev_delay_us us).
Definition delay (ms : Z) : M unit := log_event (ev_delay_ms ms).

(** Content of a cell that is known to be non-null. *)
Definition cell_get (c : option Z) : Z := match c with Some v => v | None => 0 end.
Definition deref_tele (t : option aoosp_tele_t) : aoosp_tele_t :=
  match t with Some t => t | None => uninit_tele end.

Section Driver.
Context {P : Platform}.
Local Open Scope host_scope.

Definition aospi_tx (tx : list Z) : M aoresult_t :=
  fun h => (aospi_tx_result (spi_log h) tx, snd (log_event (ev_tx tx) h)).

Definition aospi_txrx (tx : list Z) (rxsize : Z) : M (aoresult_t * list Z) :=
  fun h => (aospi_txrx_result (spi_log h) tx rxsize, snd (log_event (ev_txrx tx rxsize) h)).

(** The body shared by every [aoosp_send_xxx] of a telegram without
    response: construct, then transmit, each step run only while the
    accumulated result is ok. *)
Definition send_tx (con : option aoosp_tele_t -> aoresult_t * option aoosp_tele_t)
  : M aoresult_t :=
  fun h =>
  let tele := Some uninit_tele in
  let result := aoresult_ok in
  let con_result := aoresult_ok in
  let spi_result := aoresult_ok in
  let '(con_result, tele) := if is_ok result then con tele else (con_result, tele) in
  let result := if negb (is_ok con_result) then con_result else result in
  let '(spi_result, h) :=
    if is_ok result
    then aospi_tx (tele_bytes (deref_tele tele) (size (deref_tele tele))) h
    else (spi_result, h) in
  let result := if negb (is_ok spi_result) then spi_result else result in
  (result, h).

(** The body shared by every [aoosp_send_xxx] of a telegram with a
    response: construct, transmit and receive [resp.size] bytes into
    [resp.data], destruct.  [outs] are the caller's out parameters. *)
Definition send_txrx {O : Type}
  (con : option aoosp_tele_t -> option Z -> aoresult_t * option aoosp_tele_t * option Z)
  (des : option aoosp_tele_t -> O -> aoresult_t * O) (outs : O)
  : M (aoresult_t * O) :=
  fun h =>
  let tele := Some uninit_tele in
  let resp := uninit_tele in
  let result := aoresult_ok in
  let con_result := aoresult_ok in
  let spi_result := aoresult_ok in
  let des_result := aoresult_ok in
  let '(con_result, tele, respsize) :=
    if is_ok result then con tele (Some (size resp)) else (con_result, tele, Some (size resp)) in
  let resp := mk_tele (data resp) (cell_get respsize) in
  let result := if negb (is_ok con_result) then con_result else result in
  let '(spi_result, resp, h) :=
    if is_ok result
    then let '(r, rx, h') :=
           aospi_txrx (tele_bytes (deref_tele tele) (size (deref_tele tele))) (size resp) h in
         (r, mk_tele rx (size resp), h')
    else (spi_result, resp, h) in
  let result := if negb (is_ok spi_result) then spi_result else result in
  let '(des_result, outs) :=
    if is_ok result then des (Some resp) outs else (des_result, outs) in
  let result := if negb (is_ok des_result) then des_result else result in
  (result, outs, h).

Definition aoosp_send_reset (addr : Z) : M aoresult_t :=
  send_tx (fun tele => aoosp_con_reset tele addr).
Definition aoosp_send_clrerror (addr : Z) : M aoresult_t :=
  send_tx (fun tele => aoosp_con_clrerror tele addr).
Definition aoosp_send_initbidir (addr : Z) (last temp stat : option Z)
  : M (aoresult_t * (option Z * option Z * option Z)) :=
  send_txrx (fun tele rs => aoosp_con_initbidir tele addr rs)
            (fun resp '(last, temp, stat) => aoosp_des_initbidir resp last temp stat)
            (last, temp, stat).
Definition aoosp_send_initloop (addr : Z) (last temp stat : option Z)
  : M (aoresult_t * (option Z * option Z * option Z)) :=
  send_txrx (fun tele rs => aoosp_con_initloop tele addr rs)
            (fun resp '(last, temp, stat) => aoosp_des_initloop resp last temp stat)
            (last, temp, stat).
Definition aoosp_send_gosleep (addr : Z) : M aoresult_t :=
  send_tx (fun tele => aoosp_con_gosleep tele addr).
Definition aoosp_send_goactive (addr : Z) : M aoresult_t :=
  send_tx (fun tele => aoosp_con_goactive tele addr).
Definition aoosp_send_identify (addr : Z) (id : option Z) : M (aoresult_t * option Z) :=
  send_txrx (fun tele rs => aoosp_con_identify tele addr rs) aoosp_des_identify id.
Definition aoosp_send_readmult (addr : Z) (groups : option Z) : M (aoresult_t * option Z) :=
  send_txrx (fun tele rs => aoosp_con_readmult tele addr rs) aoosp_des_readmult groups.
Definition aoosp_send_setmult (addr groups : Z) : M aoresult_t :=
  send_tx (fun tele => aoosp_con_setmult tele addr groups).
Definition aoosp_send_sync (addr : Z) : M aoresult_t :=
  send_tx (fun tele => aoosp_con_sync tele addr).
Definition aoosp_send_idle (addr : Z) : M aoresult_t :=
  send_tx (fun tele => aoosp_con_idle tele addr).
Definition aoosp_send_foundry (addr : Z) : M aoresult_t :=
  send_tx (fun tele => aoosp_con_foundry tele addr).
Definition aoosp_send_cust (addr : Z) : M aoresult_t :=
  send_tx (fun tele => aoosp_con_cust tele addr).
Definition aoosp_send_burn (addr : Z) : M aoresult_t :=
  send_tx (fun tele => aoosp_con_burn tele addr).
Definition aoosp_send_i2cread8 (addr daddr7 raddr count : Z) : M aoresult_t :=
  send_tx (fun tele => aoosp_con_i2cread8 tele addr daddr7 raddr count).
Definition aoosp_send_i2cwrite8 (addr daddr7 raddr : Z) (buf : option (list Z)) (count : Z)
  : M aoresult_t :=
  send_tx (fun tele => aoosp_con_i2cwrite8 tele addr daddr7 raddr buf count).
Definition aoosp_send_readlast (addr : Z) (buf : option (list Z)) (size' : Z)
  : M (aoresult_t * option (list Z)) :=
  send_txrx (fun tele rs => aoosp_con_readlast tele addr rs)
            (fun resp buf => aoosp_des_readlast resp buf size') buf.
Definition aoosp_send_goactive_sr (addr : Z) (temp : Z) (stat : option Z)
  : M (aoresult_t * (Z * option Z)) :=
  send_txrx (fun tele rs => aoosp_con_goactive_sr tele addr rs)
            (fun resp '(temp, stat) => aoosp_des_goactive_sr resp temp stat) (temp, stat).
Definition aoosp_send_readstat (addr : Z) (stat : option Z) : M (aoresult_t * option Z) :=
  send_txrx (fun tele rs => aoosp_con_readstat tele addr rs) aoosp_des_readstat stat.
Definition aoosp_send_readtempstat (addr : Z) (temp stat : option Z)
  : M (aoresult_t * (option Z * option Z)) :=
  send_txrx (fun tele rs => aoosp_con_readtempstat tele addr rs)
            (fun resp '(temp, stat) => aoosp_des_readtempstat resp temp stat) (temp, stat).
Definition aoosp_send_readcomst (addr : Z) (com : option Z) : M (aoresult_t * option Z) :=
  send_txrx (fun tele rs => aoosp_con_readcomst tele addr rs) aoosp_des_readcomst com.
Definition aoosp_send_readtemp (addr : Z) (temp : option Z) : M (aoresult_t * option Z) :=
  send_txrx (fun tele rs => aoosp_con_readtemp tele addr rs) aoosp_des_readtemp temp.
Definition aoosp_send_readsetup (addr : Z) (flags : option Z) : M (aoresult_t * option Z) :=
  send_txrx (fun tele rs => aoosp_con_readsetup tele addr rs) aoosp_des_readsetup flags.
Definition aoosp_send_setsetup (addr flags : Z) : M aoresult_t :=
  send_tx (fun tele => aoosp_con_setsetup tele addr flags).
Definition aoosp_send_readpwm (addr : Z) (red green blue daytimes : option Z)
  : M (aoresult_t * (option Z * option Z * option Z * option Z)) :=
  send_txrx (fun tele rs => aoosp_con_readpwm tele addr rs)
            (fun resp '(red, green, blue, daytimes) => aoosp_des_readpwm resp red green blue daytimes)
            (red, green, blue, daytimes).
Definition aoosp_send_readpwmchn (addr chn : Z) (red green blue : option Z)
  : M (aoresult_t * (option Z * option Z * option Z)) :=
  send_txrx (fun tele rs => aoosp_con_readpwmchn tele addr chn rs)
            (fun resp '(red, green, blue) => aoosp_des_readpwmchn resp red green blue)
            (red, green, blue).
Definition aoosp_send_setpwm (addr red green blue daytimes : Z) : M aoresult_t :=
  send_tx (fun tele => aoosp_con_setpwm tele addr red green blue daytimes).
Definition aoosp_send_setpwmchn (addr chn red green blue : Z) : M aoresult_t :=
  send_tx (fun tele => aoosp_con_setpwmchn tele addr chn red green blue).
Definition aoosp_send_readcurchn (addr chn : Z) (flags rcur gcur bcur : option Z)
  : M (aoresult_t * (option Z * option Z * option Z * option Z)) :=
  send_txrx (fun tele rs => aoosp_con_readcurchn tele addr chn rs)
            (fun resp '(flags, rcur, gcur, bcur) => aoosp_des_readcurchn resp flags rcur gcur bcur)
            (flags, rcur, gcur, bcur).
Definition aoosp_send_setcurchn (addr chn flags rcur gcur bcur : Z) : M aoresult_t :=
  send_tx (fun tele => aoosp_con_setcurchn tele addr chn flags rcur gcur bcur).
Definition aoosp_send_readi2ccfg (addr : Z) (flags speed : option Z)
  : M (aoresult_t * (option Z * option Z)) :=
  send_txrx (fun tele rs => aoosp_con_readi2ccfg tele addr rs)
            (fun resp '(flags, speed) => aoosp_des_readi2ccfg resp flags speed) (flags, speed).
Definition aoosp_send_seti2ccfg (addr flags speed : Z) : M aoresult_t :=
  send_tx (fun tele => aoosp_con_seti2ccfg tele addr flags speed).
Definition aoosp_send_readotp (addr otpaddr : Z) (buf : option (list Z)) (size' : Z)
  : M (aoresult_t * option (list Z)) :=
  send_txrx (fun tele rs => aoosp_con_readotp tele addr otpaddr rs)
            (fun resp buf => aoosp_des_readotp resp buf size') buf.
Definition aoosp_send_setotp (addr otpaddr : Z) (buf : list Z) (size' : Z) : M aoresult_t :=
  send_tx (fun tele => aoosp_con_setotp tele addr otpaddr buf size').
Definition aoosp_send_settestdata (addr data' : Z) : M aoresult_t :=
  send_tx (fun tele => aoosp_con_settestdata tele addr data').
Definition aoosp_send_settestpw (addr pw : Z) : M aoresult_t :=
  send_tx (fun tele => aoosp_con_settestpw tele addr pw).

End Driver.

(** ** Multi-telegram procedures ([aoosp_exec.cpp]) *)

Definition AOOSP_I2CCFG_FLAGS_INT : Z := 0x08.
Definition AOOSP_I2CCFG_FLAGS_12BIT : Z := 0x04.
Definition AOOSP_I2CCFG_FLAGS_NACK : Z := 0x02.
Definition AOOSP_I2CCFG_FLAGS_BUSY : Z := 0x01.

Section Exec.
Context {P : Platform}.
Local Open Scope host_scope.

(** [last] and [loop] are the optional out parameters; the locals [last_],
    [temp_] and [stat_] are passed to the send functions by address. *)
Definition aoosp_exec_resetinit (last loop : option Z)
  : M (aoresult_t * (option Z * option Z)) :=
  (* Set "fail" values for output parameters *)
  set_resetinit_last 0 ;;;
  let last := option_map (fun _ => 0x000) last in
  let loop := option_map (fun _ => -1) loop in
  (* First, try RESET for INITLOOP *)
  result <- aoosp_send_reset 0x000 ;;
  delayMicroseconds 150 ;;;
  if negb (is_ok result) then ret (result, (last, loop)) else
  (* Try INITLOOP *)
  aospi_dirmux_set_loop ;;;
  '(result, (last_, temp_, stat_)) <- aoosp_send_initloop 0x001 (Some 0) (Some 0) (Some 0) ;;
  if is_ok result then
    set_resetinit_last (cell_get last_) ;;;
    let last := option_map (fun _ => cell_get last_) last in
    let loop := option_map (fun _ => 1) loop in
    ret (result, (last, loop))
  else
  if negb (is_noclock result) then ret (result, (last, loop)) else
  (* Next, try RESET for INITBIDIR *)
  result <- aoosp_send_reset 0x000 ;;
  delayMicroseconds 150 ;;;
  if negb (is_ok result) then ret (result, (last, loop)) else
  (* Try INITBIDIR *)
  aospi_dirmux_set_bidir ;;;
  '(result, (last_, temp_, stat_)) <- aoosp_send_initbidir 0x001 last_ temp_ stat_ ;;
  if is_ok result then
    set_resetinit_last (cell_get last_) ;;;
    let last := option_map (fun _ => cell_get last_) last in
    let loop := option_map (fun _ => 0) loop in
    ret (result, (last, loop))
  else
  if negb (is_noclock result) then ret (result, (last, loop)) else
  ret (aoresult_sys_cabling, (last, loop)).

Definition aoosp_exec_resetinit_last : M Z :=
  fun h => (aoosp_exec_resetinit_last_ h, h).

(** The [free_resources] label of [aoosp_exec_setotp]: unset the password
    when it was set, then return [result]. *)
Definition setotp_free_resources (addr : Z) (resource_pw : bool) (result : aoresult_t)
  : M aoresult_t :=
  (if resource_pw then aoosp_send_settestpw addr 0 ;;; ret tt else ret tt) ;;;
  ret result.

Definition aoosp_exec_setotp (addr otpaddr ormask andmask : Z) : M aoresult_t :=
  if (otpaddr <? 0x0D) || (0x1F <? otpaddr) then ret aoresult_osp_arg else
  let resource_pw := false in
  (* Set password for writing *)
  pw <- aoosp_said_testpw_get ;;
  result <- aoosp_send_settestpw addr pw ;;
  if negb (is_ok result) then setotp_free_resources addr resource_pw result else
  let resource_pw := true in
  (* Read current OTP row (read is always 8 bytes) *)
  '(result, buf) <- aoosp_send_readotp addr otpaddr (Some (repeat 0 8)) 8 ;;
  if negb (is_ok result) then setotp_free_resources addr resource_pw result else
  let buf := match buf with Some b => b | None => [] end in
  (* Mask in the new value *)
  let buf := list_set buf 0 (u8 (Z.lor (Z.land (nth 0 buf 0) andmask) ormask)) in
  (* Write back updated row (write is always 7 bytes, only first one changed) *)
  result <- aoosp_send_setotp addr otpaddr buf 7 ;;
  if negb (is_ok result) then setotp_free_resources addr resource_pw result else
  (* Ended without errors, still need to free resources *)
  let result := aoresult_ok in
  setotp_free_resources addr resource_pw result.

(** The busy-wait loop of the I2C procedures,
    [while( (flags&BUSY) && (tries>0) )], recursive in the counter [tries].
    A failing status read leaves the enclosing function with its result. *)
Fixpoint i2c_busy_wait (addr : Z) (tries : nat) (flags : Z) : M (aoresult_t * Z) :=
  match tries with
  | O => ret (aoresult_ok, flags)
  | S tries' =>
    if nonzero (Z.land flags AOOSP_I2CCFG_FLAGS_BUSY) then
      '(result, (flags', speed)) <- aoosp_send_readi2ccfg addr (Some flags) (Some 0) ;;
      if negb (is_ok result) then ret (result, cell_get flags') else
      delay 1 ;;;
      i2c_busy_wait addr tries' (cell_get flags')
    else ret (aoresult_ok, flags)
  end.

Definition aoosp_exec_i2cwrite8 (addr daddr7 raddr : Z) (buf : option (list Z)) (count : Z)
  : M aoresult_t :=
  (* Send an I2C write telegram *)
  result <- aoosp_send_i2cwrite8 addr daddr7 raddr buf count ;;
  if negb (is_ok result) then ret result else
  (* Wait (with timeout) until I2C transaction is completed (not busy) *)
  let flags := AOOSP_I2CCFG_FLAGS_BUSY in
  let tries := 10%nat in
  '(result, flags) <- i2c_busy_wait addr tries flags ;;
  if negb (is_ok result) then ret result else
  (* Was transaction successful *)
  if nonzero (Z.land flags AOOSP_I2CCFG_FLAGS_BUSY) then ret aoresult_dev_i2ctimeout else
  if nonzero (Z.land flags AOOSP_I2CCFG_FLAGS_NACK) then ret aoresult_dev_i2cnack else
  ret aoresult_ok.

Definition aoosp_exec_i2cread8 (addr daddr7 raddr : Z) (buf : option (list Z)) (count : Z)
  : M (aoresult_t * option (list Z)) :=
  (* Send an I2C read telegram *)
  result <- aoosp_send_i2cread8 addr daddr7 raddr count ;;
  if negb (is_ok result) then ret (result, buf) else
  (* Wait (with timeout) until I2C transaction is completed (not busy) *)
  let flags := AOOSP_I2CCFG_FLAGS_BUSY in
  let tries := 10%nat in
  '(result, flags) <- i2c_busy_wait addr tries flags ;;
  if negb (is_ok result) then ret (result, buf) else
  (* Was transaction successful *)
  if nonzero (Z.land flags AOOSP_I2CCFG_FLAGS_BUSY) then ret (aoresult_dev_i2ctimeout, buf) else
  if nonzero (Z.land flags AOOSP_I2CCFG_FLAGS_NACK) then ret (aoresult_dev_i2cnack, buf) else
  (* Get the read bytes *)
  aoosp_send_readlast addr buf count.

End Exec.

(** ** A reference platform for concrete runs *)

(** Modelled from the spec: the checksum [aoosp_crc] of [aoosp_crc.h] is not
    among the sources.  The spec fixes only its contract (an 8-bit checksum
    of a byte range, such that a frame followed by its checksum sums to
    zero); this bitwise CRC-8 with polynomial 0x2F meets it and serves
    wherever a concrete checksum is needed. *)
Fixpoint crc8_shift (n : nat) (c : Z) : Z :=
  match n with
  | O => c
  | S n' => crc8_shift n' (u8 (Z.lxor (Z.shiftl c 1) (if Z.testbit c 7 then 0x2F else 0)))
  end.
Definition crc8_step (c b : Z) : Z := crc8_shift 8 (Z.lxor c (u8 b)).
Definition crc8 (bytes : list Z) : Z := fold_left crc8_step bytes 0.

(** The telegram id of a request frame, as a simulated node reads it. *)
Definition frame_tid (tx : list Z) : Z := BITS_SLICE (nth 2 tx 0) 0 7.

(** The response a node at [addr] sends for telegram [tid] with [payload]. *)
Definition response_frame (addr tid : Z) (payload : list Z) : list Z :=
  let psi := SIZE2PSI (Z.of_nat (length payload)) in
  let body := [ u8 (Z.lor 0xA0 (BITS_SLICE addr 6 10));
                u8 (Z.lor (Z.shiftl (BITS_SLICE addr 0 6) 2) (BITS_SLICE psi 1 3));
                u8 (Z.lor (Z.shiftl (BITS_SLICE psi 0 1) 7) tid) ] ++ payload in
  body ++ [crc8 body].

(** A simulated bus: [tx_result] decides, from the history and the telegram
    id, how a transmission ends; [answer] gives the address and payload of
    the response to a request, or [None] when nothing comes back (no
    clock). *)
Definition sim_bus (tx_result : list spi_event -> Z -> aoresult_t)
                   (answer : list spi_event -> Z -> option (Z * list Z)) : Platform :=
  {| aoosp_crc := crc8;
     aospi_tx_result := fun log tx => tx_result log (frame_tid tx);
     aospi_txrx_result := fun log tx rxsize =>
       match tx_result log (frame_tid tx) with
       | aoresult_ok =>
         match answer log (frame_tid tx) with
         | Some (addr, payload) => (aoresult_ok, response_frame addr (frame_tid tx) payload)
         | None => (aoresult_spi_noclock, [])
         end
       | e => (e, [])
       end |}.

Definition is_txrx (e : spi_event) : bool :=
  match e with ev_txrx _ _ => true | _ => false end.
Definition count_txrx (log : list spi_event) : nat := length (filter is_txrx log).
Definition is_tx_of (tid : Z) (e : spi_event) : bool :=
  match e with ev_tx tx => frame_tid tx =? tid | _ => false end.

Definition always_ok (log : list spi_event) (tid : Z) : aoresult_t := aoresult_ok.

(** Nothing is connected: every request goes out, no response comes back. *)
Definition quiet_bus : Platform := sim_bus always_ok (fun _ _ => None).

(** A chain of [last] nodes wired as a loop: only INITLOOP is answered. *)
Definition loop_bus (last : Z) : Platform :=
  sim_bus always_ok (fun _ tid => if tid =? 0x03 then Some (last, [0x00; 0x50]) else None).

(** A chain of [last] nodes with a terminator: only INITBIDIR is answered. *)
Definition bidir_bus (last : Z) : Platform :=
  sim_bus always_ok (fun _ tid => if tid =? 0x02 then Some (last, [0x00; 0x50]) else None).

(** A SAID at address 1 whose OTP row reads [row] (eight bytes, the byte at
    the row address first; the wire carries them in reverse).  [tx_result]
    scripts the outcome of the transmissions. *)
Definition otp_bus (tx_result : list spi_event -> Z -> aoresult_t) (row : list Z) : Platform :=
  sim_bus tx_result (fun _ tid => if tid =? 0x58 then Some (0x001, rev row) else None).

(** A transport that fails the SETOTP telegram with [e]. *)
Definition fail_setotp (e : aoresult_t) (log : list spi_event) (tid : Z) : aoresult_t :=
  if tid =? 0x59 then e else aoresult_ok.

(** A transport that fails every SETTESTPW telegram after the first. *)
Definition fail_second_settestpw (e : aoresult_t) (log : list spi_event) (tid : Z) : aoresult_t :=
  if (tid =? 0x5F) && existsb (is_tx_of 0x5F) log then e else aoresult_ok.

(** A SAID with an I2C bridge at address 1: the first [busy] status reads
    report the busy flag, later ones report [flags]; READLAST returns
    [bytes]. *)
Definition i2c_bus (busy : nat) (flags : Z) (bytes : list Z) : Platform :=
  sim_bus always_ok (fun log tid =>
    if tid =? 0x56 then
      Some (0x001, [if (count_txrx log <? busy)%nat
                    then Z.lor (Z.shiftl AOOSP_I2CCFG_FLAGS_BUSY 4) 0x0C
                    else Z.lor (Z.shiftl flags 4) 0x0C])
    else if tid =? 0x1E then Some (0x001, bytes)
    else None).

Definition host0 : host := mk_host [] 0 AOOSP_SAID_TESTPW_UNKNOWN.

(** ** The command catalogue *)

(** One constructor per telegram constructor of the codec, with its
    arguments; [construct] dispatches to it.  This is what lets a statement
    range over every constructor. *)
Inductive request : Type :=
| RESET (addr : Z)
| CLRERROR (addr : Z)
| INITBIDIR (addr : Z)
| INITLOOP (addr : Z)
| GOSLEEP (addr : Z)
| GOACTIVE (addr : Z)
| IDENTIFY (addr : Z)
| READMULT (addr : Z)
| SETMULT (addr groups : Z)
| SYNC (addr : Z)
| IDLE (addr : Z)
| FOUNDRY (addr : Z)
| CUST (addr : Z)
| BURN (addr : Z)
| I2CREAD8 (addr daddr7 raddr count : Z)
| I2CWRITE8 (addr daddr7 raddr : Z) (buf : option (list Z)) (count : Z)
| READLAST (addr : Z)
| GOACTIVE_SR (addr : Z)
| READSTAT (addr : Z)
| READTEMPSTAT (addr : Z)
| READCOMST (addr : Z)
| READTEMP (addr : Z)
| READSETUP (addr : Z)
| SETSETUP (addr flags : Z)
| READPWM (addr : Z)
| READPWMCHN (addr chn : Z)
| SETPWM (addr red green blue daytimes : Z)
| SETPWMCHN (addr chn red green blue : Z)
| READCURCHN (addr chn : Z)
| SETCURCHN (addr chn flags rcur gcur bcur : Z)
| READI2CCFG (addr : Z)
| SETI2CCFG (addr flags speed : Z)
| READOTP (addr otpaddr : Z)
| SETOTP (addr otpaddr : Z) (buf : list Z) (size' : Z)
| SETTESTDATA (addr data' : Z)
| SETTESTPW (addr pw : Z).

(** The [payloadsize] constant of each constructor. *)
Definition request_payloadsize (r : request) : Z :=
  match r with
  | RESET _ | CLRERROR _ | INITBIDIR _ | INITLOOP _ | GOSLEEP _ | GOACTIVE _
  | IDENTIFY _ | READMULT _ | SYNC _ | IDLE _ | FOUNDRY _ | CUST _ | BURN _
  | READLAST _ | GOACTIVE_SR _ | READSTAT _ | READTEMPSTAT _ | READCOMST _
  | READTEMP _ | READSETUP _ | READPWM _ | READI2CCFG _ => 0
  | SETSETUP _ _ | READPWMCHN _ _ | READCURCHN _ _ | SETI2CCFG _ _ _ | READOTP _ _ => 1
  | SETMULT _ _ | SETTESTDATA _ _ => 2
  | I2CREAD8 _ _ _ _ | SETCURCHN _ _ _ _ _ _ => 3
  | I2CWRITE8 _ _ _ _ count => 2 + count
  | SETPWM _ _ _ _ _ | SETTESTPW _ _ => 6
  | SETPWMCHN _ _ _ _ _ | SETOTP _ _ _ _ => 8
  end.

(** The [tid] constant of each constructor. *)
Definition request_tid (r : request) : Z :=
  match r with
  | RESET _ => 0x00 | CLRERROR _ => 0x01 | INITBIDIR _ => 0x02 | INITLOOP _ => 0x03
  | GOSLEEP _ => 0x04 | GOACTIVE _ => 0x05 | IDENTIFY _ => 0x07 | READMULT _ => 0x0C
  | SETMULT _ _ => 0x0D | SYNC _ => 0x0F | IDLE _ => 0x11 | FOUNDRY _ => 0x12
  | CUST _ => 0x13 | BURN _ => 0x14 | I2CREAD8 _ _ _ _ => 0x18
  | I2CWRITE8 _ _ _ _ _ => 0x19 | READLAST _ => 0x1E | GOACTIVE_SR _ => 0x25
  | READSTAT _ => 0x40 | READTEMPSTAT _ => 0x42 | READCOMST _ => 0x44
  | READTEMP _ => 0x48 | READSETUP _ => 0x4C | SETSETUP _ _ => 0x4D
  | READPWM _ => 0x4E | READPWMCHN _ _ => 0x4E | SETPWM _ _ _ _ _ => 0x4F
  | SETPWMCHN _ _ _ _ _ => 0x4F | READCURCHN _ _ => 0x50
  | SETCURCHN _ _ _ _ _ _ => 0x51 | READI2CCFG _ => 0x56 | SETI2CCFG _ _ _ => 0x57
  | READOTP _ _ => 0x58 | SETOTP _ _ _ _ => 0x59 | SETTESTDATA _ _ => 0x5B
  | SETTESTPW _ _ => 0x5F
  end.

Section Catalogue.
Context {P : Platform}.

Definition construct (r : request) (tele : option aoosp_tele_t) (respsize : option Z)
  : aoresult_t * option aoosp_tele_t :=
  match r with
  | RESET addr => aoosp_con_reset tele addr
  | CLRERROR addr => aoosp_con_clrerror tele addr
  | INITBIDIR addr => fst (aoosp_con_initbidir tele addr respsize)
  | INITLOOP addr => fst (aoosp_con_initloop tele addr respsize)
  | GOSLEEP addr => aoosp_con_gosleep tele addr
  | GOACTIVE addr => aoosp_con_goactive tele addr
  | IDENTIFY addr => fst (aoosp_con_identify tele addr respsize)
  | READMULT addr => fst (aoosp_con_readmult tele addr respsize)
  | SETMULT addr groups => aoosp_con_setmult tele addr groups
  | SYNC addr => aoosp_con_sync tele addr
  | IDLE addr => aoosp_con_idle tele addr
  | FOUNDRY addr => aoosp_con_foundry tele addr
  | CUST addr => aoosp_con_cust tele addr
  | BURN addr => aoosp_con_burn tele addr
  | I2CREAD8 addr daddr7 raddr count => aoosp_con_i2cread8 tele addr daddr7 raddr count
  | I2CWRITE8 addr daddr7 raddr buf count => aoosp_con_i2cwrite8 tele addr daddr7 raddr buf count
  | READLAST addr => fst (aoosp_con_readlast tele addr respsize)
  | GOACTIVE_SR addr => fst (aoosp_con_goactive_sr tele addr respsize)
  | READSTAT addr => fst (aoosp_con_readstat tele addr respsize)
  | READTEMPSTAT addr => fst (aoosp_con_readtempstat tele addr respsize)
  | READCOMST addr => fst (aoosp_con_readcomst tele addr respsize)
  | READTEMP addr => fst (aoosp_con_readtemp tele addr respsize)
  | READSETUP addr => fst (aoosp_con_readsetup tele addr respsize)
  | SETSETUP addr flags => aoosp_con_setsetup tele addr flags
  | READPWM addr => fst (aoosp_con_readpwm tele addr respsize)
  | READPWMCHN addr chn => fst (aoosp_con_readpwmchn tele addr chn respsize)
  | SETPWM addr red green blue daytimes => aoosp_con_setpwm tele addr red green blue daytimes
  | SETPWMCHN addr chn red green blue => aoosp_con_setpwmchn tele addr chn red green blue
  | READCURCHN addr chn => fst (aoosp_con_readcurchn tele addr chn respsize)
  | SETCURCHN addr chn flags rcur gcur bcur => aoosp_con_setcurchn tele addr chn flags rcur gcur bcur
  | READI2CCFG addr => fst (aoosp_con_readi2ccfg tele addr respsize)
  | SETI2CCFG addr flags speed => aoosp_con_seti2ccfg tele addr flags speed
  | READOTP addr otpaddr => fst (aoosp_con_readotp tele addr otpaddr respsize)
  | SETOTP addr otpaddr buf size' => aoosp_con_setotp tele addr otpaddr buf size'
  | SETTESTDATA addr data' => aoosp_con_settestdata tele addr data'
  | SETTESTPW addr pw => aoosp_con_settestpw tele addr pw
  end.

(** The frame invariant of a constructed telegram with [payloadsize] bytes
    of payload. *)
Definition frame_invariant (payloadsize : Z) (t : aoosp_tele_t) : Prop :=
  size t = payloadsize + 4 /\
  4 <= size t <= 12 /\
  TELEPSI t = Z.min payloadsize 7 /\
  data_at t (Z.to_nat (size t - 1)) = aoosp_crc (tele_bytes t (size t - 1)).

End Catalogue.

(** One constructor per response decoder.  [destruct_result] runs it with
    [cell] behind every scalar out parameter and [buf] behind the buffer
    parameter, and returns its result code.  The [temp] of
    [aoosp_des_goactive_sr], which is stored through unchecked, is the
    object of [cell]; with a null [cell] the decoder returns at its null
    check, before the store. *)
Inductive decoder : Type :=
| DES_INITBIDIR | DES_INITLOOP | DES_IDENTIFY | DES_READMULT | DES_READLAST
| DES_GOACTIVE_SR | DES_READSTAT | DES_READTEMPSTAT | DES_READCOMST
| DES_READTEMP | DES_READSETUP | DES_READPWM | DES_READPWMCHN
| DES_READCURCHN | DES_READI2CCFG | DES_READOTP.

(** The [payloadsize] constant and the telegram id each decoder expects. *)
Definition decoder_payloadsize (d : decoder) : Z :=
  match d with
  | DES_READSTAT | DES_READCOMST | DES_READTEMP | DES_READSETUP | DES_READI2CCFG => 1
  | DES_INITBIDIR | DES_INITLOOP | DES_READMULT | DES_GOACTIVE_SR
  | DES_READTEMPSTAT | DES_READCURCHN => 2
  | DES_IDENTIFY => 4
  | DES_READPWM | DES_READPWMCHN => 6
  | DES_READLAST | DES_READOTP => 8
  end.

Definition decoder_tid (d : decoder) : Z :=
  match d with
  | DES_INITBIDIR => 0x02 | DES_INITLOOP => 0x03 | DES_IDENTIFY => 0x07
  | DES_READMULT => 0x0C | DES_READLAST => 0x1E | DES_GOACTIVE_SR => 0x25
  | DES_READSTAT => 0x40 | DES_READTEMPSTAT => 0x42 | DES_READCOMST => 0x44
  | DES_READTEMP => 0x48 | DES_READSETUP => 0x4C | DES_READPWM => 0x4E
  | DES_READPWMCHN => 0x4E | DES_READCURCHN => 0x50 | DES_READI2CCFG => 0x56
  | DES_READOTP => 0x58
  end.

Section Vocabulary.
Context {P : Platform}.
Local Open Scope host_scope.

Definition destruct_result (d : decoder) (tele : option aoosp_tele_t)
  (cell : option Z) (buf : option (list Z)) (size' : Z) : aoresult_t :=
  match d with
  | DES_INITBIDIR => fst (aoosp_des_initbidir tele cell cell cell)
  | DES_INITLOOP => fst (aoosp_des_initloop tele cell cell cell)
  | DES_IDENTIFY => fst (aoosp_des_identify tele cell)
  | DES_READMULT => fst (aoosp_des_readmult tele cell)
  | DES_READLAST => fst (aoosp_des_readlast tele buf size')
  | DES_GOACTIVE_SR => fst (aoosp_des_goactive_sr tele (cell_get cell) cell)
  | DES_READSTAT => fst (aoosp_des_readstat tele cell)
  | DES_READTEMPSTAT => fst (aoosp_des_readtempstat tele cell cell)
  | DES_READCOMST => fst (aoosp_des_readcomst tele cell)
  | DES_READTEMP => fst (aoosp_des_readtemp tele cell)
  | DES_READSETUP => fst (aoosp_des_readsetup tele cell)
  | DES_READPWM => fst (aoosp_des_readpwm tele cell cell cell cell)
  | DES_READPWMCHN => fst (aoosp_des_readpwmchn tele cell cell cell)
  | DES_READCURCHN => fst (aoosp_des_readcurchn tele cell cell cell cell)
  | DES_READI2CCFG => fst (aoosp_des_readi2ccfg tele cell cell)
  | DES_READOTP => fst (aoosp_des_readotp tele buf size')
  end.

(** [busy_polls addr n flags h flags' h']: from [h], with [flags] in the
    status variable, [n] rounds of the busy-wait loop ran, each status read
    succeeded and reported busy; the last one left [flags'] and the host
    [h']. *)
Inductive busy_polls (addr : Z) : nat -> Z -> host -> Z -> host -> Prop :=
| busy_polls_0 : forall flags h, busy_polls addr 0 flags h flags h
| busy_polls_S : forall n flags h flags1 h1 fl sp h2,
    busy_polls addr n flags h flags1 h1 ->
    aoosp_send_readi2ccfg addr (Some flags1) (Some 0) h1 = (aoresult_ok, (Some fl, sp), h2) ->
    nonzero (Z.land fl AOOSP_I2CCFG_FLAGS_BUSY) = true ->
    busy_polls addr (S n) flags h fl (snd (delay 1 h2)).

(** The host after [n] rounds of the busy-wait loop, and whether each of
    these status reads succeeded and reported busy. *)
Fixpoint run_polls (addr : Z) (n : nat) (flags : Z) (h : host) : Z * host :=
  match n with
  | O => (flags, h)
  | S n' =>
    let '(fl1, h1) := run_polls addr n' flags h in
    let '(_, (fl, _), h2) := aoosp_send_readi2ccfg addr (Some fl1) (Some 0) h1 in
    (cell_get fl, snd (delay 1 h2))
  end.

Fixpoint polls_all_busy (addr : Z) (n : nat) (flags : Z) (h : host) : bool :=
  match n with
  | O => true
  | S n' =>
    polls_all_busy addr n' flags h &&
    let '(fl1, h1) := run_polls addr n' flags h in
    let '(r, (fl, _), _) := aoosp_send_readi2ccfg addr (Some fl1) (Some 0) h1 in
    is_ok r &&
    match fl with
    | Some fl => nonzero (Z.land fl AOOSP_I2CCFG_FLAGS_BUSY)
    | None => false
    end
  end.

(** The bytes a constructor leaves on the wire: [(tele.data, tele.size)]. *)
Definition wire (c : aoresult_t * option aoosp_tele_t) : list Z :=
  tele_bytes (deref_tele (snd c)) (size (deref_tele (snd c))).

(** The steps of a discovery run, as [aoosp_exec_resetinit] strings them
    together: a broadcast RESET with its settle time, and the two
    initialisation attempts with their direction mux setting. *)
Definition discovery_reset : M aoresult_t :=
  result <- aoosp_send_reset 0x000 ;;
  delayMicroseconds 150 ;;;
  ret result.

Definition discovery_init_loop : M (aoresult_t * (option Z * option Z * option Z)) :=
  aospi_dirmux_set_loop ;;;
  aoosp_send_initloop 0x001 (Some 0) (Some 0) (Some 0).

Definition discovery_init_bidir (last_ temp_ stat_ : option Z)
  : M (aoresult_t * (option Z * option Z * option Z)) :=
  aospi_dirmux_set_bidir ;;;
  aoosp_send_initbidir 0x001 last_ temp_ stat_.

(** The payload bytes of a telegram, [data[3 .. size-2]]. *)
Definition payload (t : aoosp_tele_t) : list Z :=
  firstn (Z.to_nat (size t - 4)) (skipn 3 (data t)).

(** Byte [i] of the OTP row in a READOTP response and in a SETOTP request:
    both carry the row big endian, the response in [data[3..10]], the
    request in [data[3..9]] followed by the row address in [data[10]]. *)
Definition readotp_row (rx : list Z) (i : nat) : Z := nth (10 - i) rx 0.
Definition setotp_row (tx : list Z) (i : nat) : Z := nth (9 - i) tx 0.

End Vocabulary.

(** ** Further procedures of [aoosp_exec.cpp] *)

Definition AOOSP_IDENTIFY_MANUPART_SAID : Z := 0x001.
Definition AOOSP_IDENTIFY_ID2MANUPART (id : Z) : Z := Z.land (Z.shiftr id 6) 0x3FFFFF.
Definition AOOSP_IDENTIFY_IS_SAID (id : Z) : bool :=
  AOOSP_IDENTIFY_ID2MANUPART id =? AOOSP_IDENTIFY_MANUPART_SAID.

Section ExecOtpBits.
Context {P : Platform}.
Local Open Scope host_scope.

(** The body shared by [aoosp_exec_i2cenable_get] and
    [aoosp_exec_syncpinenable_get], which differ in [otp_bit] only: read
    the row at [otp_addr] into the local [buf] and test the bit of its
    first byte.  [enable] is the out parameter, an [int]. *)
Definition otp_bit_get (otp_addr otp_bit : Z) (addr : Z) (enable : option Z)
  : M (aoresult_t * option Z) :=
  match enable with
  | None => ret (aoresult_outargnull, enable)
  | Some _ =>
    (* Read current OTP row *)
    '(result, buf) <- aoosp_send_readotp addr otp_addr (Some (repeat 0 8)) 8 ;;
    if negb (is_ok result) then ret (result, enable) else
    let buf := match buf with Some b => b | None => [] end in
    (* Check the OTP bit *)
    let enable := Some (if nonzero (Z.land (nth 0 buf 0) otp_bit) then 1 else 0) in
    ret (aoresult_ok, enable)
  end.

(** The body shared by [aoosp_exec_i2cenable_set] and
    [aoosp_exec_syncpinenable_set]: the masks are [uint8_t], so
    [~otp_bit] is truncated to a byte. *)
Definition otp_bit_set (otp_addr otp_bit : Z) (addr : Z) (enable : Z) : M aoresult_t :=
  (* Compute masks *)
  let andmask := u8 (if nonzero enable then 0xFF else Z.lnot otp_bit) in
  let ormask := u8 (if nonzero enable then otp_bit else 0x00) in
  (* Set *)
  aoosp_exec_setotp addr otp_addr ormask andmask.

Definition aoosp_exec_i2cenable_get (addr : Z) (enable : option Z) : M (aoresult_t * option Z) :=
  otp_bit_get 0x0D 0x01 addr enable.
Definition aoosp_exec_i2cenable_set (addr : Z) (enable : Z) : M aoresult_t :=
  otp_bit_set 0x0D 0x01 addr enable.
Definition aoosp_exec_syncpinenable_get (addr : Z) (enable : option Z) : M (aoresult_t * option Z) :=
  otp_bit_get 0x0D 0x04 addr enable.
Definition aoosp_exec_syncpinenable_set (addr : Z) (enable : Z) : M aoresult_t :=
  otp_bit_set 0x0D 0x04 addr enable.

Definition aoosp_exec_i2cpower (addr : Z) : M aoresult_t :=
  (* Check (via IDENTITY) if node addr is a SAID *)
  '(result, id) <- aoosp_send_identify addr (Some 0) ;;
  if negb (is_ok result) then ret result else
  if negb (AOOSP_IDENTIFY_IS_SAID (cell_get id)) then ret aoresult_sys_id else
  (* Check (via OTP) if I2C bridging is enabled *)
  '(result, enable) <- aoosp_exec_i2cenable_get addr (Some 0) ;;
  if negb (is_ok result) then ret result else
  if negb (nonzero (cell_get enable)) then ret aoresult_dev_noi2cbridge else
  (* Power the bus *)
  result <- aoosp_send_setcurchn addr 2 0 4 4 4 ;;
  ret result.

End ExecOtpBits.

(** ** The catalogue of exchanges *)

(** The destination address of a request, and the decoder of its response
    (for the telegrams that have one). *)
Definition request_addr (r : request) : Z :=
  match r with
  | RESET addr | CLRERROR addr | INITBIDIR addr | INITLOOP addr | GOSLEEP addr
  | GOACTIVE addr | IDENTIFY addr | READMULT addr | SETMULT addr _ | SYNC addr
  | IDLE addr | FOUNDRY addr | CUST addr | BURN addr | I2CREAD8 addr _ _ _
  | I2CWRITE8 addr _ _ _ _ | READLAST addr | GOACTIVE_SR addr | READSTAT addr
  | READTEMPSTAT addr | READCOMST addr | READTEMP addr | READSETUP addr
  | SETSETUP addr _ | READPWM addr | READPWMCHN addr _ | SETPWM addr _ _ _ _
  | SETPWMCHN addr _ _ _ _ | READCURCHN addr _ | SETCURCHN addr _ _ _ _ _
  | READI2CCFG addr | SETI2CCFG addr _ _ | READOTP addr _ | SETOTP addr _ _ _
  | SETTESTDATA addr _ | SETTESTPW addr _ => addr
  end.

Definition request_response (r : request) : option decoder :=
  match r with
  | INITBIDIR _ => Some DES_INITBIDIR
  | INITLOOP _ => Some DES_INITLOOP
  | IDENTIFY _ => Some DES_IDENTIFY
  | READMULT _ => Some DES_READMULT
  | READLAST _ => Some DES_READLAST
  | GOACTIVE_SR _ => Some DES_GOACTIVE_SR
  | READSTAT _ => Some DES_READSTAT
  | READTEMPSTAT _ => Some DES_READTEMPSTAT
  | READCOMST _ => Some DES_READCOMST
  | READTEMP _ => Some DES_READTEMP
  | READSETUP _ => Some DES_READSETUP
  | READPWM _ => Some DES_READPWM
  | READPWMCHN _ _ => Some DES_READPWMCHN
  | READCURCHN _ _ => Some DES_READCURCHN
  | READI2CCFG _ => Some DES_READI2CCFG
  | READOTP _ _ => Some DES_READOTP
  | _ => None
  end.

Section Exchanges.
Context {P : Platform}.
Local Open Scope host_scope.

(** [send r cell buf size'] calls the [aoosp_send_xxx] of the request with
    [cell] behind every scalar out parameter and [(buf, size')] as the
    receiving buffer, and returns its result code. *)
Definition send (r : request) (cell : option Z) (buf : option (list Z)) (size' : Z)
  : M aoresult_t :=
  match r with
  | RESET addr => aoosp_send_reset addr
  | CLRERROR addr => aoosp_send_clrerror addr
  | INITBIDIR addr => o <- aoosp_send_initbidir addr cell cell cell ;; ret (fst o)
  | INITLOOP addr => o <- aoosp_send_initloop addr cell cell cell ;; ret (fst o)
  | GOSLEEP addr => aoosp_send_gosleep addr
  | GOACTIVE addr => aoosp_send_goactive addr
  | IDENTIFY addr => o <- aoosp_send_identify addr cell ;; ret (fst o)
  | READMULT addr => o <- aoosp_send_readmult addr cell ;; ret (fst o)
  | SETMULT addr groups => aoosp_send_setmult addr groups
  | SYNC addr => aoosp_send_sync addr
  | IDLE addr => aoosp_send_idle addr
  | FOUNDRY addr => aoosp_send_foundry addr
  | CUST addr => aoosp_send_cust addr
  | BURN addr => aoosp_send_burn addr
  | I2CREAD8 addr daddr7 raddr count => aoosp_send_i2cread8 addr daddr7 raddr count
  | I2CWRITE8 addr daddr7 raddr b count => aoosp_send_i2cwrite8 addr daddr7 raddr b count
  | READLAST addr => o <- aoosp_send_readlast addr buf size' ;; ret (fst o)
  | GOACTIVE_SR addr => o <- aoosp_send_goactive_sr addr (cell_get cell) cell ;; ret (fst o)
  | READSTAT addr => o <- aoosp_send_readstat addr cell ;; ret (fst o)
  | READTEMPSTAT addr => o <- aoosp_send_readtempstat addr cell cell ;; ret (fst o)
  | READCOMST addr => o <- aoosp_send_readcomst addr cell ;; ret (fst o)
  | READTEMP addr => o <- aoosp_send_readtemp addr cell ;; ret (fst o)
  | READSETUP addr => o <- aoosp_send_readsetup addr cell ;; ret (fst o)
  | SETSETUP addr flags => aoosp_send_setsetup addr flags
  | READPWM addr => o <- aoosp_send_readpwm addr cell cell cell cell ;; ret (fst o)
  | READPWMCHN addr chn => o <- aoosp_send_readpwmchn addr chn cell cell cell ;; ret (fst o)
  | SETPWM addr red green blue daytimes => aoosp_send_setpwm addr red green blue daytimes
  | SETPWMCHN addr chn red green blue => aoosp_send_setpwmchn addr chn red green blue
  | READCURCHN addr chn => o <- aoosp_send_readcurchn addr chn cell cell cell cell ;; ret (fst o)
  | SETCURCHN addr chn flags rcur gcur bcur => aoosp_send_setcurchn addr chn flags rcur gcur bcur
  | READI2CCFG addr => o <- aoosp_send_readi2ccfg addr cell cell ;; ret (fst o)
  | SETI2CCFG addr flags speed => aoosp_send_seti2ccfg addr flags speed
  | READOTP addr otpaddr => o <- aoosp_send_readotp addr otpaddr buf size' ;; ret (fst o)
  | SETOTP addr otpaddr b size'' => aoosp_send_setotp addr otpaddr b size''
  | SETTESTDATA addr data' => aoosp_send_settestdata addr data'
  | SETTESTPW addr pw => aoosp_send_settestpw addr pw
  end.

End Exchanges.

(** What a decoder leaves in its out parameters, in the order of the
    parameter list, and in the buffer; the companion of [destruct_result].
    For [aoosp_des_goactive_sr] the first entry is what the object of
    [temp] holds, when there is one. *)
Section DecoderOutputs.
Context {P : Platform}.

Definition destruct_outputs (d : decoder) (tele : option aoosp_tele_t)
  (cell : option Z) (buf : option (list Z)) (size' : Z)
  : list (option Z) * option (list Z) :=
  match d with
  | DES_INITBIDIR =>
      let '(_, (last, temp, stat)) := aoosp_des_initbidir tele cell cell cell in
      ([last; temp; stat], buf)
  | DES_INITLOOP =>
      let '(_, (last, temp, stat)) := aoosp_des_initloop tele cell cell cell in
      ([last; temp; stat], buf)
  | DES_IDENTIFY => ([snd (aoosp_des_identify tele cell)], buf)
  | DES_READMULT => ([snd (aoosp_des_readmult tele cell)], buf)
  | DES_READLAST => ([], snd (aoosp_des_readlast tele buf size'))
  | DES_GOACTIVE_SR =>
      let '(_, (temp, stat)) := aoosp_des_goactive_sr tele (cell_get cell) cell in
      ([option_map (fun _ => temp) cell; stat], buf)
  | DES_READSTAT => ([snd (aoosp_des_readstat tele cell)], buf)
  | DES_READTEMPSTAT =>
      let '(_, (temp, stat)) := aoosp_des_readtempstat tele cell cell in ([temp; stat], buf)
  | DES_READCOMST => ([snd (aoosp_des_readcomst tele cell)], buf)
  | DES_READTEMP => ([snd (aoosp_des_readtemp tele cell)], buf)
  | DES_READSETUP => ([snd (aoosp_des_readsetup tele cell)], buf)
  | DES_READPWM =>
      let '(_, (red, green, blue, daytimes)) := aoosp_des_readpwm tele cell cell cell cell in
      ([red; green; blue; daytimes], buf)
  | DES_READPWMCHN =>
      let '(_, (red, green, blue)) := aoosp_des_readpwmchn tele cell cell cell in
      ([red; green; blue], buf)
  | DES_READCURCHN =>
      let '(_, (flags, rcur, gcur, bcur)) := aoosp_des_readcurchn tele cell cell cell cell in
      ([flags; rcur; gcur; bcur], buf)
  | DES_READI2CCFG =>
      let '(_, (flags, speed)) := aoosp_des_readi2ccfg tele cell cell in ([flags; speed], buf)
  | DES_READOTP => ([], snd (aoosp_des_readotp tele buf size'))
  end.

(** The number of scalar out parameters of a decoder. *)
Definition decoder_cells (d : decoder) : nat :=
  match d with
  | DES_READLAST | DES_READOTP => 0
  | DES_IDENTIFY | DES_READMULT | DES_READSTAT | DES_READCOMST | DES_READTEMP
  | DES_READSETUP => 1
  | DES_GOACTIVE_SR | DES_READTEMPSTAT | DES_READI2CCFG => 2
  | DES_INITBIDIR | DES_INITLOOP | DES_READPWMCHN => 3
  | DES_READPWM | DES_READCURCHN => 4
  end.

End DecoderOutputs.

(** ** The reference platform, continued *)

(** A transport that fails every telegram with id [tid]. *)
Definition fail_tid (tid : Z) (e : aoresult_t) (log : list spi_event) (tid' : Z) : aoresult_t :=
  if tid' =? tid then e else aoresult_ok.

(** A node at address 1 that identifies with [id] and whose OTP row reads
    [row]; [tx_result] scripts the outcome of the transmissions. *)
Definition node_bus (tx_result : list spi_event -> Z -> aoresult_t) (id : Z) (row : list Z)
  : Platform :=
  sim_bus tx_result (fun _ tid =>
    if tid =? 0x07 then
      Some (0x001, [BITS_SLICE id 24 32; BITS_SLICE id 16 24; BITS_SLICE id 8 16;
                    BITS_SLICE id 0 8])
    else if tid =? 0x58 then Some (0x001, rev row)
    else None).

(** An I2C bridge that stays busy, on a transport that fails the status
    read once [polls] of them went through. *)
Definition fail_status_read (polls : nat) (e : aoresult_t) : Platform :=
  sim_bus (fun log tid =>
             if (tid =? 0x56) && (polls <=? count_txrx log)%nat then e else aoresult_ok)
          (fun _ tid =>
             if tid =? 0x56
             then Some (0x001, [Z.lor (Z.shiftl AOOSP_I2CCFG_FLAGS_BUSY 4) 0x0C])
             else None).

(** ** Pretty printing helpers ([aoosp_prt.cpp]) *)

(** The conversions compute in [int]; [/] on [int] truncates toward zero,
    which is [Z.quot].  The parameter is a [uint8_t]. *)
Definition aoosp_prt_temp_rgbi (temp : Z) : Z :=
  Z.quot (temp * 108 + 50) 100 - 126.

Definition aoosp_prt_temp_said (temp : Z) : Z :=
  let temp100 := (temp - 116) * 100 in
  let round := if temp100 <? 0 then -42 else 42 in
  Z.quot (temp100 + round) 85 + 25.

Definition aoosp_prt_i2ccfg_speed (speed : Z) : Z :=
  let div := 2 * (speed * 8 + 7) in
  Z.quot (19200 * 1000 + Z.quot div 2) div.

(** The values of a [uint8_t], for exhaustive checks. *)
Definition all_bytes : list Z := map Z.of_nat (seq 0 256).

(** The scalar arguments of a request besides the address, all of unsigned
    C types, and the arguments a constructor accepts, as ranges. *)
Definition request_args (r : request) : list Z :=
  match r with
  | SETMULT _ groups => [groups]
  | I2CREAD8 _ daddr7 raddr count => [daddr7; raddr; count]
  | I2CWRITE8 _ daddr7 raddr _ count => [daddr7; raddr; count]
  | SETSETUP _ flags => [flags]
  | READPWMCHN _ chn => [chn]
  | SETPWM _ red green blue daytimes => [red; green; blue; daytimes]
  | SETPWMCHN _ chn red green blue => [chn; red; green; blue]
  | READCURCHN _ chn => [chn]
  | SETCURCHN _ chn flags rcur gcur bcur => [chn; flags; rcur; gcur; bcur]
  | SETI2CCFG _ flags speed => [flags; speed]
  | READOTP _ otpaddr => [otpaddr]
  | SETOTP _ otpaddr _ _ => [otpaddr]
  | SETTESTDATA _ data' => [data']
  | SETTESTPW _ pw => [pw]
  | _ => []
  end.

Definition current_legal (cur : Z) : Prop := cur <= 4 \/ 8 <= cur <= 11.

Definition request_legal (r : request) : Prop :=
  match r with
  | SETMULT _ groups => groups < 2 ^ 15
  | I2CREAD8 _ daddr7 _ count => daddr7 <= 127 /\ 1 <= count <= 8
  | I2CWRITE8 _ daddr7 _ buf count =>
      buf <> None /\ daddr7 <= 127 /\ (count = 1 \/ count = 2 \/ count = 4 \/ count = 6)
  | READPWMCHN _ chn | READCURCHN _ chn | SETPWMCHN _ chn _ _ _ => chn <= 2
  | SETPWM _ red green blue daytimes =>
      red < 2 ^ 15 /\ green < 2 ^ 15 /\ blue < 2 ^ 15 /\ daytimes < 2 ^ 3
  | SETCURCHN _ chn flags rcur gcur bcur =>
      chn <= 2 /\ flags < 2 ^ 3 /\
      current_legal rcur /\ current_legal gcur /\ current_legal bcur
  | SETI2CCFG _ flags speed => flags < 2 ^ 4 /\ 1 <= speed < 2 ^ 4
  | READOTP _ otpaddr => otpaddr <= 0x1F
  | SETOTP _ otpaddr _ size' => otpaddr <= 0x1F /\ size' = 7
  | SETTESTPW _ pw => pw < 2 ^ 48
  | _ => True
  end.

(** *** [aoosp_prt_bytes] and its buffer *)

(** The pretty printers return the one static buffer [aoosp_prt_buf], an
    array of [AOOSP_PRT_BUF_SIZE] characters.  A store is [None] when it
    falls outside the array. *)
Definition AOOSP_PRT_BUF_SIZE : Z := 48.
Definition NUL : ascii := Ascii.zero.

Fixpoint store (buf : list ascii) (p : nat) (c : ascii) : option (list ascii) :=
  match buf, p with
  | [], _ => None
  | _ :: b, O => Some (c :: b)
  | x :: b, S p' => option_map (cons x) (store b p' c)
  end.

Fixpoint store_all (buf : option (list ascii)) (p : nat) (s : list ascii)
  : option (list ascii) :=
  match s with
  | [] => buf
  | c :: s' =>
    match buf with
    | Some b => store_all (store b p c) (S p) s'
    | None => None
    end
  end.

(** [snprintf(p, n, ...)] of the standard library, for output [s]: at most
    [n - 1] characters of [s] are stored at [p], then a terminating NUL
    (nothing is stored when [n] is 0); the value is the length of [s]. *)
Definition snprintf (buf : option (list ascii)) (p n : Z) (s : list ascii)
  : option (list ascii) * Z :=
  (if 0 <? n then store_all buf (Z.to_nat p) (firstn (Z.to_nat (n - 1)) s ++ [NUL]) else buf,
   Z.of_nat (length s)).

(** The output of the format ["%02X "] for a byte. *)
Definition hex_upper (d : Z) : ascii :=
  nth (Z.to_nat d)
      ["0"; "1"; "2"; "3"; "4"; "5"; "6"; "7"; "8"; "9"; "A"; "B"; "C"; "D"; "E"; "F"]%char
      "0"%char.
Definition format_02X_space (b : Z) : list ascii :=
  [hex_upper (b / 16); hex_upper (b mod 16); " "%char].

(** The loop of [aoosp_prt_bytes], recursive in a counter that bounds the
    number of rounds; the state is the buffer, [p] (as an offset into the
    buffer) and [remain], and the value includes the final [i]. *)
Fixpoint prt_bytes_loop (rounds : nat) (bytes : list Z) (size i : Z)
  (st : option (list ascii) * Z * Z) : option (list ascii) * Z * Z * Z :=
  match rounds with
  | O => (st, i)
  | S rounds' =>
    if (i <? size) && (3 * i <? AOOSP_PRT_BUF_SIZE - 1) then
      let '(buf, p, remain) := st in
      let '(buf, num) := snprintf buf p remain (format_02X_space (nth (Z.to_nat i) bytes 0)) in
      prt_bytes_loop rounds' bytes size (i + 1) (buf, p + num, remain - num)
    else (st, i)
  end.

Definition aoosp_prt_bytes (aoosp_prt_buf : list ascii) (bytes : list Z) (size : Z)
  : option (list ascii) :=
  let p := 0 in
  let remain := AOOSP_PRT_BUF_SIZE in
  let '(buf, p, remain, i) :=
    prt_bytes_loop (Z.to_nat AOOSP_PRT_BUF_SIZE) bytes size 0 (Some aoosp_prt_buf, p, remain) in
  if 0 <? size
  then match buf with
       | Some b => store b (Z.to_nat (p - 1)) NUL
       | None => None
       end
  else buf.

(** The text [aoosp_prt_bytes] is meant to produce: two hex digits per
    byte, bytes separated by one space. *)
Definition hex_text (bytes : list Z) : list ascii :=
  removelast (flat_map format_02X_space bytes).

(** *** The status and flag tables *)

Section PrtTables.
Import String.
Local Open Scope string_scope.

(** Tables that map bit fields to human readable strings. *)
Definition aoosp_prt_stat_names : list string :=
  [ "unintialized"; "sleep"; "active"; "deepsleep" ].
Definition aoosp_prt_stat_flags46_rgbi : list string := [ "ol"; "oL"; "Ol"; "OL" ].
Definition aoosp_prt_stat_flags46_said : list string := [ "tv"; "tV"; "Tv"; "TV" ].
Definition aoosp_prt_stat_flags04 : list string :=
  [ "clou"; "cloU"; "clOu"; "clOU"; "cLou"; "cLoU"; "cLOu"; "cLOU";
    "Clou"; "CloU"; "ClOu"; "ClOU"; "CLou"; "CLoU"; "CLOu"; "CLOU" ].
Definition aoosp_prt_curchn_flags : list string :=
  [ "rshd"; "rshD"; "rsHd"; "rsHD"; "rShd"; "rShD"; "rSHd"; "rSHD";
    "Rshd"; "RshD"; "RsHd"; "RsHD"; "RShd"; "RShD"; "RSHd"; "RSHD" ].

(** [table[i]]; an index outside the table has no defined value. *)
Definition table_at (table : list string) (i : Z) : option string :=
  nth_error table (Z.to_nat i).

(** [snprintf(aoosp_prt_buf, AOOSP_PRT_BUF_SIZE, ...); return aoosp_prt_buf;]
    for the formatted output [s]. *)
Definition prt (aoosp_prt_buf : list ascii) (s : option string) : option (list ascii) :=
  match s with
  | Some s =>
      fst (snprintf (Some aoosp_prt_buf) 0 AOOSP_PRT_BUF_SIZE (list_ascii_of_string s))
  | None => None
  end.

(** The format ["%s-%s-%s"]. *)
Definition format_s_s_s (a b c : option string) : option string :=
  match a, b, c with
  | Some a, Some b, Some c => Some (a ++ "-" ++ b ++ "-" ++ c)
  | _, _, _ => None
  end.

Definition aoosp_prt_stat_state (aoosp_prt_buf : list ascii) (stat : Z)
  : option (list ascii) :=
  prt aoosp_prt_buf (table_at aoosp_prt_stat_names (BITS_SLICE stat 6 8)).

Definition aoosp_prt_stat_rgbi (aoosp_prt_buf : list ascii) (stat : Z)
  : option (list ascii) :=
  prt aoosp_prt_buf
      (format_s_s_s (table_at aoosp_prt_stat_names (BITS_SLICE stat 6 8))
                    (table_at aoosp_prt_stat_flags46_rgbi (BITS_SLICE stat 4 6))
                    (table_at aoosp_prt_stat_flags04 (BITS_SLICE stat 0 4))).

Definition aoosp_prt_stat_said (aoosp_prt_buf : list ascii) (stat : Z)
  : option (list ascii) :=
  prt aoosp_prt_buf
      (format_s_s_s (table_at aoosp_prt_stat_names (BITS_SLICE stat 6 8))
                    (table_at aoosp_prt_stat_flags46_said (BITS_SLICE stat 4 6))
                    (table_at aoosp_prt_stat_flags04 (BITS_SLICE stat 0 4))).

Definition aoosp_prt_curchn (aoosp_prt_buf : list ascii) (flags : Z)
  : option (list ascii) :=
  prt aoosp_prt_buf (table_at aoosp_prt_curchn_flags flags).

End PrtTables.

(** The letter of a flag: upper case when the flag is set. *)
Definition flag_letter (v : Z) (pos : Z) (lower upper : ascii) : ascii :=
  if Z.testbit v pos then upper else lower.

(** ** [aoosp_exec_otpdump] *)

(** The level for logging telegrams to Serial, the variable
    [aoosp_loglevel] of [aoosp_send.cpp]. *)
Inductive aoosp_loglevel_t : Type :=
| aoosp_loglevel_none
| aoosp_loglevel_args
| aoosp_loglevel_tele.

Definition AOOSP_OTPDUMP_CUSTOMER_HEX : Z := 0x01.
Definition AOOSP_OTPDUMP_CUSTOMER_FIELDS : Z := 0x02.
Definition OTPSIZE : Z := 0x20.
Definition OTPSTEP : Z := 8.

Section OtpDump.
Import String.
Local Open Scope host_scope.
Context {P : Platform}.

(** The console: the log level, and the calls of [Serial.printf] so far,
    each with its format and its arguments. *)
Record console : Type := mk_console {
  aoosp_loglevel : aoosp_loglevel_t;
  serial : list (string * list Z)
}.

Definition aoosp_loglevel_get (c : console) : aoosp_loglevel_t := aoosp_loglevel c.
Definition aoosp_loglevel_set (level : aoosp_loglevel_t) (c : console) : console :=
  mk_console level (serial c).
Definition Serial_printf (format : string) (args : list Z) (c : console) : console :=
  mk_console (aoosp_loglevel c) (serial c ++ [(format, args)]).

(** The character ['\n'] as a format. *)
Definition LF : string := String (ascii_of_nat 10) EmptyString.

(** The loop that reads the OTP, recursive in a counter that bounds the
    number of rounds.  [otp + otpaddr] is the part of the array [otp] from
    [otpaddr] on.  The send functions log nothing here: the log level is
    [aoosp_loglevel_none] while the loop runs. *)
Fixpoint otpdump_read (rounds : nat) (addr otpaddr : Z) (result : aoresult_t) (otp : list Z)
  : M (aoresult_t * list Z) :=
  match rounds with
  | O => ret (result, otp)
  | S rounds' =>
    if otpaddr <? OTPSIZE then
      '(result, buf) <-
        aoosp_send_readotp addr otpaddr (Some (skipn (Z.to_nat otpaddr) otp)) OTPSTEP ;;
      let otp := firstn (Z.to_nat otpaddr) otp ++
                 match buf with Some b => b | None => [] end in
      if negb (is_ok result) then ret (result, otp) else
      otpdump_read rounds' addr (otpaddr + OTPSTEP) result otp
    else ret (result, otp)
  end.

Definition otpdump_customer_hex (otp : list Z) (c : console) : console :=
  let c := Serial_printf "otp: 0x%02X:"%string [0x0D] c in
  let c := for_loop (0x20 - 0x0D) 0x0D
             (fun otpaddr c => Serial_printf " %02X"%string [nth otpaddr otp 0] c) c in
  Serial_printf LF [] c.

Definition otpdump_customer_fields (otp : list Z) (c : console) : console :=
  let c := Serial_printf ("otp: CH_CLUSTERING     0D.7:5 %d" ++ LF)%string [BITS_SLICE (nth 0x0D otp 0) 5 8] c in
  let c := Serial_printf ("otp: HAPTIC_DRIVER     0D.4   %d" ++ LF)%string [BITS_SLICE (nth 0x0D otp 0) 4 5] c in
  let c := Serial_printf ("otp: SPI_MODE          0D.3   %d" ++ LF)%string [BITS_SLICE (nth 0x0D otp 0) 3 4] c in
  let c := Serial_printf ("otp: SYNC_PIN_EN       0D.2   %d" ++ LF)%string [BITS_SLICE (nth 0x0D otp 0) 2 3] c in
  let c := Serial_printf ("otp: STAR_NET_EN       0D.1   %d" ++ LF)%string [BITS_SLICE (nth 0x0D otp 0) 1 2] c in
  let c := Serial_printf ("otp: I2C_BRIDGE_EN     0D.0   %d" ++ LF)%string [BITS_SLICE (nth 0x0D otp 0) 0 1] c in
  let c := Serial_printf ("otp: *STAR_START       0E.7   %d" ++ LF)%string [BITS_SLICE (nth 0x0E otp 0) 7 8] c in
  let c := Serial_printf ("otp: OTP_ADDR_EN       0E.3   %d" ++ LF)%string [BITS_SLICE (nth 0x0E otp 0) 3 4] c in
  Serial_printf ("otp: STAR_NET_OTP_ADDR 0E.2:0 %d (0x%03X)" ++ LF)%string
    [BITS_SLICE (nth 0x0E otp 0) 0 3; Z.shiftl (BITS_SLICE (nth 0x0E otp 0) 0 3) 7] c.

(** The local array [otp] and the local [result] start out without a
    value; the loop stores [result] in its first round, and on success
    every cell of [otp]. *)
Definition aoosp_exec_otpdump (addr flags : Z) (c : console) : M (aoresult_t * console) :=
  let result := aoresult_ok in
  let otp := repeat 0 (Z.to_nat OTPSIZE) in
  (* Switch logging off temporarily *)
  let prev_log_level := aoosp_loglevel_get c in
  let c := aoosp_loglevel_set aoosp_loglevel_none c in
  '(result, otp) <- otpdump_read (Z.to_nat OTPSIZE) addr 0x00 result otp ;;
  (* Switch logging back to previous state *)
  let c := aoosp_loglevel_set prev_log_level c in
  if negb (is_ok result) then ret (result, c) else
  let c := if nonzero (Z.land flags AOOSP_OTPDUMP_CUSTOMER_HEX)
           then otpdump_customer_hex otp c else c in
  let c := if nonzero (Z.land flags AOOSP_OTPDUMP_CUSTOMER_FIELDS)
           then otpdump_customer_fields otp c else c in
  ret (aoresult_ok, c).

End OtpDump.

(** A SAID at address 1 with the OTP memory [mem]: it answers READOTP with
    the eight bytes from the row address on. *)
Definition said_otp_bus (mem : list Z) : Platform :=
  {| aoosp_crc := crc8;
     aospi_tx_result := fun _ _ => aoresult_ok;
     aospi_txrx_result := fun _ tx _ =>
       if frame_tid tx =? 0x58
       then (aoresult_ok,
             response_frame 0x001 0x58 (rev (firstn 8 (skipn (Z.to_nat (nth 3 tx 0)) mem))))
       else (aoresult_spi_noclock, []) |}.

(** The READOTP request for a row, as it goes out. *)
Definition otpdump_request {P : Platform} (addr otpaddr : Z) : spi_event :=
  ev_txrx (wire (fst (aoosp_con_readotp (Some uninit_tele) addr otpaddr (Some 0)))) 12.

(** The outcome of the READOTP exchange for the row [otpaddr] when the bus
    log is [log]: the result of the transport or else the verdict of the
    decoder on what came back; the result of [aoosp_send_readotp] there. *)
Definition otpdump_read_result {P : Platform} (addr otpaddr : Z) (log : list spi_event)
  : aoresult_t :=
  let tx := wire (fst (aoosp_con_readotp (Some uninit_tele) addr otpaddr (Some 0))) in
  match aospi_txrx_result log tx 12 with
  | (aoresult_ok, rx) => fst (aoosp_des_readotp (Some (mk_tele rx 12)) (Some (repeat 0 8)) 8)
  | (e, _) => e
  end.

(** * Properties *)

(** ** Bytes and bit fields *)

Lemma u8_small (x : Z) : 0 <= x < 256 -> u8 x = x.
Proof. intros; unfold u8; apply Z.mod_small; lia. Qed.

Lemma psi_hi_bits (a c : Z) :
  0 <= c < 4 -> BITS_SLICE (u8 (Z.lor (Z.shiftl a 2) c)) 0 2 = c.
Proof.
  intros Hc. unfold BITS_SLICE, BITS_MASK, u8.
  rewrite Z.shiftr_0_r. change (Z.shiftl 1 (2 - 0) - 1) with (Z.ones 2).
  rewrite Z.land_ones by lia.
  change (2 ^ 2) with 4. rewrite Z.mod_mod_divide by (exists 64; reflexivity).
  change 4 with (2 ^ 2).
  rewrite <- Z.land_ones by lia.
  rewrite Z.land_lor_distr_l.
  replace (Z.land (Z.shiftl a 2) (Z.ones 2)) with 0.
  - rewrite Z.lor_0_l, Z.land_ones by lia. apply Z.mod_small. exact Hc.
  - symmetry. apply Z.bits_inj'. intros n Hn.
    rewrite Z.land_spec, Z.bits_0.
    destruct (Z.ltb_spec n 2).
    + rewrite Z.shiftl_spec_low by lia. reflexivity.
    + rewrite Z.ones_spec_high by lia. apply andb_false_r.
Qed.

Lemma con_ok_tele {A : Type} (a : A) (t t' : aoosp_tele_t) :
  (a, Some t') = (a, Some t) -> t = t'.
Proof. congruence. Qed.

Lemma i2cwrite8_count (count : Z) :
  (count <? 1) = false -> (8 <? count + 2) = false ->
  (count + 2 =? 5) || (count + 2 =? 7) = false ->
  count = 1 \/ count = 2 \/ count = 4 \/ count = 6.
Proof.
  intros H1 H2 H3. apply orb_false_elim in H3 as [H3 H4]. lia.
Qed.

(** ** Proof automation *)

Ltac closed_pos p :=
  lazymatch p with
  | xH => idtac
  | xO ?q => closed_pos q
  | xI ?q => closed_pos q
  end.

Ltac closed_nat n :=
  lazymatch n with
  | O => idtac
  | S ?m => closed_nat m
  end.

Ltac closed_Z z :=
  lazymatch z with
  | Z0 => idtac
  | Zpos ?p => closed_pos p
  | Zneg ?p => closed_pos p
  | Z.add ?a ?b => closed_Z a; closed_Z b
  | Z.sub ?a ?b => closed_Z a; closed_Z b
  | Z.mul ?a ?b => closed_Z a; closed_Z b
  | Z.lor ?a ?b => closed_Z a; closed_Z b
  | Z.land ?a ?b => closed_Z a; closed_Z b
  | Z.shiftl ?a ?b => closed_Z a; closed_Z b
  | Z.shiftr ?a ?b => closed_Z a; closed_Z b
  | Z.min ?a ?b => closed_Z a; closed_Z b
  | u8 ?a => closed_Z a
  | SIZE2PSI ?a => closed_Z a
  | BITS_SLICE ?a ?b ?c => closed_Z a; closed_Z b; closed_Z c
  | Z.of_nat ?n => closed_nat n
  end.

Ltac eval_closed :=
  repeat match goal with
  | |- context [Z.to_nat ?x] =>
      closed_Z x; let v := eval vm_compute in (Z.to_nat x) in change (Z.to_nat x) with v
  | |- context [u8 ?x] =>
      closed_Z x; let v := eval vm_compute in (u8 x) in change (u8 x) with v
  | |- context [BITS_SLICE ?a ?b ?c] =>
      closed_Z (BITS_SLICE a b c);
      let v := eval vm_compute in (BITS_SLICE a b c) in change (BITS_SLICE a b c) with v
  | |- context [SIZE2PSI ?a] =>
      closed_Z a; let v := eval vm_compute in (SIZE2PSI a) in change (SIZE2PSI a) with v
  | |- context [Z.add ?a ?b] =>
      closed_Z a; closed_Z b; let v := eval vm_compute in (Z.add a b) in change (Z.add a b) with v
  | |- context [Z.sub ?a ?b] =>
      closed_Z a; closed_Z b; let v := eval vm_compute in (Z.sub a b) in change (Z.sub a b) with v
  | |- context [Z.mul ?a ?b] =>
      closed_Z a; closed_Z b; let v := eval vm_compute in (Z.mul a b) in change (Z.mul a b) with v
  | |- context [Z.min ?a ?b] =>
      closed_Z a; closed_Z b; let v := eval vm_compute in (Z.min a b) in change (Z.min a b) with v
  end.

Ltac tele12 t Hwf :=
  destruct t as [d s]; unfold tele_wf in Hwf; cbn [data] in Hwf;
  do 13 (destruct d as [|? d]; try discriminate Hwf); clear Hwf.


Ltac con_cases :=
  repeat match goal with
  | |- context [if ?c then _ else _] => destruct c eqn:?; [ intro; discriminate | ]
  end.

Ltac reveal :=
  cbv zeta;
  repeat (progress (unfold set_size, set_data, tele_bytes, set_respsize, data_at;
                    cbn [data size list_set fst snd for_loop Nat.add Nat.sub nth firstn skipn];
                    eval_closed)).

Ltac con_frame_invariant Hcrc :=
  con_cases; reveal;
  let H := fresh "H" in
  intro H; apply con_ok_tele in H; subst;
  unfold frame_invariant, TELEPSI; reveal;
  rewrite ?psi_hi_bits by lia;
  rewrite ?u8_small by apply Hcrc;
  repeat split; (reflexivity || lia).


Ltac unfold_con :=
  unfold aoosp_con_reset, aoosp_con_clrerror, aoosp_con_initbidir, aoosp_con_initloop,
    aoosp_con_gosleep, aoosp_con_goactive, aoosp_con_identify, aoosp_con_readmult,
    aoosp_con_setmult, aoosp_con_sync, aoosp_con_idle, aoosp_con_foundry,
    aoosp_con_cust, aoosp_con_burn, aoosp_con_i2cread8, aoosp_con_i2cwrite8,
    aoosp_con_readlast, aoosp_con_goactive_sr, aoosp_con_readstat, aoosp_con_readtempstat,
    aoosp_con_readcomst, aoosp_con_readtemp, aoosp_con_readsetup, aoosp_con_setsetup,
    aoosp_con_readpwm, aoosp_con_readpwmchn, aoosp_con_setpwm, aoosp_con_setpwmchn,
    aoosp_con_readcurchn, aoosp_con_setcurchn, aoosp_con_readi2ccfg, aoosp_con_seti2ccfg,
    aoosp_con_readotp, aoosp_con_setotp, aoosp_con_settestdata, aoosp_con_settestpw.


Ltac unfold_des :=
  unfold aoosp_des_initbidir, aoosp_des_initloop, aoosp_des_identify, aoosp_des_readmult,
    aoosp_des_readlast, aoosp_des_goactive_sr, aoosp_des_readstat, aoosp_des_readtempstat,
    aoosp_des_readcomst, aoosp_des_readtemp, aoosp_des_readsetup, aoosp_des_readpwm,
    aoosp_des_readpwmchn, aoosp_des_readcurchn, aoosp_des_readi2ccfg, aoosp_des_readotp.

Ltac des_checks :=
  repeat match goal with
  | |- context [negb (?a =? ?b)] => destruct (Z.eqb_spec a b); cbn [negb fst]
  end.

Ltac host_simpl :=
  repeat (progress (cbv beta iota zeta;
    cbn [fst snd spi_log aoosp_exec_resetinit_last_ aoosp_said_testpw])).

Ltac run_finish :=
  repeat (host_simpl;
          match goal with
          | |- context [let (_, _) := ?x in _] => destruct x
          end);
  host_simpl; reflexivity.

Ltac run_case r :=
  host_simpl; destruct r; cbn [is_ok is_noclock negb]; host_simpl; try solve [run_finish].

Section Properties.
Context {P : Platform}.

(** ** The exchange driver *)

Lemma send_tx_eq (con : option aoosp_tele_t -> aoresult_t * option aoosp_tele_t) (h : host) :
  send_tx con h =
  match con (Some uninit_tele) with
  | (aoresult_ok, tele) =>
      aospi_tx (tele_bytes (deref_tele tele) (size (deref_tele tele))) h
  | (e, _) => (e, h)
  end.
Proof.
  unfold send_tx. cbn [is_ok].
  destruct (con (Some uninit_tele)) as [r tele].
  destruct r; cbn [is_ok negb]; try reflexivity.
  destruct (aospi_tx _ h) as [r h']. destruct r; reflexivity.
Qed.

Lemma send_txrx_eq {O : Type}
  (con : option aoosp_tele_t -> option Z -> aoresult_t * option aoosp_tele_t * option Z)
  (des : option aoosp_tele_t -> O -> aoresult_t * O) (outs : O) (h : host) :
  send_txrx con des outs h =
  match con (Some uninit_tele) (Some 0) with
  | (aoresult_ok, tele, respsize) =>
      let '(r, rx, h') :=
        aospi_txrx (tele_bytes (deref_tele tele) (size (deref_tele tele))) (cell_get respsize) h in
      match r with
      | aoresult_ok =>
          let '(d, outs') := des (Some (mk_tele rx (cell_get respsize))) outs in (d, outs', h')
      | e => (e, outs, h')
      end
  | (e, _, _) => (e, outs, h)
  end.
Proof.
  unfold send_txrx. cbn [is_ok size uninit_tele].
  destruct (con _ _) as [[r tele] rs].
  destruct r; cbn [is_ok negb]; try reflexivity.
  destruct (aospi_txrx _ _ h) as [[r rx] h'].
  destruct r; cbn [is_ok negb]; try reflexivity.
  destruct (des _ outs) as [d outs']. destruct d; reflexivity.
Qed.

(** ** The frame invariant *)

(** C6.  Every telegram a constructor builds satisfies the frame invariant:
    its size is the payload size of its command plus 4 (so 4 to 12 bytes),
    the payload-size indicator spread over bytes 1 and 2 is the minimum of
    the payload size and 7 (payload sizes 7 and 8 share the indicator 7),
    and the last byte is the checksum of the [size - 1] bytes before it. *)
Theorem constructed_frame_invariant : forall (r : request) t0 respsize t,
  (forall l, 0 <= aoosp_crc l < 256) ->
  tele_wf t0 ->
  construct r (Some t0) respsize = (aoresult_ok, Some t) ->
  frame_invariant (request_payloadsize r) t /\ SIZE2PSI 7 = SIZE2PSI 8.
Proof.
  intros r t0 respsize t Hcrc Hwf H. split; [ revert H | reflexivity ].
  tele12 t0 Hwf.
  destruct r; cbn [construct request_payloadsize].
  all: unfold_con.
  all: try match goal with |- context [set_respsize ?rs] => destruct rs end.
  all: try solve [con_frame_invariant Hcrc].
  - (* I2CWRITE8: the count checks leave 1, 2, 4 and 6 *)
    destruct buf as [b|]; [ | intro; discriminate ].
    con_cases.
    match goal with
    | H : (?c <? 1) = false |- _ =>
        destruct (i2cwrite8_count c) as [-> | [-> | [-> | ->]]]; try assumption
    end; con_frame_invariant Hcrc.
  - (* SETOTP: the size check leaves 7 *)
    con_cases.
    match goal with
    | H : negb (?n =? 7) = false |- _ =>
        apply negb_false_iff, Z.eqb_eq in H; subst n
    end.
    con_frame_invariant Hcrc.
Qed.

(** ** Order of the checks in the response decoders *)

(** C7 (as the code has it).  Called with non-null arguments, every
    response decoder checks the received frame in this order: the frame
    size against the expected response size, the payload-size indicator,
    the preamble nibble, the telegram id, and the checksum of the whole
    frame; the first failing check decides the error code. *)
Theorem decoder_check_order :
  forall (d : decoder) (t : aoosp_tele_t) (cell : Z) (buf : list Z) (size' : Z),
  let r := destruct_result d (Some t) (Some cell) (Some buf) size' in
  let ps := decoder_payloadsize d in
  (size t <> 4 + ps -> r = aoresult_osp_size) /\
  (size t = 4 + ps -> TELEPSI t <> SIZE2PSI ps -> r = aoresult_osp_psi) /\
  (size t = 4 + ps -> TELEPSI t = SIZE2PSI ps ->
   BITS_SLICE (data_at t 0) 4 8 <> 0xA -> r = aoresult_osp_preamble) /\
  (size t = 4 + ps -> TELEPSI t = SIZE2PSI ps ->
   BITS_SLICE (data_at t 0) 4 8 = 0xA ->
   BITS_SLICE (data_at t 2) 0 7 <> decoder_tid d -> r = aoresult_osp_tid) /\
  (size t = 4 + ps -> TELEPSI t = SIZE2PSI ps ->
   BITS_SLICE (data_at t 0) 4 8 = 0xA ->
   BITS_SLICE (data_at t 2) 0 7 = decoder_tid d ->
   aoosp_crc (tele_bytes t (size t)) <> 0 -> r = aoresult_osp_crc).
Proof.
  intros d t cell buf size'.
  destruct d; cbn [destruct_result decoder_payloadsize decoder_tid]; unfold_des; cbv zeta.
  all: repeat split; intros; des_checks; first [ reflexivity | contradiction ].
Qed.

(** ** Chain discovery *)

Lemma con_reset_bcast :
  aoosp_con_reset (Some uninit_tele) 0 =
  (aoresult_ok,
   Some (mk_tele [160; 0; 0; u8 (aoosp_crc [160; 0; 0]); 0; 0; 0; 0; 0; 0; 0; 0] 4)).
Proof.
  unfold aoosp_con_reset, uninit_tele.
  change (negb (AOOSP_ADDR_ISOK 0)) with false. cbv iota.
  reveal. reflexivity.
Qed.

Lemma con_initloop_first : forall rs,
  aoosp_con_initloop (Some uninit_tele) 1 (Some rs) =
  (aoresult_ok,
   Some (mk_tele [160; 4; 3; u8 (aoosp_crc [160; 4; 3]); 0; 0; 0; 0; 0; 0; 0; 0] 4),
   Some 6).
Proof.
  intros rs. unfold aoosp_con_initloop, uninit_tele.
  change (negb (AOOSP_ADDR_ISOK 1)) with false. cbv iota.
  reveal. reflexivity.
Qed.

Lemma con_initbidir_first : forall rs,
  aoosp_con_initbidir (Some uninit_tele) 1 (Some rs) =
  (aoresult_ok,
   Some (mk_tele [160; 4; 2; u8 (aoosp_crc [160; 4; 2]); 0; 0; 0; 0; 0; 0; 0; 0] 4),
   Some 6).
Proof.
  intros rs. unfold aoosp_con_initbidir, uninit_tele.
  change (negb (AOOSP_ADDR_ISOK 1)) with false. cbv iota.
  reveal. reflexivity.
Qed.

Lemma send_reset_bcast : forall h,
  aoosp_send_reset 0 h = aospi_tx [160; 0; 0; u8 (aoosp_crc [160; 0; 0])] h.
Proof.
  intros h. unfold aoosp_send_reset. rewrite send_tx_eq, con_reset_bcast. reflexivity.
Qed.

Lemma discovery_reset_eq : forall h,
  discovery_reset h =
  (aospi_tx_result (spi_log h) [160; 0; 0; u8 (aoosp_crc [160; 0; 0])],
   mk_host (spi_log h ++ [ev_tx [160; 0; 0; u8 (aoosp_crc [160; 0; 0])]; ev_delay_us 150])
           (aoosp_exec_resetinit_last_ h) (aoosp_said_testpw h)).
Proof.
  intros h. unfold discovery_reset, bind, ret. rewrite send_reset_bcast.
  unfold aospi_tx, delayMicroseconds, log_event.
  cbn [fst snd spi_log aoosp_exec_resetinit_last_ aoosp_said_testpw].
  rewrite <- app_assoc. reflexivity.
Qed.

Lemma discovery_init_loop_log : forall h,
  spi_log (snd (discovery_init_loop h)) =
  spi_log h ++ [ev_dirmux_loop; ev_txrx [160; 4; 3; u8 (aoosp_crc [160; 4; 3])] 6] /\
  aoosp_exec_resetinit_last_ (snd (discovery_init_loop h)) = aoosp_exec_resetinit_last_ h /\
  aoosp_said_testpw (snd (discovery_init_loop h)) = aoosp_said_testpw h.
Proof.
  intros h. unfold discovery_init_loop, bind, aospi_dirmux_set_loop, log_event.
  unfold aoosp_send_initloop. rewrite send_txrx_eq, con_initloop_first.
  cbn [deref_tele tele_bytes data size cell_get]. eval_closed. cbn [firstn].
  unfold aospi_txrx, log_event.
  cbn [fst snd spi_log aoosp_exec_resetinit_last_ aoosp_said_testpw].
  destruct (aospi_txrx_result _ _ _) as [r rx].
  rewrite <- app_assoc.
  destruct r; try (repeat split; reflexivity).
  destruct (aoosp_des_initloop _ _ _ _) as [d outs]. repeat split; reflexivity.
Qed.

Lemma discovery_init_bidir_log : forall l t s h,
  spi_log (snd (discovery_init_bidir l t s h)) =
  spi_log h ++ [ev_dirmux_bidir; ev_txrx [160; 4; 2; u8 (aoosp_crc [160; 4; 2])] 6] /\
  aoosp_exec_resetinit_last_ (snd (discovery_init_bidir l t s h)) = aoosp_exec_resetinit_last_ h /\
  aoosp_said_testpw (snd (discovery_init_bidir l t s h)) = aoosp_said_testpw h.
Proof.
  intros l t s h. unfold discovery_init_bidir, bind, aospi_dirmux_set_bidir, log_event.
  unfold aoosp_send_initbidir. rewrite send_txrx_eq, con_initbidir_first.
  cbn [deref_tele tele_bytes data size cell_get]. eval_closed. cbn [firstn].
  unfold aospi_txrx, log_event.
  cbn [fst snd spi_log aoosp_exec_resetinit_last_ aoosp_said_testpw].
  destruct (aospi_txrx_result _ _ _) as [r rx].
  rewrite <- app_assoc.
  destruct r; try (repeat split; reflexivity).
  destruct (aoosp_des_initbidir _ _ _ _) as [d outs]. repeat split; reflexivity.
Qed.

(** The run of [aoosp_exec_resetinit], step by step. *)
Lemma resetinit_run : forall last loop h,
  let fail := (option_map (fun _ => 0) last, option_map (fun _ => -1) loop) in
  let found (l dir : Z) := (option_map (fun _ => l) last, option_map (fun _ => dir) loop) in
  let h0 := snd (set_resetinit_last 0 h) in
  let '(r1, h1) := discovery_reset h0 in
  let '(r2, (l2, t2, s2), h2) := discovery_init_loop h1 in
  let '(r3, h3) := discovery_reset h2 in
  let '(r4, (l4, _, _), h4) := discovery_init_bidir l2 t2 s2 h3 in
  aoosp_exec_resetinit last loop h =
  match r1 with
  | aoresult_ok =>
    match r2 with
    | aoresult_ok =>
        (aoresult_ok, found (cell_get l2) 1, snd (set_resetinit_last (cell_get l2) h2))
    | aoresult_spi_noclock =>
      match r3 with
      | aoresult_ok =>
        match r4 with
        | aoresult_ok =>
            (aoresult_ok, found (cell_get l4) 0, snd (set_resetinit_last (cell_get l4) h4))
        | aoresult_spi_noclock => (aoresult_sys_cabling, fail, h4)
        | e => (e, fail, h4)
        end
      | e => (e, fail, h3)
      end
    | e => (e, fail, h2)
    end
  | e => (e, fail, h1)
  end.
Proof.
  intros last loop h fail found h0. subst fail found h0.
  unfold aoosp_exec_resetinit, discovery_reset, discovery_init_loop, discovery_init_bidir.
  unfold bind, ret, delayMicroseconds, aospi_dirmux_set_loop, aospi_dirmux_set_bidir,
    log_event, set_resetinit_last.
  destruct last, loop; cbn [option_map]; host_simpl.
  all: destruct (aoosp_send_reset 0 _) as [r1 h1]; run_case r1.
  all: destruct (aoosp_send_initloop 1 _ _ _ _) as [[r2 [[l2 t2] s2]] h2]; run_case r2.
  all: destruct (aoosp_send_reset 0 _) as [r3 h3]; run_case r3.
  all: destruct (aoosp_send_initbidir 1 _ _ _ _) as [[r4 [[l4 t4] s4]] h4]; run_case r4.
Qed.

(** C3.  Chain discovery resets and tries the loop initialisation at
    address 1 first; on success it records length and direction loop and
    sends nothing more.  Only a no-clock result of the loop attempt leads to
    the second reset and the bidirectional attempt, whose no-clock result
    becomes the cabling error.  Every other error of any step is returned
    as it is. *)
Theorem chain_discovery : forall last loop h,
  (let fail := (option_map (fun _ => 0) last, option_map (fun _ => -1) loop) in
   let found (l dir : Z) := (option_map (fun _ => l) last, option_map (fun _ => dir) loop) in
   let h0 := snd (set_resetinit_last 0 h) in
   let '(r1, h1) := discovery_reset h0 in
   let '(r2, (l2, t2, s2), h2) := discovery_init_loop h1 in
   let '(r3, h3) := discovery_reset h2 in
   let '(r4, (l4, _, _), h4) := discovery_init_bidir l2 t2 s2 h3 in
   aoosp_exec_resetinit last loop h =
   match r1 with
   | aoresult_ok =>
     match r2 with
     | aoresult_ok =>
         (aoresult_ok, found (cell_get l2) 1, snd (set_resetinit_last (cell_get l2) h2))
     | aoresult_spi_noclock =>
       match r3 with
       | aoresult_ok =>
         match r4 with
         | aoresult_ok =>
             (aoresult_ok, found (cell_get l4) 0, snd (set_resetinit_last (cell_get l4) h4))
         | aoresult_spi_noclock => (aoresult_sys_cabling, fail, h4)
         | e => (e, fail, h4)
         end
       | e => (e, fail, h3)
       end
     | e => (e, fail, h2)
     end
   | e => (e, fail, h1)
   end) /\
  (forall r2,
     fst (discovery_reset (snd (set_resetinit_last 0 h))) = aoresult_ok ->
     fst (fst (discovery_init_loop (snd (discovery_reset (snd (set_resetinit_last 0 h)))))) = r2 ->
     r2 <> aoresult_spi_noclock ->
     fst (fst (aoosp_exec_resetinit last loop h)) = r2 /\
     spi_log (snd (aoosp_exec_resetinit last loop h)) =
       spi_log h ++ [ev_tx [160; 0; 0; u8 (aoosp_crc [160; 0; 0])]; ev_delay_us 150;
                     ev_dirmux_loop; ev_txrx [160; 4; 3; u8 (aoosp_crc [160; 4; 3])] 6]).
Proof.
  intros last loop h. split; [ apply resetinit_run | ].
  intros r2 H1 H2 Hr2.
  pose proof (resetinit_run last loop h) as R. cbv zeta in R.
  pose proof (discovery_reset_eq (snd (set_resetinit_last 0 h))) as E1.
  destruct (discovery_reset (snd (set_resetinit_last 0 h))) as [r1 h1].
  cbn [fst snd] in H1, H2. subst r1.
  pose proof (discovery_init_loop_log h1) as [L2 _].
  destruct (discovery_init_loop h1) as [[r2' [[l2 t2] s2]] h2].
  cbn [fst snd] in H2, L2. subst r2'.
  destruct (discovery_reset h2) as [r3 h3].
  destruct (discovery_init_bidir l2 t2 s2 h3) as [[r4 [[l4 t4] s4]] h4].
  assert (Hlog : spi_log h2 =
    spi_log h ++ [ev_tx [160; 0; 0; u8 (aoosp_crc [160; 0; 0])]; ev_delay_us 150;
                  ev_dirmux_loop; ev_txrx [160; 4; 3; u8 (aoosp_crc [160; 4; 3])] 6]).
  { rewrite L2. apply (f_equal snd) in E1. cbn [snd] in E1. subst h1.
    cbn [spi_log set_resetinit_last snd]. rewrite <- app_assoc. reflexivity. }
  rewrite R. destruct r2; try contradiction; cbn [fst snd set_resetinit_last spi_log];
    split; first [ reflexivity | exact Hlog ].
Qed.

(** ** Fail values of a failed discovery *)

(** C10.  [aoosp_exec_resetinit] sets the fail values first, so whenever it
    returns an error the cached last address is 0 (and
    [aoosp_exec_resetinit_last] returns 0), and the caller's variables, when
    given, hold 0 and -1. *)
Theorem resetinit_error_outputs : forall last loop h r last' loop' h',
  aoosp_exec_resetinit last loop h = (r, (last', loop'), h') ->
  r <> aoresult_ok ->
  fst (aoosp_exec_resetinit_last h') = 0 /\
  last' = option_map (fun _ => 0) last /\
  loop' = option_map (fun _ => -1) loop.
Proof.
  intros last loop h r last' loop' h' Hrun Hr.
  pose proof (resetinit_run last loop h) as R. cbv zeta in R.
  pose proof (discovery_reset_eq (snd (set_resetinit_last 0 h))) as E1.
  destruct (discovery_reset (snd (set_resetinit_last 0 h))) as [r1 h1].
  pose proof (discovery_init_loop_log h1) as [_ [C2 _]].
  destruct (discovery_init_loop h1) as [[r2 [[l2 t2] s2]] h2].
  pose proof (discovery_reset_eq h2) as E3.
  destruct (discovery_reset h2) as [r3 h3].
  pose proof (discovery_init_bidir_log l2 t2 s2 h3) as [_ [C4 _]].
  destruct (discovery_init_bidir l2 t2 s2 h3) as [[r4 [[l4 t4] s4]] h4].
  cbn [snd] in C2, C4.
  assert (K1 : aoosp_exec_resetinit_last_ h1 = 0).
  { apply (f_equal snd) in E1. cbn [snd] in E1. subst h1. reflexivity. }
  assert (K3 : aoosp_exec_resetinit_last_ h3 = 0).
  { apply (f_equal snd) in E3. cbn [snd] in E3. subst h3.
    cbn [aoosp_exec_resetinit_last_]. congruence. }
  rewrite Hrun in R. unfold aoosp_exec_resetinit_last. cbn [fst].
  destruct r1; [ destruct r2; [ | | destruct r3; [ destruct r4 | .. ] | .. ] | .. ].
  all: assert (Hr' := f_equal (fun x => fst (fst x)) R); cbn [fst] in Hr';
       try (exfalso; apply Hr; exact Hr').
  all: assert (Ho := f_equal (fun x => snd (fst x)) R); cbn [fst snd] in Ho;
       assert (Hh := f_equal snd R); cbn [snd] in Hh; subst h';
       assert (Hl := f_equal fst Ho); assert (Hp := f_equal snd Ho);
       cbn [fst snd] in Hl, Hp; subst last' loop'.
  all: repeat split; congruence.
Qed.

(** ** The privileged OTP update *)

(** C2.  A row address outside 0x0D..0x1F makes [aoosp_exec_setotp] return
    the argument error with the host untouched: nothing is sent. *)
Theorem setotp_rejects_row : forall addr otpaddr ormask andmask h,
  otpaddr < 0x0D \/ 0x1F < otpaddr ->
  aoosp_exec_setotp addr otpaddr ormask andmask h = (aoresult_osp_arg, h).
Proof.
  intros addr otpaddr ormask andmask h Hrow. unfold aoosp_exec_setotp.
  replace ((otpaddr <? 0x0D) || (0x1F <? otpaddr)) with true; [ reflexivity | ].
  symmetry. apply orb_true_iff. destruct Hrow; [ left | right ]; apply Z.ltb_lt; assumption.
Qed.

Lemma send_settestpw_addr_ok : forall addr pw h h1,
  aoosp_send_settestpw addr pw h = (aoresult_ok, h1) -> AOOSP_ADDR_ISOK addr = true.
Proof.
  intros addr pw h h1 H. unfold aoosp_send_settestpw in H. rewrite send_tx_eq in H.
  unfold aoosp_con_settestpw in H.
  destruct (AOOSP_ADDR_ISOK addr); [ reflexivity | ].
  cbn [negb] in H. discriminate H.
Qed.

Lemma send_settestpw_zero : forall addr h,
  AOOSP_ADDR_ISOK addr = true ->
  aoosp_send_settestpw addr 0 h =
  aospi_tx (wire (aoosp_con_settestpw (Some uninit_tele) addr 0)) h.
Proof.
  intros addr h Haddr. unfold aoosp_send_settestpw. rewrite send_tx_eq. unfold wire.
  assert (Hc : fst (aoosp_con_settestpw (Some uninit_tele) addr 0) = aoresult_ok).
  { unfold aoosp_con_settestpw. rewrite Haddr.
    change (nonzero (Z.land 0 (Z.lnot 0x0000FFFFFFFFFFFF))) with false.
    reflexivity. }
  destruct (aoosp_con_settestpw (Some uninit_tele) addr 0) as [rc tc].
  cbn [fst snd] in *. subst rc. reflexivity.
Qed.

(** C1.  Once the password was set, every path of [aoosp_exec_setotp]
    (read failure, write failure, success) ends by sending SETTESTPW with
    password 0, and the result is the first failure among the read and the
    write, or ok; the outcome of the revoking call is not looked at. *)
Theorem setotp_always_revokes : forall addr otpaddr ormask andmask h h1,
  0x0D <= otpaddr <= 0x1F ->
  aoosp_send_settestpw addr (aoosp_said_testpw h) h = (aoresult_ok, h1) ->
  let revoke := ev_tx (wire (aoosp_con_settestpw (Some uninit_tele) addr 0)) in
  let '(r2, buf, h2) := aoosp_send_readotp addr otpaddr (Some (repeat 0 8)) 8 h1 in
  let b := match buf with Some b => b | None => [] end in
  let '(r3, h3) :=
    aoosp_send_setotp addr otpaddr
      (list_set b 0 (u8 (Z.lor (Z.land (nth 0 b 0) andmask) ormask))) 7 h2 in
  let '(r, h') := aoosp_exec_setotp addr otpaddr ormask andmask h in
  match r2 with
  | aoresult_ok => r = r3 /\ spi_log h' = spi_log h3 ++ [revoke]
  | e => r = e /\ spi_log h' = spi_log h2 ++ [revoke]
  end.
Proof.
  intros addr otpaddr ormask andmask h h1 Hrow Hacq revoke.
  pose proof (send_settestpw_addr_ok _ _ _ _ Hacq) as Haddr.
  unfold aoosp_exec_setotp.
  replace ((otpaddr <? 0x0D) || (0x1F <? otpaddr)) with false
    by (symmetry; apply orb_false_iff; split; apply Z.ltb_ge; lia).
  unfold bind, ret, aoosp_said_testpw_get, setotp_free_resources. host_simpl.
  rewrite Hacq. host_simpl. cbn [is_ok negb]. unfold bind, ret. host_simpl.
  destruct (aoosp_send_readotp addr otpaddr (Some (repeat 0 8)) 8 h1) as [[r2 buf] h2].
  host_simpl.
  destruct (aoosp_send_setotp addr otpaddr _ 7 h2) as [r3 h3] eqn:E3.
  assert (Hrev : forall hk,
            spi_log (snd (aoosp_send_settestpw addr 0 hk)) = spi_log hk ++ [revoke]).
  { intros hk. rewrite send_settestpw_zero by exact Haddr. reflexivity. }
  destruct r2; cbn [is_ok negb]; host_simpl;
    try (specialize (Hrev h2); destruct (aoosp_send_settestpw addr 0 h2) as [rr hh];
         split; [ reflexivity | exact Hrev ]).
  rewrite E3. host_simpl.
  specialize (Hrev h3).
  destruct r3; cbn [is_ok negb]; host_simpl;
    destruct (aoosp_send_settestpw addr 0 h3) as [rr hh];
    (split; [ reflexivity | exact Hrev ]).
Qed.

Lemma nth_byte : forall (l : list Z) (k : nat),
  Forall (fun b => 0 <= b < 256) l -> 0 <= nth k l 0 < 256.
Proof.
  intros l k Hl. destruct (Nat.lt_ge_cases k (length l)) as [Hk | Hk].
  - rewrite Forall_forall in Hl. apply Hl. apply nth_In. exact Hk.
  - rewrite nth_overflow by exact Hk. lia.
Qed.

Lemma byte_masked : forall old andmask ormask,
  0 <= old < 256 -> 0 <= andmask < 256 -> 0 <= ormask < 256 ->
  u8 (Z.lor (Z.land old andmask) ormask) = Z.lor (Z.land old andmask) ormask.
Proof.
  intros old andmask ormask Ho Ha Hm. apply u8_small.
  assert (H : 0 <= Z.land old andmask < 2 ^ 8).
  { split.
    - apply Z.land_nonneg. left. lia.
    - destruct (Z.eq_dec (Z.land old andmask) 0) as [-> | Hnz]; [ reflexivity | ].
      apply Z.log2_lt_pow2; [ assert (0 <= Z.land old andmask) by (apply Z.land_nonneg; left; lia); lia | ].
      eapply Z.le_lt_trans; [ apply Z.log2_land; lia | ].
      apply Z.min_lt_iff. left.
      destruct (Z.eq_dec old 0) as [-> | Ho0]; [ reflexivity | ].
      apply Z.log2_lt_pow2; lia. }
  split.
  - apply Z.lor_nonneg. lia.
  - destruct (Z.eq_dec (Z.lor (Z.land old andmask) ormask) 0) as [-> | Hnz]; [ lia | ].
    assert (0 <= Z.lor (Z.land old andmask) ormask) by (apply Z.lor_nonneg; lia).
    change 256 with (2 ^ 8). apply Z.log2_lt_pow2; [ lia | ].
    rewrite Z.log2_lor by lia.
    apply Z.max_lub_lt.
    + destruct (Z.eq_dec (Z.land old andmask) 0) as [-> | Hz]; [ reflexivity | ].
      apply Z.log2_lt_pow2; lia.
    + destruct (Z.eq_dec ormask 0) as [-> | Hz]; [ reflexivity | ].
      apply Z.log2_lt_pow2; lia.
Qed.

Lemma con_readotp_ok : forall addr otpaddr rs,
  AOOSP_ADDR_ISOK addr = true -> otpaddr <= 0x1F ->
  exists t, aoosp_con_readotp (Some uninit_tele) addr otpaddr (Some rs) =
            (aoresult_ok, Some t, Some 12).
Proof.
  intros addr otpaddr rs Haddr Hrow. unfold aoosp_con_readotp.
  rewrite Haddr. replace (0x1F <? otpaddr) with false by (symmetry; apply Z.ltb_ge; lia).
  cbn [negb]. cbv zeta. unfold set_respsize. eval_closed. eexists. reflexivity.
Qed.

Lemma send_readotp_eq : forall addr otpaddr buf h,
  AOOSP_ADDR_ISOK addr = true -> otpaddr <= 0x1F ->
  aoosp_send_readotp addr otpaddr buf 8 h =
  let '(r, rx, h') :=
    aospi_txrx (wire (fst (aoosp_con_readotp (Some uninit_tele) addr otpaddr (Some 0)))) 12 h in
  match r with
  | aoresult_ok =>
      let '(d, b) := aoosp_des_readotp (Some (mk_tele rx 12)) buf 8 in (d, b, h')
  | e => (e, buf, h')
  end.
Proof.
  intros addr otpaddr buf h Haddr Hrow.
  unfold aoosp_send_readotp. rewrite send_txrx_eq.
  destruct (con_readotp_ok addr otpaddr 0 Haddr Hrow) as [t Ht]. rewrite Ht.
  reflexivity.
Qed.

Lemma des_readotp_row : forall t,
  fst (aoosp_des_readotp (Some t) (Some (repeat 0 8)) 8) = aoresult_ok ->
  snd (aoosp_des_readotp (Some t) (Some (repeat 0 8)) 8) =
  Some [data_at t 10; data_at t 9; data_at t 8; data_at t 7;
        data_at t 6; data_at t 5; data_at t 4; data_at t 3].
Proof.
  intros t. unfold aoosp_des_readotp. cbv zeta.
  repeat match goal with
  | |- context [if ?c then _ else _] => destruct c; [ intro; discriminate | ]
  end.
  cbn [fst snd]. intros _.
  change (Z.to_nat 8) with 8%nat.
  cbn [for_loop repeat list_set Nat.sub]. reflexivity.
Qed.

Lemma con_setotp_wire : forall addr otpaddr b0 b1 b2 b3 b4 b5 b6 rest,
  AOOSP_ADDR_ISOK addr = true -> otpaddr <= 0x1F ->
  exists b0' b1' b2' crc,
    aoosp_con_setotp (Some uninit_tele) addr otpaddr
      (b0 :: b1 :: b2 :: b3 :: b4 :: b5 :: b6 :: rest) 7 =
    (aoresult_ok,
     Some (mk_tele [b0'; b1'; b2'; u8 b6; u8 b5; u8 b4; u8 b3; u8 b2; u8 b1; u8 b0;
                    u8 otpaddr; crc] 12)).
Proof.
  intros addr otpaddr b0 b1 b2 b3 b4 b5 b6 rest Haddr Hrow.
  unfold aoosp_con_setotp. rewrite Haddr.
  replace (0x1F <? otpaddr) with false by (symmetry; apply Z.ltb_ge; lia).
  change (negb (7 =? 7)) with false. cbn [negb]. unfold uninit_tele.
  change (repeat 0 AOOSP_TELE_MAXSIZE) with [0; 0; 0; 0; 0; 0; 0; 0; 0; 0; 0; 0].
  reveal. do 4 eexists. reflexivity.
Qed.

(** C8.  In [aoosp_exec_setotp] the row written back is the row that was
    read, except for its first byte, which is [(old & andmask) | ormask]:
    the byte the SETOTP telegram carries for row offset [i] in 1..6 is the
    byte the READOTP response carried for the same offset (the two
    reversals cancel), and the telegram names the same row address. *)
Theorem setotp_writes_back_row : forall addr otpaddr ormask andmask h h1 rx,
  0x0D <= otpaddr <= 0x1F ->
  0 <= ormask < 256 -> 0 <= andmask < 256 ->
  aoosp_send_settestpw addr (aoosp_said_testpw h) h = (aoresult_ok, h1) ->
  let read := wire (fst (aoosp_con_readotp (Some uninit_tele) addr otpaddr (Some 0))) in
  aospi_txrx_result (spi_log h1) read 12 = (aoresult_ok, rx) ->
  fst (aoosp_des_readotp (Some (mk_tele rx 12)) (Some (repeat 0 8)) 8) = aoresult_ok ->
  Forall (fun b => 0 <= b < 256) rx ->
  exists write,
    spi_log (snd (aoosp_exec_setotp addr otpaddr ormask andmask h)) =
      spi_log h1 ++ [ev_txrx read 12; ev_tx write;
                     ev_tx (wire (aoosp_con_settestpw (Some uninit_tele) addr 0))] /\
    length write = 12%nat /\
    nth 10 write 0 = otpaddr /\
    setotp_row write 0 = Z.lor (Z.land (readotp_row rx 0) andmask) ormask /\
    (forall i, (1 <= i <= 6)%nat -> setotp_row write i = readotp_row rx i).
Proof.
  intros addr otpaddr ormask andmask h h1 rx Hrow Hor Hand Hacq read Hrx Hdes Hbytes.
  pose proof (send_settestpw_addr_ok _ _ _ _ Hacq) as Haddr.
  assert (Hrow' : otpaddr <= 0x1F) by lia.
  (* the read step *)
  assert (Hread : aoosp_send_readotp addr otpaddr (Some (repeat 0 8)) 8 h1 =
                  (aoresult_ok,
                   Some [nth 10 rx 0; nth 9 rx 0; nth 8 rx 0; nth 7 rx 0;
                         nth 6 rx 0; nth 5 rx 0; nth 4 rx 0; nth 3 rx 0],
                   snd (log_event (ev_txrx read 12) h1))).
  { rewrite send_readotp_eq by assumption. fold read.
    unfold aospi_txrx. rewrite Hrx.
    pose proof (des_readotp_row (mk_tele rx 12) Hdes) as Hb.
    destruct (aoosp_des_readotp (Some (mk_tele rx 12)) (Some (repeat 0 8)) 8) as [d b].
    cbn [fst snd] in Hdes, Hb. subst d b. reflexivity. }
  (* the write step *)
  destruct (con_setotp_wire addr otpaddr
              (u8 (Z.lor (Z.land (nth 10 rx 0) andmask) ormask))
              (nth 9 rx 0) (nth 8 rx 0) (nth 7 rx 0) (nth 6 rx 0) (nth 5 rx 0) (nth 4 rx 0)
              [nth 3 rx 0] Haddr Hrow') as (b0' & b1' & b2' & crc & Hcon).
  unfold aoosp_exec_setotp.
  replace ((otpaddr <? 0x0D) || (0x1F <? otpaddr)) with false
    by (symmetry; apply orb_false_iff; split; apply Z.ltb_ge; lia).
  unfold bind, ret, aoosp_said_testpw_get, setotp_free_resources. host_simpl.
  rewrite Hacq. host_simpl. cbn [is_ok negb]. unfold bind, ret. host_simpl.
  rewrite Hread. host_simpl. cbn [is_ok negb list_set nth]. host_simpl.
  unfold aoosp_send_setotp. rewrite send_tx_eq, Hcon.
  unfold tele_bytes. cbn [deref_tele data size]. change (Z.to_nat 12) with 12%nat.
  cbn [firstn]. unfold aospi_tx. host_simpl.
  match goal with
  | |- context [aospi_tx_result _ ?w] => set (write := w)
  end.
  exists write. split.
  - destruct (aospi_tx_result _ write); cbn [is_ok negb]; host_simpl;
      rewrite send_settestpw_zero by exact Haddr;
      unfold aospi_tx, log_event; host_simpl;
      rewrite <- !app_assoc; reflexivity.
  - pose proof (nth_byte rx) as Hb.
    unfold setotp_row, readotp_row, write.
    split; [ reflexivity | ].
    split; [ cbn [nth]; apply u8_small; lia | ].
    split.
    + cbn [Nat.sub nth]. rewrite !byte_masked by auto. reflexivity.
    + intros i Hi.
      do 7 (destruct i as [|i]; [ try lia; cbn [Nat.sub nth]; apply u8_small; auto | ]).
      lia.
Qed.

(** ** The busy-wait of the I2C procedures *)

Lemma busy_polls_busy : forall addr n flags h fl h',
  busy_polls addr n flags h fl h' ->
  nonzero (Z.land flags AOOSP_I2CCFG_FLAGS_BUSY) = true ->
  nonzero (Z.land fl AOOSP_I2CCFG_FLAGS_BUSY) = true.
Proof. intros addr n flags h fl h' Hp. destruct Hp; auto. Qed.

(** [run_polls] computes the rounds that [busy_polls] describes. *)
Lemma run_polls_busy : forall addr n flags h,
  polls_all_busy addr n flags h = true ->
  busy_polls addr n flags h (fst (run_polls addr n flags h)) (snd (run_polls addr n flags h)).
Proof.
  intros addr n flags h. induction n as [|n IH]; intros Hall.
  - apply busy_polls_0.
  - cbn [polls_all_busy run_polls] in *.
    apply andb_true_iff in Hall as [Hn Hlast]. specialize (IH Hn).
    destruct (run_polls addr n flags h) as [fl1 h1]. cbn [fst snd] in IH.
    destruct (aoosp_send_readi2ccfg addr (Some fl1) (Some 0) h1) as [[r [fl sp]] h2] eqn:Hpoll.
    apply andb_true_iff in Hlast as [Hr Hbusy].
    destruct r; try discriminate Hr.
    destruct fl as [fl|]; [ | discriminate Hbusy ].
    cbn [fst snd cell_get].
    eapply busy_polls_S; eassumption.
Qed.

Lemma busy_wait_step : forall addr tries flags h,
  nonzero (Z.land flags AOOSP_I2CCFG_FLAGS_BUSY) = true ->
  i2c_busy_wait addr (S tries) flags h =
  let '(result, (flags', speed), h1) := aoosp_send_readi2ccfg addr (Some flags) (Some 0) h in
  if negb (is_ok result) then (result, cell_get flags', h1)
  else i2c_busy_wait addr tries (cell_get flags') (snd (delay 1 h1)).
Proof.
  intros addr tries flags h Hbusy. cbn [i2c_busy_wait]. rewrite Hbusy.
  unfold bind, ret.
  destruct (aoosp_send_readi2ccfg addr (Some flags) (Some 0) h) as [[r [fl sp]] h1].
  destruct (negb (is_ok r)); [ reflexivity | ].
  destruct (delay 1 h1) as [[] h2]. reflexivity.
Qed.

Lemma busy_wait_skip : forall addr n flags h fl h',
  busy_polls addr n flags h fl h' ->
  nonzero (Z.land flags AOOSP_I2CCFG_FLAGS_BUSY) = true ->
  forall tries, (n <= tries)%nat ->
  i2c_busy_wait addr tries flags h = i2c_busy_wait addr (tries - n) fl h'.
Proof.
  intros addr n flags h fl h' Hp. induction Hp as [flags h | n flags h flags1 h1 fl sp h2 Hp IH Hpoll Hfl].
  - intros _ tries _. rewrite Nat.sub_0_r. reflexivity.
  - intros Hbusy tries Hn.
    rewrite IH by (assumption || lia).
    replace (tries - n)%nat with (S (tries - S n)) by lia.
    rewrite busy_wait_step by (eapply busy_polls_busy; eassumption).
    rewrite Hpoll. reflexivity.
Qed.

Lemma busy_wait_idle : forall addr tries flags h,
  nonzero (Z.land flags AOOSP_I2CCFG_FLAGS_BUSY) = false ->
  i2c_busy_wait addr tries flags h = (aoresult_ok, flags, h).
Proof.
  intros addr tries flags h Hidle. destruct tries; cbn [i2c_busy_wait]; [ reflexivity | ].
  rewrite Hidle. reflexivity.
Qed.

Lemma count_txrx_app : forall l1 l2,
  count_txrx (l1 ++ l2) = (count_txrx l1 + count_txrx l2)%nat.
Proof. intros. unfold count_txrx. rewrite filter_app, length_app. reflexivity. Qed.

Lemma send_tx_count : forall con h,
  count_txrx (spi_log (snd (send_tx con h))) = count_txrx (spi_log h).
Proof.
  intros con h. rewrite send_tx_eq. destruct (con (Some uninit_tele)) as [r tele].
  destruct r; try reflexivity.
  unfold aospi_tx, log_event. host_simpl. rewrite count_txrx_app. cbn. lia.
Qed.

Lemma send_txrx_count : forall O con (des : option aoosp_tele_t -> O -> aoresult_t * O) outs h,
  (count_txrx (spi_log (snd (send_txrx con des outs h))) <= count_txrx (spi_log h) + 1)%nat.
Proof.
  intros O con des outs h. rewrite send_txrx_eq.
  destruct (con (Some uninit_tele) (Some 0)) as [[r tele] rs].
  destruct r; cbn [snd]; try lia.
  unfold aospi_txrx, log_event. host_simpl.
  destruct (aospi_txrx_result _ _ _) as [r rx].
  assert (H : count_txrx (spi_log h ++ [ev_txrx (tele_bytes (deref_tele tele) (size (deref_tele tele))) (cell_get rs)])
              = (count_txrx (spi_log h) + 1)%nat)
    by (rewrite count_txrx_app; reflexivity).
  destruct r; host_simpl; try (rewrite H; lia).
  destruct (des _ outs) as [d o]. host_simpl. rewrite H. lia.
Qed.

Lemma busy_wait_count : forall addr tries flags h,
  (count_txrx (spi_log (snd (i2c_busy_wait addr tries flags h))) <=
   count_txrx (spi_log h) + tries)%nat.
Proof.
  intros addr tries. induction tries as [|tries IH]; intros flags h.
  - cbn. lia.
  - destruct (nonzero (Z.land flags AOOSP_I2CCFG_FLAGS_BUSY)) eqn:Hb.
    + rewrite busy_wait_step by exact Hb.
      pose proof (send_txrx_count _ (fun tele rs => aoosp_con_readi2ccfg tele addr rs)
                    (fun resp '(flags, speed) => aoosp_des_readi2ccfg resp flags speed)
                    (Some flags, Some 0) h) as Hc.
      fold (aoosp_send_readi2ccfg addr (Some flags) (Some 0) h) in Hc.
      destruct (aoosp_send_readi2ccfg addr (Some flags) (Some 0) h) as [[r [fl sp]] h1].
      cbn [snd] in Hc.
      destruct (negb (is_ok r)); cbn [snd]; [ lia | ].
      specialize (IH (cell_get fl) (snd (delay 1 h1))).
      assert (count_txrx (spi_log (snd (delay 1 h1))) = count_txrx (spi_log h1)).
      { unfold delay, log_event. host_simpl. rewrite count_txrx_app. cbn. lia. }
      lia.
    + rewrite busy_wait_idle by exact Hb. cbn [snd]. lia.
Qed.

(** C4.  After the bridge telegram went out, [aoosp_exec_i2cwrite8] and
    [aoosp_exec_i2cread8] read the status at most 10 times.  Ten busy reads
    give the I2C timeout; a read that no longer reports busy ends the
    polling at once, and gives the NACK error when the NACK flag is set and
    success of the transaction phase otherwise (the read procedure then
    fetches the bytes with READLAST).  With nine busy reads and an idle
    tenth the call succeeds. *)
Theorem i2c_poll_budget : forall addr daddr7 raddr buf count h h0,
  (aoosp_send_i2cwrite8 addr daddr7 raddr buf count h = (aoresult_ok, h0) ->
   (forall fl h',
      busy_polls addr 10 AOOSP_I2CCFG_FLAGS_BUSY h0 fl h' ->
      aoosp_exec_i2cwrite8 addr daddr7 raddr buf count h = (aoresult_dev_i2ctimeout, h')) /\
   (forall n fl1 h1 fl sp h2,
      (n < 10)%nat ->
      busy_polls addr n AOOSP_I2CCFG_FLAGS_BUSY h0 fl1 h1 ->
      aoosp_send_readi2ccfg addr (Some fl1) (Some 0) h1 = (aoresult_ok, (Some fl, sp), h2) ->
      nonzero (Z.land fl AOOSP_I2CCFG_FLAGS_BUSY) = false ->
      aoosp_exec_i2cwrite8 addr daddr7 raddr buf count h =
      (if nonzero (Z.land fl AOOSP_I2CCFG_FLAGS_NACK)
       then aoresult_dev_i2cnack else aoresult_ok,
       snd (delay 1 h2))) /\
   (count_txrx (spi_log (snd (aoosp_exec_i2cwrite8 addr daddr7 raddr buf count h))) <=
    count_txrx (spi_log h) + 10)%nat) /\
  (aoosp_send_i2cread8 addr daddr7 raddr count h = (aoresult_ok, h0) ->
   (forall fl h',
      busy_polls addr 10 AOOSP_I2CCFG_FLAGS_BUSY h0 fl h' ->
      aoosp_exec_i2cread8 addr daddr7 raddr buf count h =
      (aoresult_dev_i2ctimeout, buf, h')) /\
   (forall n fl1 h1 fl sp h2,
      (n < 10)%nat ->
      busy_polls addr n AOOSP_I2CCFG_FLAGS_BUSY h0 fl1 h1 ->
      aoosp_send_readi2ccfg addr (Some fl1) (Some 0) h1 = (aoresult_ok, (Some fl, sp), h2) ->
      nonzero (Z.land fl AOOSP_I2CCFG_FLAGS_BUSY) = false ->
      aoosp_exec_i2cread8 addr daddr7 raddr buf count h =
      (if nonzero (Z.land fl AOOSP_I2CCFG_FLAGS_NACK)
       then (aoresult_dev_i2cnack, buf, snd (delay 1 h2))
       else aoosp_send_readlast addr buf count (snd (delay 1 h2)))) /\
   (count_txrx (spi_log (snd (i2c_busy_wait addr 10 AOOSP_I2CCFG_FLAGS_BUSY h0))) <=
    count_txrx (spi_log h0) + 10)%nat).
Proof.
  intros addr daddr7 raddr buf count h h0.
  assert (Hb0 : nonzero (Z.land AOOSP_I2CCFG_FLAGS_BUSY AOOSP_I2CCFG_FLAGS_BUSY) = true)
    by reflexivity.
  assert (Hend : forall n fl1 h1 fl sp h2,
    (n < 10)%nat ->
    busy_polls addr n AOOSP_I2CCFG_FLAGS_BUSY h0 fl1 h1 ->
    aoosp_send_readi2ccfg addr (Some fl1) (Some 0) h1 = (aoresult_ok, (Some fl, sp), h2) ->
    nonzero (Z.land fl AOOSP_I2CCFG_FLAGS_BUSY) = false ->
    i2c_busy_wait addr 10 AOOSP_I2CCFG_FLAGS_BUSY h0 = (aoresult_ok, fl, snd (delay 1 h2))).
  { intros n fl1 h1 fl sp h2 Hn Hp Hpoll Hidle.
    rewrite (busy_wait_skip _ _ _ _ _ _ Hp Hb0) by lia.
    replace (10 - n)%nat with (S (10 - S n)) by lia.
    rewrite busy_wait_step by (eapply busy_polls_busy; eassumption).
    rewrite Hpoll. cbn [is_ok negb cell_get].
    apply busy_wait_idle. exact Hidle. }
  assert (Hout : forall fl h',
    busy_polls addr 10 AOOSP_I2CCFG_FLAGS_BUSY h0 fl h' ->
    i2c_busy_wait addr 10 AOOSP_I2CCFG_FLAGS_BUSY h0 = (aoresult_ok, fl, h') /\
    nonzero (Z.land fl AOOSP_I2CCFG_FLAGS_BUSY) = true).
  { intros fl h' Hp. split.
    - rewrite (busy_wait_skip _ _ _ _ _ _ Hp Hb0) by lia. reflexivity.
    - eapply busy_polls_busy; eassumption. }
  split; intros Hsend.
  - repeat split.
    + intros fl h' Hp. destruct (Hout fl h' Hp) as [Hw Hbusy].
      unfold aoosp_exec_i2cwrite8, bind, ret. rewrite Hsend. cbn [is_ok negb].
      rewrite Hw. cbn [is_ok negb]. rewrite Hbusy. reflexivity.
    + intros n fl1 h1 fl sp h2 Hn Hp Hpoll Hidle.
      unfold aoosp_exec_i2cwrite8, bind, ret. rewrite Hsend. cbn [is_ok negb].
      rewrite (Hend n fl1 h1 fl sp h2) by assumption. cbn [is_ok negb]. rewrite Hidle.
      destruct (nonzero (Z.land fl AOOSP_I2CCFG_FLAGS_NACK)); reflexivity.
    + pose proof (send_tx_count
        (fun tele => aoosp_con_i2cwrite8 tele addr daddr7 raddr buf count) h) as Hc.
      fold (aoosp_send_i2cwrite8 addr daddr7 raddr buf count h) in Hc.
      rewrite Hsend in Hc. cbn [snd] in Hc.
      pose proof (busy_wait_count addr 10 AOOSP_I2CCFG_FLAGS_BUSY h0) as Hw.
      unfold aoosp_exec_i2cwrite8, bind, ret. rewrite Hsend. cbn [is_ok negb].
      destruct (i2c_busy_wait addr 10 AOOSP_I2CCFG_FLAGS_BUSY h0) as [[r fl] hw].
      cbn [snd] in Hw.
      destruct (negb (is_ok r)); [ cbn [snd]; lia | ].
      destruct (nonzero (Z.land fl AOOSP_I2CCFG_FLAGS_BUSY)); [ cbn [snd]; lia | ].
      destruct (nonzero (Z.land fl AOOSP_I2CCFG_FLAGS_NACK)); cbn [snd]; lia.
  - repeat split.
    + intros fl h' Hp. destruct (Hout fl h' Hp) as [Hw Hbusy].
      unfold aoosp_exec_i2cread8, bind, ret. rewrite Hsend. cbn [is_ok negb].
      rewrite Hw. cbn [is_ok negb]. rewrite Hbusy. reflexivity.
    + intros n fl1 h1 fl sp h2 Hn Hp Hpoll Hidle.
      unfold aoosp_exec_i2cread8, bind, ret. rewrite Hsend. cbn [is_ok negb].
      rewrite (Hend n fl1 h1 fl sp h2) by assumption. cbn [is_ok negb]. rewrite Hidle.
      destruct (nonzero (Z.land fl AOOSP_I2CCFG_FLAGS_NACK)); reflexivity.
    + apply busy_wait_count.
Qed.

(** ** The count check of the I2C write telegram *)

(** C5.  [aoosp_con_i2cwrite8] lets exactly the counts 1, 2, 4 and 6 pass:
    a count below 1, a count whose payload (count plus device and register
    address) exceeds 8, and the payloads 5 and 7 are rejected with the
    argument error, and [aoosp_send_i2cwrite8] then transmits nothing. *)
Theorem i2cwrite8_count_check : forall addr daddr7 raddr count,
  (~ (count = 1 \/ count = 2 \/ count = 4 \/ count = 6) ->
   (forall t0 b, AOOSP_ADDR_ISOK addr = true ->
      aoosp_con_i2cwrite8 (Some t0) addr daddr7 raddr (Some b) count =
      (aoresult_osp_arg, Some t0)) /\
   (forall buf h, exists e,
      aoosp_send_i2cwrite8 addr daddr7 raddr buf count h = (e, h) /\
      e <> aoresult_ok /\
      (AOOSP_ADDR_ISOK addr = true -> buf <> None -> e = aoresult_osp_arg))) /\
  (count = 1 \/ count = 2 \/ count = 4 \/ count = 6 ->
   forall t0 b, AOOSP_ADDR_ISOK addr = true -> daddr7 <= 127 ->
     fst (aoosp_con_i2cwrite8 (Some t0) addr daddr7 raddr (Some b) count) = aoresult_ok).
Proof.
  intros addr daddr7 raddr count.
  assert (Hrej : ~ (count = 1 \/ count = 2 \/ count = 4 \/ count = 6) ->
    forall t0 b, AOOSP_ADDR_ISOK addr = true ->
      aoosp_con_i2cwrite8 (Some t0) addr daddr7 raddr (Some b) count =
      (aoresult_osp_arg, Some t0)).
  { intros Hbad t0 b Haddr. unfold aoosp_con_i2cwrite8. rewrite Haddr. cbn [negb].
    destruct (127 <? daddr7); [ reflexivity | ].
    destruct (count <? 1) eqn:H1; [ reflexivity | ].
    destruct (8 <? count + 2) eqn:H2; [ reflexivity | ].
    destruct ((count + 2 =? 5) || (count + 2 =? 7)) eqn:H3; [ reflexivity | ].
    exfalso. apply Hbad. apply i2cwrite8_count; assumption. }
  split.
  - intros Hbad. split; [ exact (Hrej Hbad) | ].
    intros buf h. unfold aoosp_send_i2cwrite8. rewrite send_tx_eq.
    destruct buf as [b|].
    + destruct (AOOSP_ADDR_ISOK addr) eqn:Haddr.
      * rewrite (Hrej Hbad uninit_tele b eq_refl).
        exists aoresult_osp_arg.
        split; [ reflexivity | split; [ discriminate | reflexivity ] ].
      * unfold aoosp_con_i2cwrite8. rewrite Haddr. cbn [negb].
        exists aoresult_osp_addr.
        split; [ reflexivity | split; [ discriminate | intro; discriminate ] ].
    + exists aoresult_outargnull.
      split; [ reflexivity | split; [ discriminate | ] ].
      intros _ Hnull. exfalso. apply Hnull. reflexivity.
  - intros Hgood t0 b Haddr Hd. unfold aoosp_con_i2cwrite8. rewrite Haddr. cbn [negb].
    replace (127 <? daddr7) with false by (symmetry; apply Z.ltb_ge; lia).
    destruct Hgood as [-> | [-> | [-> | ->]]]; reflexivity.
Qed.

(** ** Arithmetic of the payload fields *)

Lemma mask_check : forall x k,
  0 <= k -> nonzero (Z.land x (Z.lnot (Z.ones k))) = false -> 0 <= x < 2 ^ k.
Proof.
  intros x k Hk H. unfold nonzero in H. apply negb_false_iff, Z.eqb_eq in H.
  rewrite <- Z.ldiff_land in H.
  pose proof (Z.lor_ldiff_and x (Z.ones k)) as D. rewrite H, Z.lor_0_l in D.
  rewrite Z.land_ones in D by exact Hk.
  rewrite <- D. apply Z.mod_pos_bound. apply Z.pow_pos_nonneg; lia.
Qed.

Lemma slice_div : forall v lo hi,
  0 <= lo -> lo <= hi -> BITS_SLICE v lo hi = (v / 2 ^ lo) mod 2 ^ (hi - lo).
Proof.
  intros v lo hi Hlo Hhi. unfold BITS_SLICE, BITS_MASK.
  change (Z.shiftl 1 (hi - lo) - 1) with (Z.ones (hi - lo)).
  rewrite Z.land_ones by lia. rewrite Z.shiftr_div_pow2 by lia. reflexivity.
Qed.

Lemma lor_shiftl : forall a b n,
  0 <= n -> 0 <= b < 2 ^ n -> Z.lor (Z.shiftl a n) b = a * 2 ^ n + b.
Proof.
  intros a b n Hn Hb.
  rewrite <- Z.shiftl_mul_pow2 by exact Hn.
  rewrite <- Z.add_lor_land.
  replace (Z.land (Z.shiftl a n) b) with 0; [ lia | ].
  symmetry. apply Z.bits_inj'. intros m Hm.
  rewrite Z.land_spec, Z.bits_0.
  destruct (Z.ltb_spec m n).
  - rewrite Z.shiftl_spec_low by lia. reflexivity.
  - rewrite <- (Z.mod_small b (2 ^ n)) by exact Hb.
    rewrite Z.mod_pow2_bits_high by lia. apply andb_false_r.
Qed.

Lemma groups_round_trip : forall g,
  0 <= g < 2 ^ 15 ->
  u16 (Z.lor (Z.shiftl (u8 (BITS_SLICE g 8 16)) 8) (Z.shiftl (u8 (BITS_SLICE g 0 8)) 0)) = g.
Proof.
  intros g Hg. rewrite Z.shiftl_0_r.
  rewrite !slice_div by lia. unfold u8, u16.
  change (2 ^ 15) with 32768 in Hg.
  rewrite lor_shiftl by (try lia; apply Z.mod_pos_bound; reflexivity).
  change (2 ^ 8) with 256. change (2 ^ (16 - 8)) with 256. change (2 ^ (8 - 0)) with 256.
  change (2 ^ 0) with 1.
  Z.div_mod_to_equations. lia.
Qed.

Lemma i2ccfg_round_trip : forall flags speed,
  0 <= flags < 2 ^ 4 -> 0 <= speed < 2 ^ 4 ->
  u8 (BITS_SLICE (u8 (Z.lor (Z.shiftl flags 4) speed)) 4 8) = flags /\
  u8 (BITS_SLICE (u8 (Z.lor (Z.shiftl flags 4) speed)) 0 4) = speed.
Proof.
  intros flags speed Hf Hs.
  rewrite lor_shiftl by lia.
  rewrite !slice_div by lia. unfold u8.
  change (2 ^ 4) with 16 in *. change (2 ^ (8 - 4)) with 16. change (2 ^ (4 - 0)) with 16.
  change (2 ^ 0) with 1.
  split; Z.div_mod_to_equations; lia.
Qed.

Lemma pwm_round_trip : forall c x,
  c = 0 \/ c = 1 -> 0 <= x < 2 ^ 15 ->
  let hi := u8 (Z.lor (Z.shiftl c 7) (BITS_SLICE x 8 15)) in
  let lo := u8 (BITS_SLICE x 0 8) in
  BITS_SLICE hi 7 8 = c /\
  u16 (Z.lor (Z.shiftl (BITS_SLICE hi 0 7) 8) lo) = x.
Proof.
  intros c x Hc Hx hi lo. subst hi lo.
  change (2 ^ 15) with 32768 in Hx.
  assert (H1 : 0 <= BITS_SLICE x 8 15 < 2 ^ 7)
    by (rewrite slice_div by lia; apply Z.mod_pos_bound; reflexivity).
  rewrite (lor_shiftl c) by (lia || exact H1).
  rewrite (lor_shiftl _ (u8 (BITS_SLICE x 0 8))) by
    (try lia; unfold u8; apply Z.mod_pos_bound; reflexivity).
  rewrite !slice_div by lia. unfold u8, u16.
  change (2 ^ 7) with 128. change (2 ^ 8) with 256. change (2 ^ (15 - 8)) with 128.
  change (2 ^ (8 - 0)) with 256. change (2 ^ (8 - 7)) with 2. change (2 ^ (7 - 0)) with 128.
  change (2 ^ 0) with 1.
  split; destruct Hc; subst c; Z.div_mod_to_equations; lia.
Qed.

Lemma daytimes_round_trip : forall dt,
  0 <= dt < 2 ^ 3 ->
  (BITS_SLICE dt 2 3 = 0 \/ BITS_SLICE dt 2 3 = 1) /\
  (BITS_SLICE dt 1 2 = 0 \/ BITS_SLICE dt 1 2 = 1) /\
  (BITS_SLICE dt 0 1 = 0 \/ BITS_SLICE dt 0 1 = 1) /\
  u8 (Z.lor (Z.lor (Z.shiftl (BITS_SLICE dt 2 3) 2) (Z.shiftl (BITS_SLICE dt 1 2) 1))
            (BITS_SLICE dt 0 1)) = dt.
Proof.
  intros dt Hdt. change (2 ^ 3) with 8 in Hdt.
  assert (H : dt = 0 \/ dt = 1 \/ dt = 2 \/ dt = 3 \/ dt = 4 \/ dt = 5 \/ dt = 6 \/ dt = 7)
    by lia.
  destruct H as [-> | [-> | [-> | [-> | [-> | [-> | [-> | ->]]]]]]];
    repeat split; first [ reflexivity | left; reflexivity | right; reflexivity ].
Qed.

Lemma payload_nth : forall (l p : list Z) (n i : nat),
  firstn n (skipn 3 l) = p -> (i < n)%nat -> nth (3 + i) l 0 = nth i p 0.
Proof.
  intros l p n i H Hi. subst p. rewrite nth_firstn, nth_skipn.
  replace (i <? n)%nat with true by (symmetry; apply Nat.ltb_lt; exact Hi). reflexivity.
Qed.

(** ** Requests and responses *)

Lemma constructed_signature : forall (r : request) t0 respsize t,
  tele_wf t0 ->
  construct r (Some t0) respsize = (aoresult_ok, Some t) ->
  size t = request_payloadsize r + 4 /\
  BITS_SLICE (data_at t 2) 0 7 = request_tid r.
Proof.
  intros r t0 respsize t Hwf. tele12 t0 Hwf.
  destruct r; cbn [construct request_payloadsize request_tid].
  all: unfold_con.
  all: try match goal with |- context [set_respsize ?rs] => destruct rs end.
  all: try match goal with
           | |- context [match ?b with Some _ => _ | None => _ end] =>
               is_var b; destruct b; [ | intro; discriminate ]
           end.
  all: con_cases.
  all: try match goal with
           | H : (?c <? 1) = false |- _ =>
               destruct (i2cwrite8_count c) as [-> | [-> | [-> | ->]]]; try assumption
           end.
  all: try match goal with
           | H : negb (?n =? 7) = false |- _ =>
               apply negb_false_iff, Z.eqb_eq in H; subst n
           end.
  all: reveal; let H := fresh "H" in
       intro H; apply con_ok_tele in H; subst; reveal; split; reflexivity.
Qed.

Lemma decoder_rejects : forall d t cell buf size',
  size t <> 4 + decoder_payloadsize d \/
  BITS_SLICE (data_at t 2) 0 7 <> decoder_tid d ->
  destruct_result d (Some t) cell buf size' <> aoresult_ok.
Proof.
  intros d t cell buf size' H.
  destruct d; cbn [destruct_result decoder_payloadsize decoder_tid] in *; unfold_des; cbv zeta.
  all: destruct cell, buf; cbn [fst]; try discriminate.
  all: des_checks; try discriminate.
  all: destruct H; contradiction.
Qed.

Lemma request_not_response : forall (r : request) t0 respsize t d cell buf size',
  tele_wf t0 ->
  construct r (Some t0) respsize = (aoresult_ok, Some t) ->
  destruct_result d (Some t) cell buf size' <> aoresult_ok.
Proof.
  intros r t0 respsize t d cell buf size' Hwf Hcon.
  destruct (constructed_signature r t0 respsize t Hwf Hcon) as [Hs Ht].
  apply decoder_rejects. rewrite Hs, Ht.
  destruct r, d; cbn [request_payloadsize request_tid decoder_payloadsize decoder_tid];
    first [ right; discriminate | left; lia ].
Qed.

Ltac des_pass :=
  repeat match goal with
  | |- context [negb (?a =? ?b)] =>
      destruct (Z.eqb_spec a b); cbn [negb fst snd];
        [ | let H := fresh in intros H; discriminate H ]
  end.

Ltac payload_rhs Hpay :=
  unfold payload at 2 in Hpay; cbn [size data skipn] in Hpay;
  match type of Hpay with
  | _ = firstn (Z.to_nat ?k) _ =>
      let v := eval vm_compute in (Z.to_nat k) in change (Z.to_nat k) with v in Hpay
  end;
  cbn [firstn] in Hpay.

Ltac payload_lhs Hpay Hs :=
  unfold payload in Hpay; rewrite Hs in Hpay;
  match type of Hpay with
  | firstn (Z.to_nat ?k) _ = _ =>
      let v := eval vm_compute in (Z.to_nat k) in change (Z.to_nat k) with v in Hpay
  end.

Ltac payload_at Hpay i :=
  let H := fresh in
  assert (H := payload_nth _ _ _ i Hpay); cbn [Nat.add nth] in H;
  rewrite H by lia; clear H.

Lemma setmult_readmult : forall t0 addr t resp groups g0,
  tele_wf t0 -> payload resp = payload t ->
  aoosp_con_setmult (Some t0) addr groups = (aoresult_ok, Some t) ->
  fst (aoosp_des_readmult (Some resp) (Some g0)) = aoresult_ok ->
  snd (aoosp_des_readmult (Some resp) (Some g0)) = Some groups.
Proof.
  intros t0 addr t resp groups g0 Hwf Hpay. revert groups g0.
  intros groups g0. revert Hpay. tele12 t0 Hwf.
  unfold aoosp_con_setmult. intros Hpay. con_cases. reveal.
  intros H. apply con_ok_tele in H. subst t. payload_rhs Hpay.
  unfold aoosp_des_readmult. cbv zeta. des_pass. intros _.
  match goal with Hs : size resp = _ |- _ => payload_lhs Hpay Hs end.
  unfold data_at.
  payload_at Hpay 0%nat. payload_at Hpay 1%nat. f_equal. apply groups_round_trip.
  apply (mask_check groups 15); [ lia | assumption ].
Qed.

Lemma setsetup_readsetup : forall t0 addr t resp flags f0,
  tele_wf t0 -> payload resp = payload t ->
  0 <= flags < 256 ->
  aoosp_con_setsetup (Some t0) addr flags = (aoresult_ok, Some t) ->
  fst (aoosp_des_readsetup (Some resp) (Some f0)) = aoresult_ok ->
  snd (aoosp_des_readsetup (Some resp) (Some f0)) = Some flags.
Proof.
  intros t0 addr t resp flags f0 Hwf Hpay. revert flags f0.
  intros flags f0 Hflags. revert Hpay. tele12 t0 Hwf.
  unfold aoosp_con_setsetup. intros Hpay. con_cases. reveal.
  intros H. apply con_ok_tele in H. subst t. payload_rhs Hpay.
  unfold aoosp_des_readsetup. cbv zeta. des_pass. intros _.
  match goal with Hs : size resp = _ |- _ => payload_lhs Hpay Hs end.
  unfold data_at. payload_at Hpay 0%nat. f_equal. apply u8_small. exact Hflags.
Qed.

Lemma seti2ccfg_readi2ccfg : forall t0 addr t resp flags speed f0 s0,
  tele_wf t0 -> payload resp = payload t ->
  aoosp_con_seti2ccfg (Some t0) addr flags speed = (aoresult_ok, Some t) ->
  fst (aoosp_des_readi2ccfg (Some resp) (Some f0) (Some s0)) = aoresult_ok ->
  snd (aoosp_des_readi2ccfg (Some resp) (Some f0) (Some s0)) = (Some flags, Some speed).
Proof.
  intros t0 addr t resp flags speed f0 s0 Hwf Hpay. revert flags speed f0 s0.
  intros flags speed f0 s0. revert Hpay. tele12 t0 Hwf.
  unfold aoosp_con_seti2ccfg. intros Hpay. con_cases. reveal.
  intros H. apply con_ok_tele in H. subst t. payload_rhs Hpay.
  unfold aoosp_des_readi2ccfg. cbv zeta. des_pass. intros _.
  match goal with Hs : size resp = _ |- _ => payload_lhs Hpay Hs end.
  unfold data_at. payload_at Hpay 0%nat.
  destruct (i2ccfg_round_trip flags speed) as [Hf Hsp];
    [ apply (mask_check flags 4); [ lia | assumption ]
    | apply (mask_check speed 4); [ lia | assumption ] | ].
  rewrite Hf, Hsp. reflexivity.
Qed.

Lemma setpwm_readpwm : forall t0 addr t resp red green blue daytimes r0 g0 b0 d0,
  tele_wf t0 -> payload resp = payload t ->
  aoosp_con_setpwm (Some t0) addr red green blue daytimes = (aoresult_ok, Some t) ->
  fst (aoosp_des_readpwm (Some resp) (Some r0) (Some g0) (Some b0) (Some d0)) = aoresult_ok ->
  snd (aoosp_des_readpwm (Some resp) (Some r0) (Some g0) (Some b0) (Some d0)) =
  (Some red, Some green, Some blue, Some daytimes).
Proof.
  intros t0 addr t resp red green blue daytimes r0 g0 b0 d0 Hwf Hpay.
  revert red green blue daytimes r0 g0 b0 d0.
  intros red green blue daytimes r0 g0 b0 d0. revert Hpay. tele12 t0 Hwf.
  unfold aoosp_con_setpwm. intros Hpay. con_cases. reveal.
  intros H. apply con_ok_tele in H. subst t. payload_rhs Hpay.
  unfold aoosp_des_readpwm. cbv zeta. des_pass. intros _.
  match goal with Hs : size resp = _ |- _ => payload_lhs Hpay Hs end.
  unfold data_at.
  payload_at Hpay 0%nat. payload_at Hpay 1%nat. payload_at Hpay 2%nat.
  payload_at Hpay 3%nat. payload_at Hpay 4%nat. payload_at Hpay 5%nat.
  assert (Hr : 0 <= red < 2 ^ 15) by (apply (mask_check red 15); [ lia | assumption ]).
  assert (Hg : 0 <= green < 2 ^ 15) by (apply (mask_check green 15); [ lia | assumption ]).
  assert (Hb : 0 <= blue < 2 ^ 15) by (apply (mask_check blue 15); [ lia | assumption ]).
  assert (Hd : 0 <= daytimes < 2 ^ 3)
    by (apply (mask_check daytimes 3); [ lia | assumption ]).
  destruct (daytimes_round_trip daytimes Hd) as (C2 & C1 & C0 & Hdt).
  destruct (pwm_round_trip _ red C2 Hr) as [Br Vr].
  destruct (pwm_round_trip _ green C1 Hg) as [Bg Vg].
  destruct (pwm_round_trip _ blue C0 Hb) as [Bb Vb].
  cbv zeta in Br, Vr, Bg, Vg, Bb, Vb.
  rewrite Br, Vr, Bg, Vg, Bb, Vb, Hdt. reflexivity.
Qed.

(** C9 (as the code has it).  Constructors build requests and decoders read
    responses, and no decoder accepts the frame a constructor built.  The
    round trip holds on the payload: for the set/read pairs with the same
    payload layout (SETMULT/READMULT, SETSETUP/READSETUP,
    SETI2CCFG/READI2CCFG, SETPWM/READPWM) and legal arguments, a response
    of the read command that carries the payload bytes of the constructed
    set telegram is decoded to exactly the values that were encoded. *)
Theorem set_read_payload_round_trip : forall t0 addr t resp,
  tele_wf t0 ->
  payload resp = payload t ->
  (forall groups g0,
     aoosp_con_setmult (Some t0) addr groups = (aoresult_ok, Some t) ->
     fst (aoosp_des_readmult (Some resp) (Some g0)) = aoresult_ok ->
     snd (aoosp_des_readmult (Some resp) (Some g0)) = Some groups) /\
  (forall flags f0,
     0 <= flags < 256 ->
     aoosp_con_setsetup (Some t0) addr flags = (aoresult_ok, Some t) ->
     fst (aoosp_des_readsetup (Some resp) (Some f0)) = aoresult_ok ->
     snd (aoosp_des_readsetup (Some resp) (Some f0)) = Some flags) /\
  (forall flags speed f0 s0,
     aoosp_con_seti2ccfg (Some t0) addr flags speed = (aoresult_ok, Some t) ->
     fst (aoosp_des_readi2ccfg (Some resp) (Some f0) (Some s0)) = aoresult_ok ->
     snd (aoosp_des_readi2ccfg (Some resp) (Some f0) (Some s0)) = (Some flags, Some speed)) /\
  (forall red green blue daytimes r0 g0 b0 d0,
     aoosp_con_setpwm (Some t0) addr red green blue daytimes = (aoresult_ok, Some t) ->
     fst (aoosp_des_readpwm (Some resp) (Some r0) (Some g0) (Some b0) (Some d0)) = aoresult_ok ->
     snd (aoosp_des_readpwm (Some resp) (Some r0) (Some g0) (Some b0) (Some d0)) =
     (Some red, Some green, Some blue, Some daytimes)) /\
  (forall (r : request) respsize d cell buf size',
     construct r (Some t0) respsize = (aoresult_ok, Some t) ->
     destruct_result d (Some t) cell buf size' <> aoresult_ok).
Proof.
  intros t0 addr t resp Hwf Hpay.
  split; [ | split; [ | split; [ | split ] ] ].
  - intros groups g0. apply setmult_readmult; assumption.
  - intros flags f0 Hf. apply setsetup_readsetup; assumption.
  - intros flags speed f0 s0. apply seti2ccfg_readi2ccfg; assumption.
  - intros red green blue daytimes r0 g0 b0 d0. apply setpwm_readpwm; assumption.
  - intros r respsize d cell buf size' Hcon.
    eapply request_not_response; eassumption.
Qed.

End Properties.

(** ** The reference platform *)

Lemma u8_range : forall v, 0 <= u8 v < 256.
Proof. intros v. unfold u8. apply Z.mod_pos_bound. reflexivity. Qed.

Lemma crc8_shift_range : forall n c, 0 <= crc8_shift (S n) c < 256.
Proof.
  induction n as [|n IH]; intros c.
  - cbn [crc8_shift]. apply u8_range.
  - change (crc8_shift (S (S n)) c)
      with (crc8_shift (S n) (u8 (Z.lxor (Z.shiftl c 1) (if Z.testbit c 7 then 0x2F else 0)))).
    apply IH.
Qed.

Lemma fold_byte_range (f : Z -> Z -> Z) :
  (forall c b, 0 <= f c b < 256) ->
  forall bytes c, 0 <= c < 256 -> 0 <= fold_left f bytes c < 256.
Proof.
  intros Hf. induction bytes as [|b bytes IH]; intros c Hc; cbn [fold_left];
    [ exact Hc | ].
  apply IH. apply Hf.
Qed.

Lemma crc8_fold_range : forall bytes c,
  0 <= c < 256 -> 0 <= fold_left crc8_step bytes c < 256.
Proof.
  apply fold_byte_range. intros c b.
  exact (crc8_shift_range 7 (Z.lxor c (u8 b))).
Qed.

Lemma crc8_range : forall bytes, 0 <= crc8 bytes < 256.
Proof. intros bytes. apply crc8_fold_range. lia. Qed.

(** The contract of the checksum: a frame followed by its checksum has
    checksum zero. *)
Lemma crc8_appended : forall bytes, crc8 (bytes ++ [crc8 bytes]) = 0.
Proof.
  intros bytes. unfold crc8 at 1. rewrite fold_left_app. cbn [fold_left].
  fold (crc8 bytes). unfold crc8_step.
  rewrite (u8_small (crc8 bytes)) by apply crc8_range.
  rewrite Z.lxor_nilpotent. reflexivity.
Qed.

(** The example of [aoosp_send.cpp]: INITLOOP to address 1 is
    [A0 04 03 86], and its response [A0 09 03 00 50 63]. *)
Example crc8_initloop :
  crc8 [0xA0; 0x04; 0x03] = 0x86 /\ crc8 [0xA0; 0x09; 0x03; 0x00; 0x50] = 0x63.
Proof. split; reflexivity. Qed.

(** ** Concrete runs on the reference platform *)

(** C1 at a SAID whose SETOTP telegram fails: the write error is returned
    and SETTESTPW with password 0 still closes the log. *)
Lemma setotp_always_revokes_witness :
  0x0D <= 0x0D <= 0x1F /\
  aoosp_send_settestpw (P := otp_bus (fail_setotp (aoresult_other 3)) [1; 2; 3; 4; 5; 6; 7; 8])
    1 (aoosp_said_testpw host0) host0 =
  (aoresult_ok, mk_host [ev_tx [160; 7; 95; 255; 255; 255; 255; 255; 255; 162]]
                        0 AOOSP_SAID_TESTPW_UNKNOWN) /\
  fst (aoosp_exec_setotp (P := otp_bus (fail_setotp (aoresult_other 3)) [1; 2; 3; 4; 5; 6; 7; 8])
         1 0x0D 0x01 0xFF host0) = aoresult_other 3 /\
  spi_log (snd (aoosp_exec_setotp
                  (P := otp_bus (fail_setotp (aoresult_other 3)) [1; 2; 3; 4; 5; 6; 7; 8])
                  1 0x0D 0x01 0xFF host0)) =
  [ev_tx [160; 7; 95; 255; 255; 255; 255; 255; 255; 162];
   ev_txrx [160; 4; 216; 13; 226] 12;
   ev_tx [160; 7; 217; 7; 6; 5; 4; 3; 2; 1; 13; 188];
   ev_tx [160; 7; 95; 0; 0; 0; 0; 0; 0; 14]].
Proof.
  assert (Hrow : 0x0D <= 0x0D <= 0x1F) by lia.
  assert (Hacq :
    aoosp_send_settestpw (P := otp_bus (fail_setotp (aoresult_other 3)) [1; 2; 3; 4; 5; 6; 7; 8])
      1 (aoosp_said_testpw host0) host0 =
    (aoresult_ok, mk_host [ev_tx [160; 7; 95; 255; 255; 255; 255; 255; 255; 162]]
                          0 AOOSP_SAID_TESTPW_UNKNOWN))
    by (vm_compute; reflexivity).
  pose proof (setotp_always_revokes 1 0x0D 0x01 0xFF host0 _ Hrow Hacq) as H.
  vm_compute in H.
  split; [ exact Hrow | split; [ exact Hacq | ] ].
  vm_compute. exact H.
Defined.

(** The same run when instead the revoking SETTESTPW fails: its outcome is
    not looked at, the procedure reports success. *)
Example setotp_revoke_outcome_ignored :
  fst (aoosp_exec_setotp
         (P := otp_bus (fail_second_settestpw (aoresult_other 3)) [1; 2; 3; 4; 5; 6; 7; 8])
         1 0x0D 0x01 0xFF host0) = aoresult_ok.
Proof. vm_compute. reflexivity. Qed.

(** C2 at row 0x0C, just below the customer area. *)
Lemma setotp_rejects_row_witness :
  (0x0C < 0x0D \/ 0x1F < 0x0C) /\
  aoosp_exec_setotp (P := quiet_bus) 1 0x0C 0x01 0xFF host0 = (aoresult_osp_arg, host0).
Proof.
  assert (Hrow : 0x0C < 0x0D \/ 0x1F < 0x0C) by (left; lia).
  split; [ exact Hrow | ].
  exact (setotp_rejects_row (P := quiet_bus) 1 0x0C 0x01 0xFF host0 Hrow).
Defined.

(** C3 on a loop of two nodes: one reset, one loop initialisation, and
    nothing after it. *)
Lemma chain_discovery_witness :
  fst (discovery_reset (P := loop_bus 2) (snd (set_resetinit_last 0 host0))) = aoresult_ok /\
  fst (fst (discovery_init_loop (P := loop_bus 2)
              (snd (discovery_reset (P := loop_bus 2) (snd (set_resetinit_last 0 host0))))))
  = aoresult_ok /\
  aoresult_ok <> aoresult_spi_noclock /\
  aoosp_exec_resetinit (P := loop_bus 2) (Some 0) (Some 0) host0 =
  (aoresult_ok, (Some 2, Some 1),
   mk_host [ev_tx [160; 0; 0; 34]; ev_delay_us 150; ev_dirmux_loop; ev_txrx [160; 4; 3; 134] 6]
           2 AOOSP_SAID_TESTPW_UNKNOWN).
Proof.
  assert (H1 : fst (discovery_reset (P := loop_bus 2) (snd (set_resetinit_last 0 host0)))
               = aoresult_ok) by (vm_compute; reflexivity).
  assert (H2 : fst (fst (discovery_init_loop (P := loop_bus 2)
                 (snd (discovery_reset (P := loop_bus 2) (snd (set_resetinit_last 0 host0))))))
               = aoresult_ok) by (vm_compute; reflexivity).
  assert (H3 : aoresult_ok <> aoresult_spi_noclock) by discriminate.
  destruct (proj2 (chain_discovery (P := loop_bus 2) (Some 0) (Some 0) host0) _ H1 H2 H3)
    as [Hr Hlog].
  split; [ exact H1 | split; [ exact H2 | split; [ exact H3 | ] ] ].
  destruct (aoosp_exec_resetinit (P := loop_bus 2) (Some 0) (Some 0) host0)
    as [[r outs] h'] eqn:E.
  cbn [fst snd] in Hr, Hlog. subst r.
  vm_compute in E. injection E as <- <-. reflexivity.
Defined.

(** The other two discovery scenarios: a chain with a terminator is found
    by the second attempt, and with nothing connected both attempts see no
    clock, which is the cabling error. *)
Example discovery_bidir :
  fst (aoosp_exec_resetinit (P := bidir_bus 5) (Some 0) (Some 0) host0) =
  (aoresult_ok, (Some 5, Some 0)).
Proof. vm_compute. reflexivity. Qed.

Example discovery_cabling :
  fst (aoosp_exec_resetinit (P := quiet_bus) (Some 7) (Some 7) host0) =
  (aoresult_sys_cabling, (Some 0, Some (-1))).
Proof. vm_compute. reflexivity. Qed.

(** C10 with nothing connected and a stale length of 5 cached by an earlier
    discovery. *)
Lemma resetinit_error_outputs_witness :
  aoosp_exec_resetinit (P := quiet_bus) (Some 7) (Some 7) (mk_host [] 5 0) =
  (aoresult_sys_cabling, (Some 0, Some (-1)),
   snd (aoosp_exec_resetinit (P := quiet_bus) (Some 7) (Some 7) (mk_host [] 5 0))) /\
  aoresult_sys_cabling <> aoresult_ok /\
  fst (aoosp_exec_resetinit_last
         (snd (aoosp_exec_resetinit (P := quiet_bus) (Some 7) (Some 7) (mk_host [] 5 0)))) = 0.
Proof.
  assert (Hrun :
    aoosp_exec_resetinit (P := quiet_bus) (Some 7) (Some 7) (mk_host [] 5 0) =
    (aoresult_sys_cabling, (Some 0, Some (-1)),
     snd (aoosp_exec_resetinit (P := quiet_bus) (Some 7) (Some 7) (mk_host [] 5 0))))
    by (vm_compute; reflexivity).
  assert (Hr : aoresult_sys_cabling <> aoresult_ok) by discriminate.
  split; [ exact Hrun | split; [ exact Hr | ] ].
  exact (proj1 (resetinit_error_outputs (P := quiet_bus) _ _ _ _ _ _ _ Hrun Hr)).
Defined.

(** C4 on a bridge that reports busy nine times and idle on the tenth
    status read: the write succeeds. *)
Lemma i2c_poll_budget_witness :
  aoosp_send_i2cwrite8 (P := i2c_bus 9 0 []) 1 0x50 0x10 (Some [0xAB]) 1 host0 =
  (aoresult_ok, mk_host [ev_tx [160; 5; 153; 160; 16; 171; 60]] 0 AOOSP_SAID_TESTPW_UNKNOWN) /\
  (9 < 10)%nat /\
  polls_all_busy (P := i2c_bus 9 0 []) 1 9 AOOSP_I2CCFG_FLAGS_BUSY
    (mk_host [ev_tx [160; 5; 153; 160; 16; 171; 60]] 0 AOOSP_SAID_TESTPW_UNKNOWN) = true /\
  fst (aoosp_exec_i2cwrite8 (P := i2c_bus 9 0 []) 1 0x50 0x10 (Some [0xAB]) 1 host0) =
  aoresult_ok.
Proof.
  set (h0 := mk_host [ev_tx [160; 5; 153; 160; 16; 171; 60]] 0 AOOSP_SAID_TESTPW_UNKNOWN).
  assert (Hsend :
    aoosp_send_i2cwrite8 (P := i2c_bus 9 0 []) 1 0x50 0x10 (Some [0xAB]) 1 host0 =
    (aoresult_ok, h0)) by (vm_compute; reflexivity).
  assert (Hn : (9 < 10)%nat) by lia.
  assert (Hall : polls_all_busy (P := i2c_bus 9 0 []) 1 9 AOOSP_I2CCFG_FLAGS_BUSY h0 = true)
    by (vm_compute; reflexivity).
  split; [ exact Hsend | split; [ exact Hn | split; [ exact Hall | ] ] ].
  pose proof (run_polls_busy (P := i2c_bus 9 0 []) 1 9 AOOSP_I2CCFG_FLAGS_BUSY h0 Hall) as Hp.
  destruct (proj1 (i2c_poll_budget (P := i2c_bus 9 0 []) 1 0x50 0x10 (Some [0xAB]) 1 host0 h0)
              Hsend) as (_ & Hidle & _).
  rewrite (Hidle 9%nat _ _ 0 (Some 0x0C)
             (snd (aoosp_send_readi2ccfg (P := i2c_bus 9 0 []) 1
                     (Some (fst (run_polls (P := i2c_bus 9 0 []) 1 9 AOOSP_I2CCFG_FLAGS_BUSY h0)))
                     (Some 0)
                     (snd (run_polls (P := i2c_bus 9 0 []) 1 9 AOOSP_I2CCFG_FLAGS_BUSY h0))))
             Hn Hp).
  - reflexivity.
  - vm_compute. reflexivity.
  - reflexivity.
Defined.

(** The other two polling scenarios: busy on all ten status reads is the
    timeout, and an immediate NACK costs one status read. *)
Example i2c_busy_timeout :
  fst (aoosp_exec_i2cwrite8 (P := i2c_bus 10 0 []) 1 0x50 0x10 (Some [0xAB]) 1 host0) =
  aoresult_dev_i2ctimeout.
Proof. vm_compute. reflexivity. Qed.

Example i2c_immediate_nack :
  aoosp_exec_i2cwrite8 (P := i2c_bus 0 AOOSP_I2CCFG_FLAGS_NACK []) 1 0x50 0x10 (Some [0xAB]) 1 host0 =
  (aoresult_dev_i2cnack,
   mk_host [ev_tx [160; 5; 153; 160; 16; 171; 60]; ev_txrx [160; 4; 86; 93] 5; ev_delay_ms 1]
           0 AOOSP_SAID_TESTPW_UNKNOWN).
Proof. vm_compute. reflexivity. Qed.

Example i2c_read_after_nine_busy :
  fst (aoosp_exec_i2cread8 (P := i2c_bus 9 0 [1; 2; 3; 4; 5; 6; 7; 8]) 1 0x50 0x10
         (Some [0; 0; 0]) 3 host0) = (aoresult_ok, Some [6; 7; 8]).
Proof. vm_compute. reflexivity. Qed.

(** C5 at the counts 3 (payload 5, rejected, nothing sent) and 4
    (accepted). *)
Lemma i2cwrite8_count_check_witness :
  ~ (3 = 1 \/ 3 = 2 \/ 3 = 4 \/ 3 = 6) /\
  aoosp_send_i2cwrite8 (P := quiet_bus) 1 0x50 0x10 (Some [1; 2; 3]) 3 host0 =
  (aoresult_osp_arg, host0) /\
  (4 = 1 \/ 4 = 2 \/ 4 = 4 \/ 4 = 6) /\
  fst (aoosp_con_i2cwrite8 (P := quiet_bus) (Some uninit_tele) 1 0x50 0x10 (Some [1; 2; 3; 4]) 4)
  = aoresult_ok.
Proof.
  assert (Hbad : ~ (3 = 1 \/ 3 = 2 \/ 3 = 4 \/ 3 = 6)) by lia.
  assert (Hgood : 4 = 1 \/ 4 = 2 \/ 4 = 4 \/ 4 = 6) by lia.
  split; [ exact Hbad | split; [ | split; [ exact Hgood | ] ] ].
  - destruct (proj2 (proj1 (i2cwrite8_count_check (P := quiet_bus) 1 0x50 0x10 3) Hbad)
                (Some [1; 2; 3]) host0) as (e & Hsend & _ & He).
    rewrite Hsend. rewrite He; [ reflexivity | reflexivity | discriminate ].
  - apply (proj2 (i2cwrite8_count_check (P := quiet_bus) 1 0x50 0x10 4) Hgood);
      [ reflexivity | lia ].
Defined.

(** C6 at the longest telegram, SETOTP with its eight payload bytes. *)
Lemma constructed_frame_invariant_witness :
  (forall l, 0 <= aoosp_crc (Platform := quiet_bus) l < 256) /\
  tele_wf uninit_tele /\
  construct (P := quiet_bus) (SETOTP 1 0x0D [1; 2; 3; 4; 5; 6; 7] 7) (Some uninit_tele) None =
  (aoresult_ok, Some (mk_tele [160; 7; 217; 7; 6; 5; 4; 3; 2; 1; 13; 188] 12)) /\
  frame_invariant (P := quiet_bus) 8 (mk_tele [160; 7; 217; 7; 6; 5; 4; 3; 2; 1; 13; 188] 12).
Proof.
  assert (Hcrc : forall l, 0 <= aoosp_crc (Platform := quiet_bus) l < 256)
    by exact crc8_range.
  assert (Hwf : tele_wf uninit_tele) by reflexivity.
  assert (Hcon :
    construct (P := quiet_bus) (SETOTP 1 0x0D [1; 2; 3; 4; 5; 6; 7] 7) (Some uninit_tele) None =
    (aoresult_ok, Some (mk_tele [160; 7; 217; 7; 6; 5; 4; 3; 2; 1; 13; 188] 12)))
    by (vm_compute; reflexivity).
  split; [ exact Hcrc | split; [ exact Hwf | split; [ exact Hcon | ] ] ].
  exact (proj1 (constructed_frame_invariant (P := quiet_bus) _ _ _ _ Hcrc Hwf Hcon)).
Defined.

(** C7 as the spec words it fails: a response with a wrong preamble and a
    wrong size yields the size error, and one with a wrong preamble and a
    wrong payload-size indicator yields the indicator error; neither yields
    the preamble error. *)
Lemma decoder_preamble_not_first :
  BITS_SLICE (data_at (mk_tele [0; 0; 2; 0; 0; 0; 0; 0; 0; 0; 0; 0] 5) 0) 4 8 <> 0xA /\
  fst (aoosp_des_initbidir (P := quiet_bus)
         (Some (mk_tele [0; 0; 2; 0; 0; 0; 0; 0; 0; 0; 0; 0] 5)) (Some 0) (Some 0) (Some 0))
  = aoresult_osp_size /\
  TELEPSI (mk_tele [0; 0; 2; 0; 0; 0; 0; 0; 0; 0; 0; 0] 6) <> SIZE2PSI 2 /\
  fst (aoosp_des_initbidir (P := quiet_bus)
         (Some (mk_tele [0; 0; 2; 0; 0; 0; 0; 0; 0; 0; 0; 0] 6)) (Some 0) (Some 0) (Some 0))
  = aoresult_osp_psi /\
  aoresult_osp_size <> aoresult_osp_preamble /\
  aoresult_osp_psi <> aoresult_osp_preamble.
Proof.
  repeat split; try discriminate; vm_compute; first [ reflexivity | discriminate ].
Qed.

(** The amended order at the same frames. *)
Lemma decoder_check_order_witness :
  size (mk_tele [0; 0; 2; 0; 0; 0; 0; 0; 0; 0; 0; 0] 5) <> 4 + decoder_payloadsize DES_INITBIDIR /\
  destruct_result (P := quiet_bus) DES_INITBIDIR
    (Some (mk_tele [0; 0; 2; 0; 0; 0; 0; 0; 0; 0; 0; 0] 5)) (Some 0) (Some []) 0
  = aoresult_osp_size /\
  destruct_result (P := quiet_bus) DES_INITBIDIR
    (Some (mk_tele [0; 0; 2; 0; 0; 0; 0; 0; 0; 0; 0; 0] 6)) (Some 0) (Some []) 0
  = aoresult_osp_psi.
Proof.
  assert (Hsize : size (mk_tele [0; 0; 2; 0; 0; 0; 0; 0; 0; 0; 0; 0] 5)
                  <> 4 + decoder_payloadsize DES_INITBIDIR) by (vm_compute; discriminate).
  split; [ exact Hsize | split ].
  - exact (proj1 (decoder_check_order (P := quiet_bus) DES_INITBIDIR
                    (mk_tele [0; 0; 2; 0; 0; 0; 0; 0; 0; 0; 0; 0] 5) 0 [] 0) Hsize).
  - apply (proj1 (proj2 (decoder_check_order (P := quiet_bus) DES_INITBIDIR
                           (mk_tele [0; 0; 2; 0; 0; 0; 0; 0; 0; 0; 0; 0] 6) 0 [] 0))).
    + reflexivity.
    + vm_compute. discriminate.
Defined.

(** C8 at a SAID whose row 0x0D reads 1..8: the write carries the row
    back with bit 0 of its first byte set. *)
Lemma setotp_writes_back_row_witness :
  aoosp_send_settestpw (P := otp_bus always_ok [2; 3; 4; 5; 6; 7; 8; 9])
    1 (aoosp_said_testpw host0) host0 =
  (aoresult_ok, mk_host [ev_tx [160; 7; 95; 255; 255; 255; 255; 255; 255; 162]]
                        0 AOOSP_SAID_TESTPW_UNKNOWN) /\
  aospi_txrx_result (Platform := otp_bus always_ok [2; 3; 4; 5; 6; 7; 8; 9])
    [ev_tx [160; 7; 95; 255; 255; 255; 255; 255; 255; 162]] [160; 4; 216; 13; 226] 12 =
  (aoresult_ok, response_frame 1 0x58 [9; 8; 7; 6; 5; 4; 3; 2]) /\
  exists write,
    spi_log (snd (aoosp_exec_setotp (P := otp_bus always_ok [2; 3; 4; 5; 6; 7; 8; 9])
                    1 0x0D 0x01 0xFF host0)) =
    [ev_tx [160; 7; 95; 255; 255; 255; 255; 255; 255; 162];
     ev_txrx [160; 4; 216; 13; 226] 12;
     ev_tx write;
     ev_tx [160; 7; 95; 0; 0; 0; 0; 0; 0; 14]] /\
    setotp_row write 0 = 3 /\
    (forall i, (1 <= i <= 6)%nat ->
       setotp_row write i = readotp_row (response_frame 1 0x58 [9; 8; 7; 6; 5; 4; 3; 2]) i).
Proof.
  set (h1 := mk_host [ev_tx [160; 7; 95; 255; 255; 255; 255; 255; 255; 162]]
                     0 AOOSP_SAID_TESTPW_UNKNOWN).
  set (rx := response_frame 1 0x58 [9; 8; 7; 6; 5; 4; 3; 2]).
  assert (Hacq :
    aoosp_send_settestpw (P := otp_bus always_ok [2; 3; 4; 5; 6; 7; 8; 9])
      1 (aoosp_said_testpw host0) host0 = (aoresult_ok, h1)) by (vm_compute; reflexivity).
  assert (Hrx :
    aospi_txrx_result (Platform := otp_bus always_ok [2; 3; 4; 5; 6; 7; 8; 9])
      (spi_log h1)
      (wire (fst (aoosp_con_readotp (P := otp_bus always_ok [2; 3; 4; 5; 6; 7; 8; 9])
                    (Some uninit_tele) 1 0x0D (Some 0)))) 12 = (aoresult_ok, rx))
    by (vm_compute; reflexivity).
  assert (Hdes :
    fst (aoosp_des_readotp (P := otp_bus always_ok [2; 3; 4; 5; 6; 7; 8; 9])
           (Some (mk_tele rx 12)) (Some (repeat 0 8)) 8) = aoresult_ok)
    by (vm_compute; reflexivity).
  assert (Hbytes : Forall (fun b => 0 <= b < 256) rx)
    by (vm_compute; repeat constructor; discriminate).
  destruct (setotp_writes_back_row (P := otp_bus always_ok [2; 3; 4; 5; 6; 7; 8; 9])
              1 0x0D 0x01 0xFF host0 h1 rx
              ltac:(lia) ltac:(lia) ltac:(lia) Hacq Hrx Hdes Hbytes)
    as (write & Hlog & _ & _ & H0 & Hrest).
  split; [ exact Hacq | split; [ vm_compute; reflexivity | ] ].
  exists write.
  split; [ exact Hlog | split; [ rewrite H0; vm_compute; reflexivity | exact Hrest ] ].
Defined.

(** C9 as the spec words it fails: the decoder of READMULT rejects the
    telegram that the constructor of SETMULT built from legal arguments, and
    returns nothing of what was encoded. *)
Lemma decode_of_encode_fails :
  fst (aoosp_con_setmult (P := quiet_bus) (Some uninit_tele) 0x001 0x1234) = aoresult_ok /\
  aoosp_des_readmult (P := quiet_bus)
    (snd (aoosp_con_setmult (P := quiet_bus) (Some uninit_tele) 0x001 0x1234)) (Some 0)
  = (aoresult_osp_tid, Some 0) /\
  Some 0 <> Some 0x1234.
Proof.
  split; [ vm_compute; reflexivity | split; [ vm_compute; reflexivity | discriminate ] ].
Qed.

(** The amended round trip at SETMULT 0x1234: the READMULT response with
    the same two payload bytes decodes to 0x1234. *)
Lemma set_read_payload_round_trip_witness :
  tele_wf uninit_tele /\
  payload (mk_tele (response_frame 1 0x0C [0x12; 0x34] ++ repeat 0 6) 6) =
  payload (deref_tele (snd (aoosp_con_setmult (P := quiet_bus) (Some uninit_tele) 1 0x1234))) /\
  aoosp_des_readmult (P := quiet_bus)
    (Some (mk_tele (response_frame 1 0x0C [0x12; 0x34] ++ repeat 0 6) 6)) (Some 0)
  = (aoresult_ok, Some 0x1234).
Proof.
  set (resp := mk_tele (response_frame 1 0x0C [0x12; 0x34] ++ repeat 0 6) 6).
  set (t := deref_tele (snd (aoosp_con_setmult (P := quiet_bus) (Some uninit_tele) 1 0x1234))).
  assert (Hwf : tele_wf uninit_tele) by reflexivity.
  assert (Hpay : payload resp = payload t) by (vm_compute; reflexivity).
  assert (Hcon : aoosp_con_setmult (P := quiet_bus) (Some uninit_tele) 1 0x1234 =
                 (aoresult_ok, Some t)) by (vm_compute; reflexivity).
  assert (Hok : fst (aoosp_des_readmult (P := quiet_bus) (Some resp) (Some 0)) = aoresult_ok)
    by (vm_compute; reflexivity).
  pose proof (proj1 (set_read_payload_round_trip (P := quiet_bus) uninit_tele 1 t resp Hwf Hpay)
                0x1234 0 Hcon Hok) as Hval.
  split; [ exact Hwf | split; [ exact Hpay | ] ].
  destruct (aoosp_des_readmult (P := quiet_bus) (Some resp) (Some 0)) as [r g].
  cbn [fst snd] in Hok, Hval. subst r g. reflexivity.
Defined.

(** * Further properties *)

(** ** Argument checks of the constructors *)

Lemma addr_isok_range : forall addr,
  AOOSP_ADDR_ISOK addr = true <-> 0 <= addr <= 0x3FE.
Proof.
  intros addr. unfold AOOSP_ADDR_ISOK, AOOSP_ADDR_ISBROADCAST, AOOSP_ADDR_ISUNICAST,
    OAOSP_ADDR_ISMULTICAST, AOOSP_ADDR_BROADCAST, AOOSP_ADDR_UNICASTMIN,
    AOOSP_ADDR_UNICASTMAX, AOOSP_ADDR_GROUP0, AOOSP_ADDR_GROUP14.
  rewrite !orb_true_iff, !andb_true_iff, Z.eqb_eq, !Z.leb_le. lia.
Qed.

Ltac con_branches :=
  repeat match goal with
  | |- context [if ?c then _ else _] => destruct c eqn:?
  end.

Section MoreProperties.
Context {P : Platform}.

(** X1.  A constructor that fails has not touched the telegram: with a
    null telegram pointer the result is [aoresult_outargnull], and with any
    other failure the caller's telegram is as it was. *)
Theorem construct_failure_untouched : forall (r : request) tele respsize,
  construct r None respsize = (aoresult_outargnull, None) /\
  (fst (construct r tele respsize) <> aoresult_ok ->
   snd (construct r tele respsize) = tele).
Proof.
  intros r tele respsize. split.
  - destruct r; reflexivity.
  - destruct r; cbn [construct]; unfold_con; destruct tele as [t0|];
      try reflexivity.
    all: try match goal with
             | |- context [match ?b with Some _ => _ | None => _ end] =>
                 is_var b; destruct b
             end.
    all: con_branches; cbn [fst snd]; intros H;
         first [ reflexivity | exfalso; apply H; reflexivity ].
Qed.


(** X2.  The address check comes before every other argument check: an
    address that is none of broadcast, unicast or group (that is, outside
    0..0x3FE) makes every constructor return [aoresult_osp_addr], whatever
    the other arguments are.  Only the null checks come earlier. *)
Theorem construct_address_check : forall (r : request) t0 respsize,
  ~ 0 <= request_addr r <= 0x3FE ->
  (forall addr daddr7 raddr count, r <> I2CWRITE8 addr daddr7 raddr None count) ->
  construct r (Some t0) respsize = (aoresult_osp_addr, Some t0).
Proof.
  intros r t0 respsize Haddr Hbuf.
  assert (Hok : AOOSP_ADDR_ISOK (request_addr r) = false).
  { destruct (AOOSP_ADDR_ISOK (request_addr r)) eqn:E; [ | reflexivity ].
    apply addr_isok_range in E. contradiction. }
  destruct r; cbn [construct request_addr] in *; unfold_con; rewrite ?Hok; try reflexivity.
  destruct buf as [b|]; [ reflexivity | ].
  exfalso. eapply Hbuf. reflexivity.
Qed.

Lemma header_fields : forall addr k,
  0 <= addr <= 0x3FE -> 0 <= k < 4 ->
  let d0 := u8 (Z.lor 0xA0 (BITS_SLICE addr 6 10)) in
  let d1 := u8 (Z.lor (Z.shiftl (BITS_SLICE addr 0 6) 2) k) in
  BITS_SLICE d0 4 8 = 0xA /\
  Z.lor (Z.shiftl (BITS_SLICE d0 0 4) 6) (BITS_SLICE d1 2 8) = addr.
Proof.
  intros addr k Ha Hk d0 d1. subst d0 d1.
  assert (H1 : 0 <= BITS_SLICE addr 6 10 < 2 ^ 4)
    by (rewrite slice_div by lia; apply Z.mod_pos_bound; reflexivity).
  assert (H2 : 0 <= BITS_SLICE addr 0 6 < 2 ^ 6)
    by (rewrite slice_div by lia; apply Z.mod_pos_bound; reflexivity).
  change 0xA0 with (Z.shiftl 10 4).
  rewrite (lor_shiftl 10) by (lia || exact H1).
  rewrite (lor_shiftl (BITS_SLICE addr 0 6)) by lia.
  assert (H3 : 0 <= BITS_SLICE (u8 (BITS_SLICE addr 0 6 * 2 ^ 2 + k)) 2 8 < 2 ^ 6)
    by (rewrite slice_div by lia; apply Z.mod_pos_bound; reflexivity).
  rewrite lor_shiftl by (lia || exact H3).
  clear H3. revert H1 H2.
  rewrite !slice_div by lia. unfold u8.
  change (2 ^ 4) with 16. change (2 ^ 6) with 64. change (2 ^ 2) with 4.
  change (2 ^ (10 - 6)) with 16. change (2 ^ (6 - 0)) with 64. change (2 ^ (8 - 4)) with 16.
  change (2 ^ (4 - 0)) with 16. change (2 ^ (8 - 2)) with 64. change (2 ^ 0) with 1.
  intros H1 H2. split; Z.div_mod_to_equations; lia.
Qed.

(** X3.  The header of a constructed telegram reads back: the preamble
    nibble is 0xA, the ten address bits spread over bytes 0 and 1 give the
    destination address (read the way the decoders read the address of a
    response), and the low seven bits of byte 2 are the telegram id of the
    command. *)
Theorem constructed_header : forall (r : request) t0 respsize t,
  tele_wf t0 ->
  construct r (Some t0) respsize = (aoresult_ok, Some t) ->
  BITS_SLICE (data_at t 0) 4 8 = 0xA /\
  Z.lor (Z.shiftl (BITS_SLICE (data_at t 0) 0 4) 6) (BITS_SLICE (data_at t 1) 2 8)
    = request_addr r /\
  BITS_SLICE (data_at t 2) 0 7 = request_tid r.
Proof.
  intros r t0 respsize t Hwf Hcon.
  assert (Haddr : 0 <= request_addr r <= 0x3FE).
  { apply addr_isok_range.
    destruct (AOOSP_ADDR_ISOK (request_addr r)) eqn:E; [ reflexivity | exfalso ].
    revert Hcon. destruct r; cbn [construct request_addr] in *; unfold_con; rewrite ?E;
      try discriminate.
    destruct buf; discriminate. }
  destruct (constructed_signature r t0 respsize t Hwf Hcon) as [_ Htid].
  rewrite Htid.
  enough (H : BITS_SLICE (data_at t 0) 4 8 = 0xA /\
              Z.lor (Z.shiftl (BITS_SLICE (data_at t 0) 0 4) 6) (BITS_SLICE (data_at t 1) 2 8)
              = request_addr r) by (destruct H; auto).
  clear Htid. revert Hcon. tele12 t0 Hwf.
  destruct r; cbn [construct request_addr] in *.
  all: unfold_con.
  all: try match goal with |- context [set_respsize ?rs] => destruct rs end.
  all: try match goal with
           | |- context [match ?b with Some _ => _ | None => _ end] =>
               is_var b; destruct b; [ | intro; discriminate ]
           end.
  all: con_cases.
  all: try match goal with
           | H : (?c <? 1) = false |- _ =>
               destruct (i2cwrite8_count c) as [-> | [-> | [-> | ->]]]; try assumption
           end.
  all: try match goal with
           | H : negb (?n =? 7) = false |- _ =>
               apply negb_false_iff, Z.eqb_eq in H; subst n
           end.
  all: reveal; let H := fresh "H" in
       intro H; apply con_ok_tele in H; subst; reveal.
  all: apply header_fields; [ exact Haddr | lia ].
Qed.

End MoreProperties.

(** ** What the decoders accept *)

Section DecoderProperties.
Context {P : Platform}.

(** X4.  A response decoder returns ok exactly when the frame has the
    expected size, payload-size indicator, preamble and telegram id and its
    checksum is zero; READLAST and READOTP moreover need a buffer size of
    1 to 8, which they check last: [aoresult_osp_arg] is returned exactly
    when one of these two decoders is given a frame that passes all five
    frame checks and a buffer size outside 1 to 8. *)
Theorem decoder_accepts_iff : forall (d : decoder) t cell buf size',
  (destruct_result d (Some t) (Some cell) (Some buf) size' = aoresult_ok <->
   size t = 4 + decoder_payloadsize d /\
   TELEPSI t = SIZE2PSI (decoder_payloadsize d) /\
   BITS_SLICE (data_at t 0) 4 8 = 0xA /\
   BITS_SLICE (data_at t 2) 0 7 = decoder_tid d /\
   aoosp_crc (tele_bytes t (size t)) = 0 /\
   (d = DES_READLAST \/ d = DES_READOTP -> 1 <= size' <= 8)) /\
  (destruct_result d (Some t) (Some cell) (Some buf) size' = aoresult_osp_arg <->
   size t = 4 + decoder_payloadsize d /\
   TELEPSI t = SIZE2PSI (decoder_payloadsize d) /\
   BITS_SLICE (data_at t 0) 4 8 = 0xA /\
   BITS_SLICE (data_at t 2) 0 7 = decoder_tid d /\
   aoosp_crc (tele_bytes t (size t)) = 0 /\
   (d = DES_READLAST \/ d = DES_READOTP) /\ ~ 1 <= size' <= 8).
Proof.
  intros d t cell buf size'.
  destruct d; cbn [destruct_result decoder_payloadsize decoder_tid]; unfold_des; cbv zeta.
  all: des_checks.
  all: try match goal with
           | |- context [(?s <? 1) || (8 <? ?s)] =>
               destruct (Z.ltb_spec s 1); destruct (Z.ltb_spec 8 s); cbn [orb fst]
           end.
  all: split;
       (split; [ intros Hres; try discriminate Hres
               | intros (Q1 & Q2 & Q3 & Q4 & Q5 & Q6) ]);
       try contradiction.
  all: try solve [ reflexivity ].
  all: try solve [ repeat (split; [ assumption | ]);
                   first [ intros [E | E]; discriminate E | intros _; lia ] ].
  all: try solve [ repeat (split; [ assumption | ]); split; [ auto | lia ] ].
  all: try solve [ exfalso; assert (1 <= size' <= 8) by (apply Q6; auto); lia ].
  all: try solve [ destruct Q6 as [[E | E] Q7]; first [ discriminate E | lia ] ].
  all: try solve [ split; [ auto | lia ] ].
Qed.

(** X5.  A decoder that fails writes nothing: every out parameter and the
    buffer hold what they held before.  On success every scalar out
    parameter has been written: each holds a value, and what they hold is
    fixed by the frame, whatever they held before the call. *)
Theorem decoder_failure_outputs : forall (d : decoder) tele cell buf size',
  (destruct_result d tele cell buf size' <> aoresult_ok ->
   destruct_outputs d tele cell buf size' = (repeat cell (decoder_cells d), buf)) /\
  (destruct_result d tele cell buf size' = aoresult_ok ->
   length (fst (destruct_outputs d tele cell buf size')) = decoder_cells d /\
   Forall (fun c => c <> None) (fst (destruct_outputs d tele cell buf size')) /\
   forall before,
     fst (destruct_outputs d tele (Some before) buf size') =
     fst (destruct_outputs d tele cell buf size')).
Proof.
  intros d tele cell buf size'.
  destruct d; cbn [destruct_result destruct_outputs decoder_cells repeat]; unfold_des; cbv zeta.
  all: destruct tele as [t|], cell as [c|], buf as [b|]; cbn [fst snd cell_get option_map].
  all: try solve [ split; [ reflexivity | intros H; discriminate H ] ].
  all: des_checks.
  all: try solve [ split; [ reflexivity | intros H; discriminate H ] ].
  all: try match goal with
           | |- context [(?s <? 1) || (8 <? ?s)] =>
               destruct ((s <? 1) || (8 <? s)); cbn [fst snd]
           end.
  all: try solve [ split; [ reflexivity | intros H; discriminate H ] ].
  all: split; [ intros H; exfalso; apply H; reflexivity | intros _ ].
  all: cbn [fst snd length].
  all: split; [ reflexivity | ].
  all: split;
       [ repeat (apply Forall_cons; [ intros Hn; discriminate Hn | ]); apply Forall_nil
       | intros before; reflexivity ].
Qed.

End DecoderProperties.

(** ** The exchange of a telegram *)

Ltac unfold_send :=
  unfold aoosp_send_reset, aoosp_send_clrerror, aoosp_send_initbidir, aoosp_send_initloop,
    aoosp_send_gosleep, aoosp_send_goactive, aoosp_send_identify, aoosp_send_readmult,
    aoosp_send_setmult, aoosp_send_sync, aoosp_send_idle, aoosp_send_foundry,
    aoosp_send_cust, aoosp_send_burn, aoosp_send_i2cread8, aoosp_send_i2cwrite8,
    aoosp_send_readlast, aoosp_send_goactive_sr, aoosp_send_readstat,
    aoosp_send_readtempstat, aoosp_send_readcomst, aoosp_send_readtemp,
    aoosp_send_readsetup, aoosp_send_setsetup, aoosp_send_readpwm, aoosp_send_readpwmchn,
    aoosp_send_setpwm, aoosp_send_setpwmchn, aoosp_send_readcurchn, aoosp_send_setcurchn,
    aoosp_send_readi2ccfg, aoosp_send_seti2ccfg, aoosp_send_readotp, aoosp_send_setotp,
    aoosp_send_settestdata, aoosp_send_settestpw.

Section ExchangeProperties.
Context {P : Platform}.

(** Every [aoosp_send_xxx], step by step: the frame of its constructor
    goes out in one transport call; for a command with a response the
    receive size is the size its decoder expects, and the decoder runs on
    what came back. *)
Lemma send_run : forall (r : request) cell buf size' h,
  send r cell buf size' h =
  match construct r (Some uninit_tele) (Some 0) with
  | (aoresult_ok, tele) =>
    match request_response r with
    | None => aospi_tx (wire (aoresult_ok, tele)) h
    | Some d =>
      let '(res, rx, h') :=
        aospi_txrx (wire (aoresult_ok, tele)) (4 + decoder_payloadsize d) h in
      (match res with
       | aoresult_ok =>
           destruct_result d (Some (mk_tele rx (4 + decoder_payloadsize d))) cell buf size'
       | e => e
       end, h')
    end
  | (e, _) => (e, h)
  end.
Proof.
  intros r cell buf size' h.
  destruct r; cbn [send construct request_response decoder_payloadsize destruct_result];
    unfold_send; unfold bind, ret; rewrite ?send_tx_eq, ?send_txrx_eq; unfold wire;
    cbn [snd].
  all: try solve [
    match goal with
    | |- context [match ?c with pair _ _ => _ end] =>
        destruct c as [e tele]; destruct e; reflexivity
    end ].
  all: unfold_con; unfold uninit_tele;
       change (repeat 0 AOOSP_TELE_MAXSIZE) with [0; 0; 0; 0; 0; 0; 0; 0; 0; 0; 0; 0].
  all: con_branches; cbn [fst snd set_respsize cell_get]; try reflexivity.
  all: eval_closed.
  all: match goal with
       | |- context [aospi_txrx ?tx ?n ?hh] =>
           destruct (aospi_txrx tx n hh) as [[res rx] h1]
       end.
  all: destruct res; cbn [fst snd]; try reflexivity.
  all: cbv beta iota;
       match goal with
       | |- _ = (fst ?c, _) => destruct c as [res' outs]
       end; reflexivity.
Qed.


(** X6.  When the constructor rejects the arguments, the send function
    returns the constructor's error and the host is untouched: nothing
    reaches the bus. *)
Theorem send_nothing_on_constructor_error : forall (r : request) cell buf size' h,
  fst (construct r (Some uninit_tele) (Some 0)) <> aoresult_ok ->
  send r cell buf size' h = (fst (construct r (Some uninit_tele) (Some 0)), h).
Proof.
  intros r cell buf size' h Hcon. rewrite send_run.
  destruct (construct r (Some uninit_tele) (Some 0)) as [e tele]. cbn [fst] in *.
  destruct e; try reflexivity. exfalso. apply Hcon. reflexivity.
Qed.

(** X7.  When the constructor succeeds, the send function makes exactly
    one transport call, with the constructed frame: a transmit for a
    command without response, and a transmit-and-receive whose receive
    size is the frame size the decoder of the response expects.  The
    cached chain length and the stored password are not touched. *)
Theorem send_one_transfer : forall (r : request) cell buf size' h t,
  construct r (Some uninit_tele) (Some 0) = (aoresult_ok, Some t) ->
  spi_log (snd (send r cell buf size' h)) =
    spi_log h ++
    [match request_response r with
     | None => ev_tx (tele_bytes t (size t))
     | Some d => ev_txrx (tele_bytes t (size t)) (4 + decoder_payloadsize d)
     end] /\
  aoosp_exec_resetinit_last_ (snd (send r cell buf size' h)) = aoosp_exec_resetinit_last_ h /\
  aoosp_said_testpw (snd (send r cell buf size' h)) = aoosp_said_testpw h.
Proof.
  intros r cell buf size' h t Hcon. rewrite send_run, Hcon.
  unfold wire. cbn [snd deref_tele].
  destruct (request_response r) as [d|].
  - unfold aospi_txrx, log_event.
    destruct (aospi_txrx_result _ _ _) as [res rx]. repeat split; reflexivity.
  - unfold aospi_tx, log_event. repeat split; reflexivity.
Qed.

(** X8.  The result of a send function is the first failure among
    constructor, transport and decoder: a transport error is returned as it
    is and the decoder is not consulted; after a successful transport the
    result is the decoder's verdict on the received frame. *)
Theorem send_result : forall (r : request) cell buf size' h t,
  construct r (Some uninit_tele) (Some 0) = (aoresult_ok, Some t) ->
  match request_response r with
  | None => fst (send r cell buf size' h) = aospi_tx_result (spi_log h) (tele_bytes t (size t))
  | Some d =>
    let n := 4 + decoder_payloadsize d in
    let '(res, rx) := aospi_txrx_result (spi_log h) (tele_bytes t (size t)) n in
    fst (send r cell buf size' h) =
    match res with
    | aoresult_ok => destruct_result d (Some (mk_tele rx n)) cell buf size'
    | e => e
    end
  end.
Proof.
  intros r cell buf size' h t Hcon. rewrite send_run, Hcon.
  unfold wire. cbn [snd deref_tele].
  destruct (request_response r) as [d|]; cbv zeta.
  - unfold aospi_txrx.
    destruct (aospi_txrx_result _ _ _) as [res rx]. reflexivity.
  - reflexivity.
Qed.

End ExchangeProperties.

(** ** More set/read pairs, and the buffer decoders *)

Lemma word_round_trip : forall x,
  0 <= x < 2 ^ 16 ->
  u16 (Z.lor (Z.shiftl (u8 (BITS_SLICE x 8 16)) 8) (u8 (BITS_SLICE x 0 8))) = x.
Proof.
  intros x Hx. change (2 ^ 16) with 65536 in Hx.
  rewrite lor_shiftl by (try lia; unfold u8; apply Z.mod_pos_bound; reflexivity).
  rewrite !slice_div by lia. unfold u8, u16.
  change (2 ^ 8) with 256. change (2 ^ (16 - 8)) with 256. change (2 ^ (8 - 0)) with 256.
  change (2 ^ 0) with 1.
  Z.div_mod_to_equations. lia.
Qed.

Lemma skip_nth : forall (l p : list Z) (k n i : nat),
  firstn n (skipn k l) = p -> (i < n)%nat -> nth (k + i) l 0 = nth i p 0.
Proof.
  intros l p k n i H Hi. subst p. rewrite nth_firstn, nth_skipn.
  replace (i <? n)%nat with true by (symmetry; apply Nat.ltb_lt; exact Hi). reflexivity.
Qed.

Ltac des_ok :=
  repeat match goal with
  | |- context [negb (?a =? ?b)] =>
      destruct (Z.eqb_spec a b); cbn [negb fst snd];
        [ | let H := fresh in intros H; discriminate H ]
  end.

Ltac bytes_rhs Hpay :=
  match type of Hpay with
  | ?l = ?rhs =>
      let v := eval cbn [data skipn firstn] in rhs in
      let H := fresh in
      assert (H : l = v) by exact Hpay; clear Hpay; rename H into Hpay
  end.

Ltac bytes_at Hpay i :=
  let H := fresh in
  assert (H := skip_nth _ _ _ _ i Hpay); cbn [Nat.add nth] in H;
  rewrite H by lia; clear H.

Section PairProperties.
Context {P : Platform}.

(** X9.  SETPWMCHN and READPWMCHN agree on the layout of the colours: a
    READPWMCHN response whose six payload bytes are the six colour bytes of
    a constructed SETPWMCHN telegram (its payload after the channel byte and
    the filler 0xFF) is decoded to the red, green and blue that were
    encoded. *)
Theorem setpwmchn_readpwmchn : forall t0 addr chn t resp red green blue r0 g0 b0,
  tele_wf t0 ->
  0 <= red < 2 ^ 16 -> 0 <= green < 2 ^ 16 -> 0 <= blue < 2 ^ 16 ->
  firstn 6 (skipn 3 (data resp)) = firstn 6 (skipn 5 (data t)) ->
  aoosp_con_setpwmchn (Some t0) addr chn red green blue = (aoresult_ok, Some t) ->
  fst (aoosp_des_readpwmchn (Some resp) (Some r0) (Some g0) (Some b0)) = aoresult_ok ->
  data_at t 3 = u8 chn /\ data_at t 4 = 0xFF /\
  snd (aoosp_des_readpwmchn (Some resp) (Some r0) (Some g0) (Some b0)) =
  (Some red, Some green, Some blue).
Proof.
  intros t0 addr chn t resp red green blue r0 g0 b0 Hwf Hr Hg Hb Hpay.
  tele12 t0 Hwf. unfold aoosp_con_setpwmchn. con_cases. reveal.
  intros H. apply con_ok_tele in H. subst t.
  intros Hdes. bytes_rhs Hpay. unfold data_at. cbn [data nth].
  split; [ reflexivity | split; [ reflexivity | ] ].
  revert Hdes. unfold aoosp_des_readpwmchn. cbv zeta. des_ok. intros _.
  unfold data_at.
  bytes_at Hpay 0%nat. bytes_at Hpay 1%nat. bytes_at Hpay 2%nat.
  bytes_at Hpay 3%nat. bytes_at Hpay 4%nat. bytes_at Hpay 5%nat.
  rewrite !word_round_trip by assumption. reflexivity.
Qed.

(** X10.  SETCURCHN and READCURCHN agree on the layout of flags and
    currents: a READCURCHN response whose two payload bytes are the two
    bytes a constructed SETCURCHN telegram carries after its channel byte
    is decoded to the flags and the three currents that were encoded. *)
Theorem setcurchn_readcurchn :
  forall t0 addr chn t resp flags rcur gcur bcur f0 r0 g0 b0,
  tele_wf t0 ->
  firstn 2 (skipn 3 (data resp)) = firstn 2 (skipn 4 (data t)) ->
  aoosp_con_setcurchn (Some t0) addr chn flags rcur gcur bcur = (aoresult_ok, Some t) ->
  fst (aoosp_des_readcurchn (Some resp) (Some f0) (Some r0) (Some g0) (Some b0))
    = aoresult_ok ->
  snd (aoosp_des_readcurchn (Some resp) (Some f0) (Some r0) (Some g0) (Some b0)) =
  (Some flags, Some rcur, Some gcur, Some bcur).
Proof.
  intros t0 addr chn t resp flags rcur gcur bcur f0 r0 g0 b0 Hwf Hpay.
  tele12 t0 Hwf. unfold aoosp_con_setcurchn. con_cases. reveal.
  intros H. apply con_ok_tele in H. subst t. bytes_rhs Hpay.
  assert (Hcur : forall v, negb (AOOSP_CUR_OK v) = false -> 0 <= v < 2 ^ 4).
  { intros v Hv. apply negb_false_iff in Hv.
    unfold AOOSP_CUR_OK, AOOSP_CUR_NORM_OK, AOOSP_CUR_AGE_OK in Hv.
    apply orb_true_iff in Hv.
    rewrite !andb_true_iff, !Z.leb_le in Hv. change (2 ^ 4) with 16. lia. }
  assert (Hflags : 0 <= flags < 2 ^ 4).
  { match goal with Hm : nonzero (Z.land flags _) = false |- _ =>
      pose proof (mask_check flags 3 ltac:(lia) Hm) as Hf end.
    change (2 ^ 3) with 8 in Hf. change (2 ^ 4) with 16. lia. }
  unfold aoosp_des_readcurchn. cbv zeta. des_ok. intros _.
  unfold data_at. bytes_at Hpay 0%nat. bytes_at Hpay 1%nat.
  destruct (i2ccfg_round_trip flags rcur) as [E1 E2]; [ exact Hflags | auto | ].
  destruct (i2ccfg_round_trip gcur bcur) as [E3 E4]; [ auto | auto | ].
  rewrite E1, E2, E3, E4. reflexivity.
Qed.

End PairProperties.

Section BufferDecoders.
Context {P : Platform}.

(** X11.  What the two buffer decoders copy out.  READLAST delivers the
    last [size] payload bytes of the response, [data[11-size .. 10]], in
    the order of the wire; READOTP delivers the same bytes in reverse
    order, so that the byte at the row address comes first.  Buffer cells
    from [size] on are not written. *)
Theorem buffer_decoders_copy : forall t buf size',
  tele_wf t ->
  (Z.to_nat size' <= length buf)%nat ->
  let n := Z.to_nat size' in
  (fst (aoosp_des_readlast (Some t) (Some buf) size') = aoresult_ok ->
   snd (aoosp_des_readlast (Some t) (Some buf) size') =
   Some (firstn n (skipn (11 - n) (data t)) ++ skipn n buf)) /\
  (fst (aoosp_des_readotp (Some t) (Some buf) size') = aoresult_ok ->
   snd (aoosp_des_readotp (Some t) (Some buf) size') =
   Some (rev (firstn n (skipn (11 - n) (data t))) ++ skipn n buf)).
Proof.
  intros t buf size' Hwf Hlen n. subst n.
  tele12 t Hwf.
  split; [ unfold aoosp_des_readlast | unfold aoosp_des_readotp ]; cbv zeta; des_ok.
  all: destruct (Z.ltb_spec size' 1); destruct (Z.ltb_spec 8 size'); cbn [orb fst snd];
       try (let H := fresh in intros H; discriminate H); intros _.
  all: assert (Hs : size' = 1 \/ size' = 2 \/ size' = 3 \/ size' = 4 \/
                    size' = 5 \/ size' = 6 \/ size' = 7 \/ size' = 8) by lia.
  all: destruct Hs as [-> | [-> | [-> | [-> | [-> | [-> | [-> | ->]]]]]]].
  all: match type of Hlen with
       | (Z.to_nat ?k <= _)%nat =>
           let v := eval vm_compute in (Z.to_nat k) in
           change (Z.to_nat k) with v in *
       end.
  all: do 8 (try (destruct buf as [|? buf]; [ cbn [length] in Hlen; lia | ])).
  all: unfold data_at; cbn [data for_loop list_set Nat.sub Z.of_nat Pos.of_succ_nat Pos.succ].
  all: eval_closed.
  all: cbn [nth skipn firstn rev app Nat.sub]; reflexivity.
Qed.

End BufferDecoders.

(** ** Chain discovery, continued *)

Section DiscoveryProperties.
Context {P : Platform}.

Lemma last_field_range : forall d0 d1,
  0 <= u16 (Z.lor (Z.shiftl (BITS_SLICE d0 0 4) 6) (BITS_SLICE d1 2 8)) <= 0x3FF.
Proof.
  intros d0 d1.
  assert (H1 : 0 <= BITS_SLICE d1 2 8 < 2 ^ 6)
    by (rewrite slice_div by lia; apply Z.mod_pos_bound; reflexivity).
  assert (H0 : 0 <= BITS_SLICE d0 0 4 < 16)
    by (rewrite slice_div by lia; apply Z.mod_pos_bound; reflexivity).
  rewrite lor_shiftl by (lia || exact H1).
  unfold u16. change (2 ^ 6) with 64 in *.
  rewrite Z.mod_small; lia.
Qed.

Lemma init_loop_last : forall h,
  fst (fst (discovery_init_loop h)) = aoresult_ok ->
  exists v, fst (fst (snd (fst (discovery_init_loop h)))) = Some v /\ 0 <= v <= 0x3FF.
Proof.
  intros h. unfold discovery_init_loop, bind, aospi_dirmux_set_loop, log_event.
  unfold aoosp_send_initloop. rewrite send_txrx_eq, con_initloop_first.
  destruct (aospi_txrx _ _ _) as [[r rx] h1].
  destruct r; cbn [fst snd]; try discriminate.
  unfold aoosp_des_initloop. cbv zeta. des_ok. intros _.
  eexists. split; [ reflexivity | apply last_field_range ].
Qed.

Lemma init_bidir_last : forall l t s h,
  fst (fst (discovery_init_bidir l t s h)) = aoresult_ok ->
  exists v, fst (fst (snd (fst (discovery_init_bidir l t s h)))) = Some v /\ 0 <= v <= 0x3FF.
Proof.
  intros l t s h. unfold discovery_init_bidir, bind, aospi_dirmux_set_bidir, log_event.
  unfold aoosp_send_initbidir. rewrite send_txrx_eq, con_initbidir_first.
  destruct (aospi_txrx _ _ _) as [[r rx] h1].
  destruct r; cbn [fst snd]; try discriminate.
  unfold aoosp_des_initbidir. cbv zeta.
  destruct l, t, s; cbn [fst]; try discriminate.
  des_ok. intros _.
  eexists. split; [ reflexivity | apply last_field_range ].
Qed.

(** X12.  After a successful discovery the chain length the caller got is
    the one [aoosp_exec_resetinit_last] returns from then on; it is at most
    0x3FF; and the direction reported is the one the direction mux was
    switched to last, just before the initialisation that succeeded. *)
Theorem resetinit_success : forall last loop h l dir h',
  aoosp_exec_resetinit (Some last) (Some loop) h = (aoresult_ok, (Some l, Some dir), h') ->
  fst (aoosp_exec_resetinit_last h') = l /\
  0 <= l <= 0x3FF /\
  (dir = 1 \/ dir = 0) /\
  exists pre init,
    spi_log h' =
    pre ++ [if dir =? 1 then ev_dirmux_loop else ev_dirmux_bidir; ev_txrx init 6].
Proof.
  intros last loop h l dir h' Hrun.
  pose proof (resetinit_run (Some last) (Some loop) h) as R. cbv zeta in R.
  destruct (discovery_reset (snd (set_resetinit_last 0 h))) as [r1 h1].
  pose proof (discovery_init_loop_log h1) as [L2 _].
  pose proof (init_loop_last h1) as V2.
  destruct (discovery_init_loop h1) as [[r2 [[l2 t2] s2]] h2].
  destruct (discovery_reset h2) as [r3 h3].
  pose proof (discovery_init_bidir_log l2 t2 s2 h3) as [L4 _].
  pose proof (init_bidir_last l2 t2 s2 h3) as V4.
  destruct (discovery_init_bidir l2 t2 s2 h3) as [[r4 [[l4 t4] s4]] h4].
  cbn [fst snd] in L2, L4, V2, V4.
  rewrite Hrun in R. unfold aoosp_exec_resetinit_last. cbn [fst option_map] in *.
  destruct r1; [ destruct r2; [ | | destruct r3; [ destruct r4 | .. ] | .. ] | .. ];
    try discriminate R.
  - destruct (V2 eq_refl) as (v & -> & Hv). cbn [cell_get] in R.
    injection R as -> -> ->. cbn [set_resetinit_last snd aoosp_exec_resetinit_last_ spi_log].
    split; [ unfold u16; apply Z.mod_small; lia | ].
    split; [ exact Hv | ]. split; [ left; reflexivity | ].
    rewrite L2. do 2 eexists. reflexivity.
  - destruct (V4 eq_refl) as (v & -> & Hv). cbn [cell_get] in R.
    injection R as -> -> ->. cbn [set_resetinit_last snd aoosp_exec_resetinit_last_ spi_log].
    split; [ unfold u16; apply Z.mod_small; lia | ].
    split; [ exact Hv | ]. split; [ right; reflexivity | ].
    rewrite L4. do 2 eexists. reflexivity.
Qed.


(** X13.  Whatever the bus answers, a discovery run puts on the bus a
    prefix of one fixed sequence of eight steps (broadcast RESET, 150 us,
    mux to loop, INITLOOP to address 1, broadcast RESET, 150 us, mux to
    bidir, INITBIDIR to address 1), cut after step 2, 4, 6 or 8; the stored
    password is not touched. *)
Theorem resetinit_events : forall last loop h,
  let reset := ev_tx [160; 0; 0; u8 (aoosp_crc [160; 0; 0])] in
  let initloop := ev_txrx [160; 4; 3; u8 (aoosp_crc [160; 4; 3])] 6 in
  let initbidir := ev_txrx [160; 4; 2; u8 (aoosp_crc [160; 4; 2])] 6 in
  let h' := snd (aoosp_exec_resetinit last loop h) in
  (exists k, (k = 2 \/ k = 4 \/ k = 6 \/ k = 8)%nat /\
     spi_log h' =
     spi_log h ++ firstn k [reset; ev_delay_us 150; ev_dirmux_loop; initloop;
                            reset; ev_delay_us 150; ev_dirmux_bidir; initbidir]) /\
  aoosp_said_testpw h' = aoosp_said_testpw h.
Proof.
  intros last loop h reset initloop initbidir h'. subst h'.
  pose proof (resetinit_run last loop h) as R. cbv zeta in R.
  pose proof (discovery_reset_eq (snd (set_resetinit_last 0 h))) as E1.
  destruct (discovery_reset (snd (set_resetinit_last 0 h))) as [r1 h1].
  pose proof (discovery_init_loop_log h1) as (L2 & _ & P2).
  destruct (discovery_init_loop h1) as [[r2 [[l2 t2] s2]] h2].
  pose proof (discovery_reset_eq h2) as E3.
  destruct (discovery_reset h2) as [r3 h3].
  pose proof (discovery_init_bidir_log l2 t2 s2 h3) as (L4 & _ & P4).
  destruct (discovery_init_bidir l2 t2 s2 h3) as [[r4 [[l4 t4] s4]] h4].
  cbn [snd] in L2, L4, P2, P4.
  apply (f_equal snd) in E1, E3. cbn [snd] in E1, E3. subst h1 h3.
  cbn [spi_log aoosp_said_testpw set_resetinit_last snd] in L2, L4, P2, P4.
  rewrite L2, <- !app_assoc in L4. cbn [app] in L4. rewrite <- app_assoc in L2. cbn [app] in L2.
  fold reset initloop initbidir in L2, L4.
  rewrite R. clear R.
  destruct r1; [ destruct r2; [ | | destruct r3; [ destruct r4 | .. ] | .. ] | .. ];
    cbn [snd set_resetinit_last spi_log aoosp_said_testpw].
  all: (split; [ | congruence ]).
  all: first
    [ exists 2%nat; split; [ auto | reflexivity ]
    | exists 4%nat; split; [ auto | exact L2 ]
    | exists 6%nat; split; [ auto | rewrite L2, <- app_assoc; reflexivity ]
    | exists 8%nat; split; [ auto | exact L4 ] ].
Qed.

End DiscoveryProperties.

(** ** The OTP procedures, continued *)

Lemma land_pow2_testbit : forall x j,
  0 <= j -> nonzero (Z.land x (2 ^ j)) = Z.testbit x j.
Proof.
  intros x j Hj. unfold nonzero.
  destruct (Z.testbit x j) eqn:E.
  - apply negb_true_iff, Z.eqb_neq. intros H0.
    assert (Hb : Z.testbit (Z.land x (2 ^ j)) j = true)
      by (rewrite Z.land_spec, E, Z.pow2_bits_true by lia; reflexivity).
    rewrite H0, Z.bits_0 in Hb. discriminate Hb.
  - apply negb_false_iff, Z.eqb_eq. apply Z.bits_inj'. intros m Hm.
    rewrite Z.land_spec, Z.bits_0, Z.pow2_bits_eqb by lia.
    destruct (Z.eqb_spec j m) as [<- | Hne]; [ rewrite E; reflexivity | apply andb_false_r ].
Qed.

Lemma u8_testbit : forall x k,
  0 <= k -> Z.testbit (u8 x) k = if k <? 8 then Z.testbit x k else false.
Proof.
  intros x k Hk. unfold u8. change 256 with (2 ^ 8).
  destruct (Z.ltb_spec k 8).
  - apply Z.mod_pow2_bits_low. lia.
  - apply Z.mod_pow2_bits_high. lia.
Qed.

Lemma byte_testbit_high : forall x k, 0 <= x < 256 -> 8 <= k -> Z.testbit x k = false.
Proof.
  intros x k Hx Hk. rewrite <- (u8_small x Hx), u8_testbit by lia.
  replace (k <? 8) with false by (symmetry; apply Z.ltb_ge; lia). reflexivity.
Qed.

(** The byte that [otp_bit_set] makes [aoosp_exec_setotp] write: bit [j]
    follows [enable], every other bit is the old one. *)
Lemma masked_bit : forall old j enable k,
  0 <= old < 256 -> 0 <= j < 8 -> 0 <= k ->
  Z.testbit
    (u8 (Z.lor (Z.land old (u8 (if nonzero enable then 0xFF else Z.lnot (2 ^ j))))
               (u8 (if nonzero enable then 2 ^ j else 0)))) k =
  if k =? j then nonzero enable else Z.testbit old k.
Proof.
  intros old j enable k Ho Hj Hk.
  rewrite u8_testbit, Z.lor_spec, Z.land_spec, !u8_testbit by lia.
  destruct (Z.ltb_spec k 8) as [Hk8 | Hk8].
  - destruct (nonzero enable).
    + change 0xFF with (Z.ones 8). rewrite Z.ones_spec_low by lia.
      rewrite Z.pow2_bits_eqb by lia. rewrite andb_true_r.
      rewrite (Z.eqb_sym j k).
      destruct (Z.eqb_spec k j); [ apply orb_true_r | apply orb_false_r ].
    + rewrite Z.lnot_spec, Z.pow2_bits_eqb, Z.bits_0 by lia. rewrite orb_false_r.
      rewrite (Z.eqb_sym j k).
      destruct (Z.eqb_spec k j); [ apply andb_false_r | apply andb_true_r ].
  - destruct (Z.eqb_spec k j); [ lia | ].
    symmetry. apply byte_testbit_high; lia.
Qed.

Section OtpProperties.
Context {P : Platform}.

(** The run of [aoosp_exec_setotp] when nothing fails before the write. *)
Lemma setotp_write_log : forall addr otpaddr ormask andmask h h1 rx,
  0x0D <= otpaddr <= 0x1F ->
  aoosp_send_settestpw addr (aoosp_said_testpw h) h = (aoresult_ok, h1) ->
  let read := wire (fst (aoosp_con_readotp (Some uninit_tele) addr otpaddr (Some 0))) in
  aospi_txrx_result (spi_log h1) read 12 = (aoresult_ok, rx) ->
  fst (aoosp_des_readotp (Some (mk_tele rx 12)) (Some (repeat 0 8)) 8) = aoresult_ok ->
  exists b0 b1 b2 crc,
    let write :=
      [b0; b1; b2; u8 (nth 4 rx 0); u8 (nth 5 rx 0); u8 (nth 6 rx 0); u8 (nth 7 rx 0);
       u8 (nth 8 rx 0); u8 (nth 9 rx 0);
       u8 (u8 (Z.lor (Z.land (nth 10 rx 0) andmask) ormask)); u8 otpaddr; crc] in
    aoosp_exec_setotp addr otpaddr ormask andmask h =
    (aospi_tx_result (spi_log h1 ++ [ev_txrx read 12]) write,
     mk_host (spi_log h1 ++ [ev_txrx read 12; ev_tx write;
                             ev_tx (wire (aoosp_con_settestpw (Some uninit_tele) addr 0))])
             (aoosp_exec_resetinit_last_ h1) (aoosp_said_testpw h1)).
Proof.
  intros addr otpaddr ormask andmask h h1 rx Hrow Hacq read Hrx Hdes.
  pose proof (send_settestpw_addr_ok _ _ _ _ Hacq) as Haddr.
  assert (Hrow' : otpaddr <= 0x1F) by lia.
  assert (Hread : aoosp_send_readotp addr otpaddr (Some (repeat 0 8)) 8 h1 =
                  (aoresult_ok,
                   Some [nth 10 rx 0; nth 9 rx 0; nth 8 rx 0; nth 7 rx 0;
                         nth 6 rx 0; nth 5 rx 0; nth 4 rx 0; nth 3 rx 0],
                   snd (log_event (ev_txrx read 12) h1))).
  { rewrite send_readotp_eq by assumption. fold read.
    unfold aospi_txrx. rewrite Hrx.
    pose proof (des_readotp_row (mk_tele rx 12) Hdes) as Hb.
    destruct (aoosp_des_readotp (Some (mk_tele rx 12)) (Some (repeat 0 8)) 8) as [d b].
    cbn [fst snd] in Hdes, Hb. subst d b. reflexivity. }
  destruct (con_setotp_wire addr otpaddr
              (u8 (Z.lor (Z.land (nth 10 rx 0) andmask) ormask))
              (nth 9 rx 0) (nth 8 rx 0) (nth 7 rx 0) (nth 6 rx 0) (nth 5 rx 0) (nth 4 rx 0)
              [nth 3 rx 0] Haddr Hrow') as (b0' & b1' & b2' & crc & Hcon).
  exists b0', b1', b2', crc. cbv zeta.
  unfold aoosp_exec_setotp.
  replace ((otpaddr <? 0x0D) || (0x1F <? otpaddr)) with false
    by (symmetry; apply orb_false_iff; split; apply Z.ltb_ge; lia).
  unfold bind, ret, aoosp_said_testpw_get, setotp_free_resources. host_simpl.
  rewrite Hacq. host_simpl. cbn [is_ok negb]. unfold bind, ret. host_simpl.
  rewrite Hread. host_simpl. cbn [is_ok negb list_set nth]. host_simpl.
  unfold aoosp_send_setotp. rewrite send_tx_eq, Hcon.
  unfold tele_bytes. cbn [deref_tele data size]. change (Z.to_nat 12) with 12%nat.
  cbn [firstn]. unfold aospi_tx. host_simpl.
  unfold log_event. host_simpl.
  destruct (aospi_tx_result _ _); cbn [is_ok negb]; host_simpl;
    rewrite send_settestpw_zero by exact Haddr;
    unfold aospi_tx, log_event; host_simpl;
    rewrite <- !app_assoc; reflexivity.
Qed.


(** X14.  [aoosp_exec_i2cenable_get] and [aoosp_exec_syncpinenable_get]
    read row 0x0D with one READOTP exchange and report bit 0 (I2C_BRIDGE_EN)
    respectively bit 2 (SYNC_PIN_EN) of the byte at the row address, which
    the response carries in its last payload byte.  With a null out
    parameter nothing is sent; when the exchange fails its error is
    returned and the out parameter keeps its value. *)
Theorem otp_enable_get : forall addr e0 h,
  AOOSP_ADDR_ISOK addr = true ->
  let read := wire (fst (aoosp_con_readotp (Some uninit_tele) addr 0x0D (Some 0))) in
  let h' := snd (log_event (ev_txrx read 12) h) in
  (aoosp_exec_i2cenable_get addr None h = (aoresult_outargnull, None, h) /\
   aoosp_exec_syncpinenable_get addr None h = (aoresult_outargnull, None, h)) /\
  (forall rx,
     aospi_txrx_result (spi_log h) read 12 = (aoresult_ok, rx) ->
     fst (aoosp_des_readotp (Some (mk_tele rx 12)) (Some (repeat 0 8)) 8) = aoresult_ok ->
     aoosp_exec_i2cenable_get addr (Some e0) h =
       (aoresult_ok, Some (Z.b2z (Z.testbit (readotp_row rx 0) 0)), h') /\
     aoosp_exec_syncpinenable_get addr (Some e0) h =
       (aoresult_ok, Some (Z.b2z (Z.testbit (readotp_row rx 0) 2)), h')) /\
  (forall e b h1,
     aoosp_send_readotp addr 0x0D (Some (repeat 0 8)) 8 h = (e, b, h1) ->
     e <> aoresult_ok ->
     aoosp_exec_i2cenable_get addr (Some e0) h = (e, Some e0, h1) /\
     aoosp_exec_syncpinenable_get addr (Some e0) h = (e, Some e0, h1)).
Proof.
  intros addr e0 h Haddr read h'.
  split; [ split; reflexivity | split ].
  - intros rx Hrx Hdes.
    assert (Hread : aoosp_send_readotp addr 0x0D (Some (repeat 0 8)) 8 h =
                    (aoresult_ok,
                     Some [nth 10 rx 0; nth 9 rx 0; nth 8 rx 0; nth 7 rx 0;
                           nth 6 rx 0; nth 5 rx 0; nth 4 rx 0; nth 3 rx 0], h')).
    { rewrite send_readotp_eq by (assumption || lia). fold read.
      unfold aospi_txrx. rewrite Hrx.
      pose proof (des_readotp_row (mk_tele rx 12) Hdes) as Hb.
      destruct (aoosp_des_readotp (Some (mk_tele rx 12)) (Some (repeat 0 8)) 8) as [d b].
      cbn [fst snd] in Hdes, Hb. subst d b. reflexivity. }
    unfold aoosp_exec_i2cenable_get, aoosp_exec_syncpinenable_get, otp_bit_get, bind, ret.
    rewrite Hread. cbn [is_ok negb nth]. unfold readotp_row. cbn [Nat.sub].
    change 0x01 with (2 ^ 0). change 0x04 with (2 ^ 2).
    rewrite !land_pow2_testbit by lia.
    split; destruct (Z.testbit (nth 10 rx 0) _); reflexivity.
  - intros e b h1 Hsend He.
    unfold aoosp_exec_i2cenable_get, aoosp_exec_syncpinenable_get, otp_bit_get, bind, ret.
    rewrite Hsend. destruct e; cbn [is_ok negb]; try (split; reflexivity).
    exfalso. apply He. reflexivity.
Qed.

(** X15.  [aoosp_exec_i2cenable_set] and [aoosp_exec_syncpinenable_set]
    change one bit: in the row they write back, bit 0 (respectively bit 2)
    of the byte at the row address is set when [enable] is non-zero and
    cleared when it is zero, every other bit of that byte is as it was
    read, and so are the six bytes after it. *)
Theorem otp_enable_set : forall addr enable h h1 rx,
  aoosp_send_settestpw addr (aoosp_said_testpw h) h = (aoresult_ok, h1) ->
  let read := wire (fst (aoosp_con_readotp (Some uninit_tele) addr 0x0D (Some 0))) in
  aospi_txrx_result (spi_log h1) read 12 = (aoresult_ok, rx) ->
  fst (aoosp_des_readotp (Some (mk_tele rx 12)) (Some (repeat 0 8)) 8) = aoresult_ok ->
  Forall (fun b => 0 <= b < 256) rx ->
  let changes (j : Z) (run : host -> aoresult_t * host) :=
    exists write,
      spi_log (snd (run h)) =
        spi_log h1 ++ [ev_txrx read 12; ev_tx write;
                       ev_tx (wire (aoosp_con_settestpw (Some uninit_tele) addr 0))] /\
      (forall k, 0 <= k ->
         Z.testbit (setotp_row write 0) k =
         if k =? j then nonzero enable else Z.testbit (readotp_row rx 0) k) /\
      (forall i, (1 <= i <= 6)%nat -> setotp_row write i = readotp_row rx i) in
  changes 0 (aoosp_exec_i2cenable_set addr enable) /\
  changes 2 (aoosp_exec_syncpinenable_set addr enable).
Proof.
  intros addr enable h h1 rx Hacq read Hrx Hdes Hbytes changes.
  pose proof (nth_byte rx) as Hb.
  assert (Hgen : forall j, 0 <= j < 8 ->
            changes j (otp_bit_set 0x0D (2 ^ j) addr enable)).
  { intros j Hj. unfold changes, otp_bit_set.
    destruct (setotp_write_log addr 0x0D
                (u8 (if nonzero enable then 2 ^ j else 0))
                (u8 (if nonzero enable then 0xFF else Z.lnot (2 ^ j)))
                h h1 rx ltac:(lia) Hacq Hrx Hdes) as (b0 & b1 & b2 & crc & Hrun).
    cbv zeta in Hrun. rewrite Hrun. cbn [snd spi_log].
    eexists. split; [ reflexivity | ].
    unfold setotp_row, readotp_row. cbn [Nat.sub nth]. split.
    - intros k Hk. rewrite (u8_small (u8 _)) by apply u8_range.
      apply masked_bit; auto.
    - intros i Hi.
      do 7 (destruct i as [|i]; [ try lia; cbn [Nat.sub nth]; apply u8_small; auto | ]).
      lia. }
  split; [ apply (Hgen 0) | apply (Hgen 2) ]; lia.
Qed.

End OtpProperties.

Section ProcedureProperties.
Context {P : Platform}.

Lemma setotp_acquire_fails : forall addr otpaddr ormask andmask h e h1,
  0x0D <= otpaddr <= 0x1F ->
  aoosp_send_settestpw addr (aoosp_said_testpw h) h = (e, h1) ->
  e <> aoresult_ok ->
  aoosp_exec_setotp addr otpaddr ormask andmask h = (e, h1).
Proof.
  intros addr otpaddr ormask andmask h e h1 Hrow Hacq He.
  unfold aoosp_exec_setotp.
  replace ((otpaddr <? 0x0D) || (0x1F <? otpaddr)) with false
    by (symmetry; apply orb_false_iff; split; apply Z.ltb_ge; lia).
  unfold bind, ret, aoosp_said_testpw_get, setotp_free_resources. host_simpl.
  rewrite Hacq. host_simpl.
  destruct e; cbn [is_ok negb]; host_simpl; try reflexivity.
  exfalso. apply He. reflexivity.
Qed.

(** X16.  [aoosp_exec_setotp] and the password.  When sending the stored
    password fails, the procedure returns that error at once: no READOTP,
    no SETOTP and no revoking SETTESTPW follow, and at most the one
    SETTESTPW transmission has reached the bus. *)
Theorem setotp_acquire_failure : forall addr otpaddr ormask andmask h e h1,
  0x0D <= otpaddr <= 0x1F ->
  aoosp_send_settestpw addr (aoosp_said_testpw h) h = (e, h1) ->
  e <> aoresult_ok ->
  aoosp_exec_setotp addr otpaddr ormask andmask h = (e, h1) /\
  (spi_log h1 = spi_log h \/
   spi_log h1 =
   spi_log h ++
   [ev_tx (wire (aoosp_con_settestpw (Some uninit_tele) addr (aoosp_said_testpw h)))]).
Proof.
  intros addr otpaddr ormask andmask h e h1 Hrow Hacq He. split.
  - apply setotp_acquire_fails; assumption.
  - unfold aoosp_send_settestpw in Hacq. rewrite send_tx_eq in Hacq. unfold wire.
    destruct (aoosp_con_settestpw (Some uninit_tele) addr (aoosp_said_testpw h)) as [rc tc].
    cbn [snd].
    destruct rc; try (left; congruence).
    right. unfold aospi_tx, log_event in Hacq. apply (f_equal snd) in Hacq.
    cbn [snd] in Hacq. subst h1. reflexivity.
Qed.

Lemma con_settestpw_bytes : forall addr pw,
  AOOSP_ADDR_ISOK addr = true -> 0 <= pw < 2 ^ 48 ->
  let body := [u8 (Z.lor 0xA0 (BITS_SLICE addr 6 10));
               u8 (Z.lor (Z.shiftl (BITS_SLICE addr 0 6) 2) 3); 0x5F;
               u8 (Z.shiftr pw 0); u8 (Z.shiftr pw 8); u8 (Z.shiftr pw 16);
               u8 (Z.shiftr pw 24); u8 (Z.shiftr pw 32); u8 (Z.shiftr pw 40)] in
  aoosp_con_settestpw (Some uninit_tele) addr pw =
  (aoresult_ok, Some (mk_tele (body ++ [u8 (aoosp_crc body); 0; 0]) 10)).
Proof.
  intros addr pw Haddr Hpw body. subst body.
  unfold aoosp_con_settestpw. rewrite Haddr. cbn [negb].
  replace (nonzero (Z.land pw (Z.lnot 0x0000FFFFFFFFFFFF))) with false.
  - unfold uninit_tele.
    change (repeat 0 AOOSP_TELE_MAXSIZE) with [0; 0; 0; 0; 0; 0; 0; 0; 0; 0; 0; 0].
    reveal. change (u8 (Z.lor (Z.shiftl 0 7) 95)) with 0x5F. reflexivity.
  - symmetry. unfold nonzero. apply negb_false_iff, Z.eqb_eq.
    change 0x0000FFFFFFFFFFFF with (Z.ones 48).
    rewrite <- Z.ldiff_land. apply Z.ldiff_ones_r_low; [ lia | ].
    destruct (Z.eq_dec pw 0) as [-> | Hnz]; [ reflexivity | ].
    apply Z.log2_lt_pow2; lia.
Qed.

Lemma send_tx_extends : forall con h,
  exists tl, spi_log (snd (send_tx con h)) = spi_log h ++ tl.
Proof.
  intros con h. rewrite send_tx_eq. destruct (con (Some uninit_tele)) as [r tele].
  destruct r; try (exists []; rewrite app_nil_r; reflexivity).
  unfold aospi_tx, log_event. eexists. reflexivity.
Qed.

Lemma send_txrx_extends :
  forall O con (des : option aoosp_tele_t -> O -> aoresult_t * O) outs h,
  exists tl, spi_log (snd (send_txrx con des outs h)) = spi_log h ++ tl.
Proof.
  intros O con des outs h. rewrite send_txrx_eq.
  destruct (con (Some uninit_tele) (Some 0)) as [[r tele] rs].
  destruct r; try (exists []; rewrite app_nil_r; reflexivity).
  unfold aospi_txrx, log_event. host_simpl.
  destruct (aospi_txrx_result _ _ _) as [r rx].
  destruct r; try (eexists; reflexivity).
  destruct (des _ outs) as [d o]. eexists. reflexivity.
Qed.

(** Once the password went out, the rest of [aoosp_exec_setotp] only adds
    to the log. *)
Lemma setotp_after_acquire : forall addr otpaddr ormask andmask h,
  0x0D <= otpaddr <= 0x1F ->
  exists tl,
    spi_log (snd (aoosp_exec_setotp addr otpaddr ormask andmask h)) =
    spi_log (snd (aoosp_send_settestpw addr (aoosp_said_testpw h) h)) ++ tl.
Proof.
  intros addr otpaddr ormask andmask h Hrow. unfold aoosp_exec_setotp.
  replace ((otpaddr <? 0x0D) || (0x1F <? otpaddr)) with false
    by (symmetry; apply orb_false_iff; split; apply Z.ltb_ge; lia).
  unfold bind, ret, aoosp_said_testpw_get, setotp_free_resources. host_simpl.
  destruct (aoosp_send_settestpw addr (aoosp_said_testpw h) h) as [r1 h1].
  host_simpl.
  destruct r1; cbn [is_ok negb]; host_simpl;
    try (exists []; rewrite app_nil_r; reflexivity).
  unfold bind, ret.
  pose proof (send_txrx_extends _
                (fun tele rs => aoosp_con_readotp tele addr otpaddr rs)
                (fun resp buf => aoosp_des_readotp resp buf 8) (Some (repeat 0 8)) h1) as [t2 L2].
  fold (aoosp_send_readotp addr otpaddr (Some (repeat 0 8)) 8 h1) in L2.
  destruct (aoosp_send_readotp addr otpaddr (Some (repeat 0 8)) 8 h1) as [[r2 buf] h2].
  cbn [snd] in L2. host_simpl.
  assert (Hrev : forall hk, exists tl,
            spi_log (snd (aoosp_send_settestpw addr 0 hk)) = spi_log hk ++ tl)
    by (intros hk; apply send_tx_extends).
  destruct r2; cbn [is_ok negb]; host_simpl;
    [ | destruct (Hrev h2) as [t4 L4];
        destruct (aoosp_send_settestpw addr 0 h2) as [r4 h4]; cbn [snd] in L4 |- *;
        rewrite L4, L2, <- app_assoc; eexists; reflexivity .. ].
  match goal with
  | |- context [aoosp_send_setotp addr otpaddr ?b 7 h2] =>
      pose proof (send_tx_extends (fun tele => aoosp_con_setotp tele addr otpaddr b 7) h2)
        as [t3 L3];
      fold (aoosp_send_setotp addr otpaddr b 7 h2) in L3;
      destruct (aoosp_send_setotp addr otpaddr b 7 h2) as [r3 h3]
  end.
  cbn [snd] in L3. host_simpl.
  destruct (Hrev h3) as [t4 L4].
  destruct r3; cbn [is_ok negb]; host_simpl;
    destruct (aoosp_send_settestpw addr 0 h3) as [r4 h4]; cbn [snd] in L4 |- *;
    rewrite L4, L3, L2, <- !app_assoc; eexists; reflexivity.
Qed.

(** X17.  The password [aoosp_exec_setotp] sends is the one last stored
    with [aoosp_said_testpw_set]: the first frame on the bus is SETTESTPW
    (telegram id 0x5F, six bytes of payload) to the address [addr],
    carrying the six bytes of the stored password, least significant byte
    first, and closed by the checksum of the nine bytes before it.  A
    stored value that does not fit 48 bits is refused by the constructor,
    and the procedure ends with [aoresult_osp_arg] before anything is
    sent. *)
Theorem setotp_uses_stored_password : forall pw addr otpaddr ormask andmask h,
  0x0D <= otpaddr <= 0x1F ->
  AOOSP_ADDR_ISOK addr = true ->
  0 <= pw ->
  let h0 := snd (aoosp_said_testpw_set pw h) in
  fst (aoosp_said_testpw_get h0) = pw /\
  (pw < 2 ^ 48 ->
   let b0 := u8 (Z.lor 0xA0 (BITS_SLICE addr 6 10)) in
   let b1 := u8 (Z.lor (Z.shiftl (BITS_SLICE addr 0 6) 2) 3) in
   let b2 := 0x5F in
   let body := [b0; b1; b2; u8 (Z.shiftr pw 0); u8 (Z.shiftr pw 8); u8 (Z.shiftr pw 16);
                u8 (Z.shiftr pw 24); u8 (Z.shiftr pw 32); u8 (Z.shiftr pw 40)] in
   (exists rest,
      spi_log (snd (aoosp_exec_setotp addr otpaddr ormask andmask h0)) =
      spi_log h ++ ev_tx (body ++ [u8 (aoosp_crc body)]) :: rest) /\
   BITS_SLICE b0 4 8 = 0xA /\
   Z.lor (Z.shiftl (BITS_SLICE b0 0 4) 6) (BITS_SLICE b1 2 8) = addr /\
   BITS_SLICE b2 0 7 = 0x5F /\
   BITS_SLICE b1 0 2 * 2 + BITS_SLICE b2 7 8 = SIZE2PSI 6) /\
  (2 ^ 48 <= pw ->
   aoosp_exec_setotp addr otpaddr ormask andmask h0 = (aoresult_osp_arg, h0)).
Proof.
  intros pw addr otpaddr ormask andmask h Hrow Haddr Hpw h0.
  split; [ reflexivity | split ].
  - intros Hlt b0 b1 b2 body.
    pose proof (con_settestpw_bytes addr pw Haddr ltac:(lia)) as Hcon. cbv zeta in Hcon.
    pose proof (proj1 (addr_isok_range addr) Haddr) as Hrange.
    destruct (header_fields addr 3 Hrange ltac:(lia)) as [Hpre Hdest].
    split; [ | split; [ exact Hpre | split; [ exact Hdest | split ] ] ].
    + destruct (setotp_after_acquire addr otpaddr ormask andmask h0 Hrow) as [tl Htl].
      exists tl. rewrite Htl.
      subst h0. cbn [aoosp_said_testpw_set snd aoosp_said_testpw].
      unfold aoosp_send_settestpw. rewrite send_tx_eq, Hcon.
      unfold tele_bytes. cbn [deref_tele data size app]. change (Z.to_nat 10) with 10%nat.
      cbn [firstn]. unfold aospi_tx, log_event. host_simpl.
      rewrite <- app_assoc. reflexivity.
    + reflexivity.
    + subst b1 b2. rewrite psi_hi_bits by lia. reflexivity.
  - intros Hge.
    assert (Hcon : aoosp_con_settestpw (Some uninit_tele) addr pw =
                   (aoresult_osp_arg, Some uninit_tele)).
    { unfold aoosp_con_settestpw. rewrite Haddr. cbn [negb].
      destruct (nonzero (Z.land pw (Z.lnot 0x0000FFFFFFFFFFFF))) eqn:E; [ reflexivity | ].
      apply (mask_check pw 48) in E; lia. }
    apply setotp_acquire_fails; [ exact Hrow | | discriminate ].
    subst h0. cbn [aoosp_said_testpw_set snd aoosp_said_testpw].
    unfold aoosp_send_settestpw. rewrite send_tx_eq, Hcon. reflexivity.
Qed.


Lemma is_said_manupart : forall id,
  AOOSP_IDENTIFY_IS_SAID id = true <-> (id / 2 ^ 6) mod 2 ^ 22 = 1.
Proof.
  intros id. unfold AOOSP_IDENTIFY_IS_SAID, AOOSP_IDENTIFY_ID2MANUPART,
    AOOSP_IDENTIFY_MANUPART_SAID.
  rewrite Z.eqb_eq. change 0x3FFFFF with (Z.ones 22).
  rewrite Z.land_ones, Z.shiftr_div_pow2 by lia. reflexivity.
Qed.

Lemma con_setcurchn_power : forall addr,
  AOOSP_ADDR_ISOK addr = true ->
  let body := [u8 (Z.lor 0xA0 (BITS_SLICE addr 6 10));
               u8 (Z.lor (Z.shiftl (BITS_SLICE addr 0 6) 2) 1); 0xD1; 2; 4; 68] in
  aoosp_con_setcurchn (Some uninit_tele) addr 2 0 4 4 4 =
  (aoresult_ok, Some (mk_tele (body ++ [u8 (aoosp_crc body); 0; 0; 0; 0; 0]) 7)).
Proof.
  intros addr Haddr body. subst body. unfold aoosp_con_setcurchn. rewrite Haddr.
  change (nonzero (Z.land 0 (Z.lnot 7))) with false.
  change (AOOSP_CUR_OK 4) with true.
  change (negb (2 =? 0) && negb (2 =? 1) && negb (2 =? 2)) with false.
  cbn [negb]. unfold uninit_tele.
  change (repeat 0 AOOSP_TELE_MAXSIZE) with [0; 0; 0; 0; 0; 0; 0; 0; 0; 0; 0; 0].
  reveal.
  change (u8 (Z.lor (Z.shiftl 0 4) 4)) with 4. change (u8 (Z.lor (Z.shiftl 4 4) 4)) with 68.
  change (u8 (Z.lor (Z.shiftl 1 7) 81)) with 0xD1. reflexivity.
Qed.

(** X18.  [aoosp_exec_i2cpower] powers the I2C bus only of a SAID with
    the bridge enabled.  After a successful IDENTIFY: an id whose
    manufacturer and part bits (bits 6 to 27) are not 1 gives
    [aoresult_sys_id] at once, with no OTP read; for a SAID, a failing OTP
    read gives its error, a cleared I2C_BRIDGE_EN gives
    [aoresult_dev_noi2cbridge], and only otherwise SETCURCHN (telegram id
    0x51, three bytes of payload) goes out to [addr], for channel 2 with
    flags 0 and the three currents 4; the result of that transmission is
    the result. *)
Theorem i2cpower_cascade : forall addr h id h1,
  AOOSP_ADDR_ISOK addr = true ->
  aoosp_send_identify addr (Some 0) h = (aoresult_ok, Some id, h1) ->
  ((id / 2 ^ 6) mod 2 ^ 22 <> 1 -> aoosp_exec_i2cpower addr h = (aoresult_sys_id, h1)) /\
  ((id / 2 ^ 6) mod 2 ^ 22 = 1 ->
   forall r2 en h2,
     aoosp_exec_i2cenable_get addr (Some 0) h1 = (r2, Some en, h2) ->
     (r2 <> aoresult_ok -> aoosp_exec_i2cpower addr h = (r2, h2)) /\
     (r2 = aoresult_ok -> en = 0 ->
      aoosp_exec_i2cpower addr h = (aoresult_dev_noi2cbridge, h2)) /\
     (r2 = aoresult_ok -> en <> 0 ->
      let b0 := u8 (Z.lor 0xA0 (BITS_SLICE addr 6 10)) in
      let b1 := u8 (Z.lor (Z.shiftl (BITS_SLICE addr 0 6) 2) 1) in
      let b2 := 0xD1 in
      let body := [b0; b1; b2; 2; 4; 68] in
      let frame := body ++ [u8 (aoosp_crc body)] in
      aoosp_exec_i2cpower addr h =
        (aospi_tx_result (spi_log h2) frame, snd (log_event (ev_tx frame) h2)) /\
      BITS_SLICE b0 4 8 = 0xA /\
      Z.lor (Z.shiftl (BITS_SLICE b0 0 4) 6) (BITS_SLICE b1 2 8) = addr /\
      BITS_SLICE b2 0 7 = 0x51 /\
      BITS_SLICE b1 0 2 * 2 + BITS_SLICE b2 7 8 = SIZE2PSI 3)).
Proof.
  intros addr h id h1 Haddr Hid. split.
  - intros Hns. unfold aoosp_exec_i2cpower, bind, ret. rewrite Hid. cbn [is_ok negb cell_get].
    destruct (AOOSP_IDENTIFY_IS_SAID id) eqn:E; [ | reflexivity ].
    apply is_said_manupart in E. contradiction.
  - intros Hs r2 en h2 Hget.
    apply is_said_manupart in Hs.
    unfold aoosp_exec_i2cpower, bind, ret. rewrite Hid. cbn [is_ok negb cell_get].
    rewrite Hs. cbn [negb]. rewrite Hget. cbn [cell_get].
    split; [ | split ].
    + intros Hr. destruct r2; cbn [is_ok negb]; try reflexivity.
      exfalso. apply Hr. reflexivity.
    + intros -> ->. reflexivity.
    + intros -> Hen. cbv zeta. cbn [is_ok negb]. unfold nonzero.
      replace (en =? 0) with false by (symmetry; apply Z.eqb_neq; exact Hen).
      cbn [negb].
      pose proof (con_setcurchn_power addr Haddr) as Hcon. cbv zeta in Hcon.
      pose proof (proj1 (addr_isok_range addr) Haddr) as Hrange.
      destruct (header_fields addr 1 Hrange ltac:(lia)) as [Hpre Hdest].
      split; [ | split; [ exact Hpre | split; [ exact Hdest | split ] ] ].
      * unfold aoosp_send_setcurchn. rewrite send_tx_eq, Hcon.
        unfold tele_bytes. cbn [deref_tele data size app]. change (Z.to_nat 7) with 7%nat.
        cbn [firstn]. unfold aospi_tx.
        destruct (aospi_tx_result _ _); reflexivity.
      * reflexivity.
      * rewrite psi_hi_bits by lia. reflexivity.
Qed.

(** X19.  The I2C procedures stop at the first failing telegram.  When
    the bridge telegram itself fails, no status is read.  When a status read
    fails during the polling, its error is returned at once, without the
    1 ms delay and without a further read; [aoosp_exec_i2cread8] then
    leaves the caller's buffer as it was. *)
Theorem i2c_failure_aborts : forall addr daddr7 raddr buf count h,
  (forall e h0,
     e <> aoresult_ok ->
     (aoosp_send_i2cwrite8 addr daddr7 raddr buf count h = (e, h0) ->
      aoosp_exec_i2cwrite8 addr daddr7 raddr buf count h = (e, h0)) /\
     (aoosp_send_i2cread8 addr daddr7 raddr count h = (e, h0) ->
      aoosp_exec_i2cread8 addr daddr7 raddr buf count h = (e, buf, h0))) /\
  (forall h0 n fl1 h1 e outs h2,
     (n < 10)%nat ->
     busy_polls addr n AOOSP_I2CCFG_FLAGS_BUSY h0 fl1 h1 ->
     aoosp_send_readi2ccfg addr (Some fl1) (Some 0) h1 = (e, outs, h2) ->
     e <> aoresult_ok ->
     (aoosp_send_i2cwrite8 addr daddr7 raddr buf count h = (aoresult_ok, h0) ->
      aoosp_exec_i2cwrite8 addr daddr7 raddr buf count h = (e, h2)) /\
     (aoosp_send_i2cread8 addr daddr7 raddr count h = (aoresult_ok, h0) ->
      aoosp_exec_i2cread8 addr daddr7 raddr buf count h = (e, buf, h2))).
Proof.
  intros addr daddr7 raddr buf count h. split.
  - intros e h0 He. split; intros Hsend.
    + unfold aoosp_exec_i2cwrite8, bind, ret. rewrite Hsend.
      destruct e; cbn [is_ok negb]; try reflexivity. exfalso. apply He. reflexivity.
    + unfold aoosp_exec_i2cread8, bind, ret. rewrite Hsend.
      destruct e; cbn [is_ok negb]; try reflexivity. exfalso. apply He. reflexivity.
  - intros h0 n fl1 h1 e outs h2 Hn Hp Hpoll He.
    assert (Hb0 : nonzero (Z.land AOOSP_I2CCFG_FLAGS_BUSY AOOSP_I2CCFG_FLAGS_BUSY) = true)
      by reflexivity.
    assert (Hw : i2c_busy_wait addr 10 AOOSP_I2CCFG_FLAGS_BUSY h0 =
                 (e, cell_get (fst outs), h2)).
    { rewrite (busy_wait_skip _ _ _ _ _ _ Hp Hb0) by lia.
      replace (10 - n)%nat with (S (10 - S n)) by lia.
      rewrite busy_wait_step by (eapply busy_polls_busy; eassumption).
      rewrite Hpoll. destruct outs as [fl sp]. cbn [fst].
      destruct e; cbn [is_ok negb]; try reflexivity. exfalso. apply He. reflexivity. }
    split; intros Hsend.
    + unfold aoosp_exec_i2cwrite8, bind, ret. rewrite Hsend. cbn [is_ok negb].
      rewrite Hw. destruct e; cbn [is_ok negb]; try reflexivity.
      exfalso. apply He. reflexivity.
    + unfold aoosp_exec_i2cread8, bind, ret. rewrite Hsend. cbn [is_ok negb].
      rewrite Hw. destruct e; cbn [is_ok negb]; try reflexivity.
      exfalso. apply He. reflexivity.
Qed.

End ProcedureProperties.

(** ** Pretty printing helpers *)

(** X20.  [aoosp_prt_temp_rgbi] is [1.08 * temp - 126] rounded to the
    nearest degree: for every temperature byte the result is within half a
    degree of that value, it lies between -126 and 149, and it never
    decreases when the byte grows. *)
Theorem temp_rgbi_rounds : forall temp,
  0 <= temp < 256 ->
  -50 <= 100 * (aoosp_prt_temp_rgbi temp + 126) - 108 * temp <= 49 /\
  -126 <= aoosp_prt_temp_rgbi temp <= 149 /\
  (forall temp', temp <= temp' < 256 -> aoosp_prt_temp_rgbi temp <= aoosp_prt_temp_rgbi temp').
Proof.
  intros temp Ht. unfold aoosp_prt_temp_rgbi.
  repeat split; try intros temp' Ht'; Z.to_euclidean_division_equations; lia.
Qed.

(** X21.  [aoosp_prt_temp_said] is [(temp - 116) / 0.85 + 25] rounded to
    the nearest degree, with the rounding mirrored around the byte 116
    (which is 25 degrees): a byte [d] above 116 and a byte [d] below it give
    results equally far from 25.  The result lies between -111 and 189 and
    never decreases when the byte grows. *)
Theorem temp_said_rounds : forall temp,
  0 <= temp < 256 ->
  -42 <= 85 * (aoosp_prt_temp_said temp - 25) - 100 * (temp - 116) <= 42 /\
  -111 <= aoosp_prt_temp_said temp <= 189 /\
  (forall d, 0 <= d <= 116 ->
     aoosp_prt_temp_said (116 + d) - 25 = - (aoosp_prt_temp_said (116 - d) - 25)) /\
  (forall temp', temp <= temp' < 256 -> aoosp_prt_temp_said temp <= aoosp_prt_temp_said temp').
Proof.
  intros temp Ht. unfold aoosp_prt_temp_said. cbv zeta.
  repeat split; try intros d Hd.
  all: repeat match goal with
       | |- context [?a <? 0] => destruct (Z.ltb_spec a 0)
       end.
  all: Z.to_euclidean_division_equations; lia.
Qed.


Lemma forall_bytes : forall (p : Z -> bool),
  forallb p all_bytes = true -> forall x, 0 <= x < 256 -> p x = true.
Proof.
  intros p H x Hx. rewrite forallb_forall in H. apply H.
  unfold all_bytes. rewrite <- (Z2Nat.id x) by lia.
  apply in_map, in_seq. lia.
Qed.

(** X22.  [aoosp_prt_i2ccfg_speed] is 19.2 MHz divided by
    [2 * (8 * speed + 7)], rounded to the nearest integer; it strictly
    decreases with the speed setting, and for the settings 1 to 15 it gives
    the bus frequencies listed in the comment of the function. *)
Theorem i2ccfg_speed_table : forall speed,
  0 <= speed < 256 ->
  (let div := 2 * (speed * 8 + 7) in
   - div <= 2 * (aoosp_prt_i2ccfg_speed speed * div - 19200000) <= div) /\
  (forall speed', speed < speed' < 256 ->
     aoosp_prt_i2ccfg_speed speed' < aoosp_prt_i2ccfg_speed speed) /\
  map aoosp_prt_i2ccfg_speed [1; 2; 3; 4; 5; 6; 7; 8; 9; 10; 11; 12; 13; 14; 15] =
  [640000; 417391; 309677; 246154; 204255; 174545; 152381; 135211; 121519; 110345;
   101053; 93204; 86486; 80672; 75591].
Proof.
  intros speed Hs. split; [ | split; [ | reflexivity ] ].
  - cbv zeta.
    pose proof (forall_bytes
      (fun s => (- (2 * (s * 8 + 7)) <=?
                 2 * (aoosp_prt_i2ccfg_speed s * (2 * (s * 8 + 7)) - 19200000)) &&
                (2 * (aoosp_prt_i2ccfg_speed s * (2 * (s * 8 + 7)) - 19200000) <=?
                 2 * (s * 8 + 7)))
      ltac:(vm_compute; reflexivity) speed Hs) as H.
    cbv beta in H. apply andb_true_iff in H as [H1 H2].
    apply Z.leb_le in H1, H2. split; assumption.
  - intros speed' Hs'.
    pose proof (forall_bytes
      (fun s => forallb (fun s' => (s' <=? s) ||
                                   (aoosp_prt_i2ccfg_speed s' <? aoosp_prt_i2ccfg_speed s))
                        all_bytes)
      ltac:(vm_compute; reflexivity) speed Hs) as H.
    cbv beta in H.
    pose proof (forall_bytes _ H speed' ltac:(lia)) as H'. cbv beta in H'.
    apply orb_true_iff in H' as [H' | H']; [ apply Z.leb_le in H'; lia | ].
    apply Z.ltb_lt. exact H'.
Qed.

(** ** Concrete runs for the further properties *)

(** X1 at SETMULT to the uninitialised address 0x3FF. *)
Lemma construct_failure_untouched_witness :
  fst (construct (P := quiet_bus) (SETMULT 0x3FF 0) (Some uninit_tele) None) <> aoresult_ok /\
  snd (construct (P := quiet_bus) (SETMULT 0x3FF 0) (Some uninit_tele) None) =
  Some uninit_tele.
Proof.
  assert (H : fst (construct (P := quiet_bus) (SETMULT 0x3FF 0) (Some uninit_tele) None)
              <> aoresult_ok) by (vm_compute; discriminate).
  split; [ exact H | ].
  exact (proj2 (construct_failure_untouched (P := quiet_bus) (SETMULT 0x3FF 0)
                  (Some uninit_tele) None) H).
Defined.

(** X2 at a broadcast RESET sent to 0x3FF. *)
Lemma construct_address_check_witness :
  ~ 0 <= request_addr (RESET 0x3FF) <= 0x3FE /\
  construct (P := quiet_bus) (RESET 0x3FF) (Some uninit_tele) None =
  (aoresult_osp_addr, Some uninit_tele).
Proof.
  assert (H : ~ 0 <= request_addr (RESET 0x3FF) <= 0x3FE) by (cbn; lia).
  split; [ exact H | ].
  apply (construct_address_check (P := quiet_bus) (RESET 0x3FF) uninit_tele None H).
  intros addr daddr7 raddr count. discriminate.
Defined.

(** X3 at SETCURCHN to the group address 0x3F5. *)
Lemma constructed_header_witness :
  tele_wf uninit_tele /\
  construct (P := quiet_bus) (SETCURCHN 0x3F5 2 0 4 4 4) (Some uninit_tele) None =
  (aoresult_ok, Some (mk_tele [175; 213; 209; 2; 4; 68; 73; 0; 0; 0; 0; 0] 7)) /\
  Z.lor (Z.shiftl (BITS_SLICE 175 0 4) 6) (BITS_SLICE 213 2 8) = 0x3F5.
Proof.
  assert (Hwf : tele_wf uninit_tele) by reflexivity.
  assert (Hcon :
    construct (P := quiet_bus) (SETCURCHN 0x3F5 2 0 4 4 4) (Some uninit_tele) None =
    (aoresult_ok, Some (mk_tele [175; 213; 209; 2; 4; 68; 73; 0; 0; 0; 0; 0] 7)))
    by (vm_compute; reflexivity).
  split; [ exact Hwf | split; [ exact Hcon | ] ].
  exact (proj1 (proj2 (constructed_header (P := quiet_bus) _ _ _ _ Hwf Hcon))).
Defined.

(** X4 at the INITLOOP response of a loop of two nodes. *)
Lemma decoder_accepts_iff_witness :
  size (mk_tele (response_frame 2 0x03 [0x00; 0x50]) 6) = 4 + decoder_payloadsize DES_INITLOOP /\
  aoosp_crc (Platform := quiet_bus)
    (tele_bytes (mk_tele (response_frame 2 0x03 [0x00; 0x50]) 6) 6) = 0 /\
  destruct_result (P := quiet_bus) DES_INITLOOP
    (Some (mk_tele (response_frame 2 0x03 [0x00; 0x50]) 6)) (Some 0) (Some []) 0 = aoresult_ok.
Proof.
  assert (H1 : size (mk_tele (response_frame 2 0x03 [0x00; 0x50]) 6)
               = 4 + decoder_payloadsize DES_INITLOOP) by reflexivity.
  assert (H5 : aoosp_crc (Platform := quiet_bus)
                 (tele_bytes (mk_tele (response_frame 2 0x03 [0x00; 0x50]) 6) 6) = 0)
    by (vm_compute; reflexivity).
  split; [ exact H1 | split; [ exact H5 | ] ].
  apply (proj1 (decoder_accepts_iff (P := quiet_bus) DES_INITLOOP
                  (mk_tele (response_frame 2 0x03 [0x00; 0x50]) 6) 0 [] 0)).
  split; [ exact H1 | ].
  split; [ vm_compute; reflexivity | ].
  split; [ vm_compute; reflexivity | ].
  split; [ vm_compute; reflexivity | ].
  split; [ exact H5 | ].
  intros [E | E]; discriminate E.
Defined.

(** X5 at a READMULT response handed to the decoder of INITLOOP. *)
Lemma decoder_failure_outputs_witness :
  destruct_result (P := quiet_bus) DES_INITLOOP
    (Some (mk_tele (response_frame 1 0x0C [0x12; 0x34]) 6)) (Some 7) (Some []) 0
  <> aoresult_ok /\
  destruct_outputs (P := quiet_bus) DES_INITLOOP
    (Some (mk_tele (response_frame 1 0x0C [0x12; 0x34]) 6)) (Some 7) (Some []) 0
  = ([Some 7; Some 7; Some 7], Some []).
Proof.
  assert (H : destruct_result (P := quiet_bus) DES_INITLOOP
                (Some (mk_tele (response_frame 1 0x0C [0x12; 0x34]) 6)) (Some 7) (Some []) 0
              <> aoresult_ok) by (vm_compute; discriminate).
  split; [ exact H | ].
  exact (proj1 (decoder_failure_outputs (P := quiet_bus) DES_INITLOOP _ _ _ _) H).
Defined.

(** X6 at SETPWM with a red value of 16 bits. *)
Lemma send_nothing_on_constructor_error_witness :
  fst (construct (P := quiet_bus) (SETPWM 1 0x8000 0 0 0) (Some uninit_tele) (Some 0))
  <> aoresult_ok /\
  send (P := quiet_bus) (SETPWM 1 0x8000 0 0 0) None None 0 host0 =
  (fst (construct (P := quiet_bus) (SETPWM 1 0x8000 0 0 0) (Some uninit_tele) (Some 0)), host0).
Proof.
  assert (H : fst (construct (P := quiet_bus) (SETPWM 1 0x8000 0 0 0) (Some uninit_tele) (Some 0))
              <> aoresult_ok) by (vm_compute; discriminate).
  split; [ exact H | ].
  exact (send_nothing_on_constructor_error (P := quiet_bus) _ None None 0 host0 H).
Defined.

(** X7 at READOTP of row 0x0D: one exchange, of 12 bytes. *)
Lemma send_one_transfer_witness :
  construct (P := quiet_bus) (READOTP 1 0x0D) (Some uninit_tele) (Some 0) =
  (aoresult_ok, Some (mk_tele [160; 4; 216; 13; 226; 0; 0; 0; 0; 0; 0; 0] 5)) /\
  spi_log (snd (send (P := quiet_bus) (READOTP 1 0x0D) None (Some (repeat 0 8)) 8 host0)) =
  [ev_txrx [160; 4; 216; 13; 226] 12].
Proof.
  assert (Hcon :
    construct (P := quiet_bus) (READOTP 1 0x0D) (Some uninit_tele) (Some 0) =
    (aoresult_ok, Some (mk_tele [160; 4; 216; 13; 226; 0; 0; 0; 0; 0; 0; 0] 5)))
    by (vm_compute; reflexivity).
  split; [ exact Hcon | ].
  exact (proj1 (send_one_transfer (P := quiet_bus) _ None (Some (repeat 0 8)) 8 host0 _ Hcon)).
Defined.

(** X8 at IDENTIFY on a bus where nothing answers: the transport's
    no-clock error is the result. *)
Lemma send_result_witness :
  construct (P := quiet_bus) (IDENTIFY 1) (Some uninit_tele) (Some 0) =
  (aoresult_ok, Some (mk_tele [160; 4; 7; 58; 0; 0; 0; 0; 0; 0; 0; 0] 4)) /\
  fst (send (P := quiet_bus) (IDENTIFY 1) (Some 0) None 0 host0) = aoresult_spi_noclock.
Proof.
  assert (Hcon :
    construct (P := quiet_bus) (IDENTIFY 1) (Some uninit_tele) (Some 0) =
    (aoresult_ok, Some (mk_tele [160; 4; 7; 58; 0; 0; 0; 0; 0; 0; 0; 0] 4)))
    by (vm_compute; reflexivity).
  split; [ exact Hcon | ].
  pose proof (send_result (P := quiet_bus) (IDENTIFY 1) (Some 0) None 0 host0 _ Hcon) as H.
  cbn [request_response] in H. cbv zeta in H.
  destruct (aospi_txrx_result (Platform := quiet_bus) (spi_log host0)
              (tele_bytes (mk_tele [160; 4; 7; 58; 0; 0; 0; 0; 0; 0; 0; 0] 4) 4)
              (4 + decoder_payloadsize DES_IDENTIFY)) as [res rx] eqn:E.
  cbn [size] in H. rewrite E in H. rewrite H.
  vm_compute in E. injection E as <- _. reflexivity.
Defined.

(** X9 at the colours 0x1234, 0xABCD, 0xFFFF on channel 0. *)
Lemma setpwmchn_readpwmchn_witness :
  aoosp_con_setpwmchn (P := quiet_bus) (Some uninit_tele) 1 0 0x1234 0xABCD 0xFFFF =
  (aoresult_ok,
   Some (mk_tele [160; 7; 207; 0; 255; 0x12; 0x34; 0xAB; 0xCD; 0xFF; 0xFF; 215] 12)) /\
  aoosp_des_readpwmchn (P := quiet_bus)
    (Some (mk_tele (response_frame 1 0x4E [0x12; 0x34; 0xAB; 0xCD; 0xFF; 0xFF]) 10))
    (Some 0) (Some 0) (Some 0) =
  (aoresult_ok, (Some 0x1234, Some 0xABCD, Some 0xFFFF)).
Proof.
  set (t := mk_tele [160; 7; 207; 0; 255; 0x12; 0x34; 0xAB; 0xCD; 0xFF; 0xFF; 215] 12).
  set (resp := mk_tele (response_frame 1 0x4E [0x12; 0x34; 0xAB; 0xCD; 0xFF; 0xFF]) 10).
  assert (Hcon : aoosp_con_setpwmchn (P := quiet_bus) (Some uninit_tele) 1 0 0x1234 0xABCD 0xFFFF
                 = (aoresult_ok, Some t)) by (vm_compute; reflexivity).
  assert (Hpay : firstn 6 (skipn 3 (data resp)) = firstn 6 (skipn 5 (data t)))
    by (vm_compute; reflexivity).
  assert (Hok : fst (aoosp_des_readpwmchn (P := quiet_bus) (Some resp) (Some 0) (Some 0) (Some 0))
                = aoresult_ok) by (vm_compute; reflexivity).
  split; [ exact Hcon | ].
  pose proof (proj2 (proj2 (setpwmchn_readpwmchn (P := quiet_bus) uninit_tele 1 0 t resp
                              0x1234 0xABCD 0xFFFF 0 0 0 eq_refl
                              ltac:(lia) ltac:(lia) ltac:(lia) Hpay Hcon Hok))) as Hval.
  destruct (aoosp_des_readpwmchn (P := quiet_bus) (Some resp) (Some 0) (Some 0) (Some 0))
    as [r o].
  cbn [fst snd] in Hok, Hval. subst r o. reflexivity.
Defined.

(** X10 at flags 5 and the currents 4, 8 and 11. *)
Lemma setcurchn_readcurchn_witness :
  aoosp_con_setcurchn (P := quiet_bus) (Some uninit_tele) 1 2 5 4 8 11 =
  (aoresult_ok, Some (mk_tele [160; 5; 209; 2; 0x54; 0x8B; 252; 0; 0; 0; 0; 0] 7)) /\
  aoosp_des_readcurchn (P := quiet_bus)
    (Some (mk_tele (response_frame 1 0x50 [0x54; 0x8B]) 6))
    (Some 0) (Some 0) (Some 0) (Some 0) =
  (aoresult_ok, (Some 5, Some 4, Some 8, Some 11)).
Proof.
  set (t := mk_tele [160; 5; 209; 2; 0x54; 0x8B; 252; 0; 0; 0; 0; 0] 7).
  set (resp := mk_tele (response_frame 1 0x50 [0x54; 0x8B]) 6).
  assert (Hcon : aoosp_con_setcurchn (P := quiet_bus) (Some uninit_tele) 1 2 5 4 8 11
                 = (aoresult_ok, Some t)) by (vm_compute; reflexivity).
  assert (Hpay : firstn 2 (skipn 3 (data resp)) = firstn 2 (skipn 4 (data t)))
    by (vm_compute; reflexivity).
  assert (Hok : fst (aoosp_des_readcurchn (P := quiet_bus) (Some resp)
                       (Some 0) (Some 0) (Some 0) (Some 0)) = aoresult_ok)
    by (vm_compute; reflexivity).
  split; [ exact Hcon | ].
  pose proof (setcurchn_readcurchn (P := quiet_bus) uninit_tele 1 2 t resp 5 4 8 11 0 0 0 0
                eq_refl Hpay Hcon Hok) as Hval.
  destruct (aoosp_des_readcurchn (P := quiet_bus) (Some resp)
              (Some 0) (Some 0) (Some 0) (Some 0)) as [r o].
  cbn [fst snd] in Hok, Hval. subst r o. reflexivity.
Defined.

(** X11 at a response with the payload 1..8 and a buffer of three cells
    asked to take two bytes. *)
Lemma buffer_decoders_copy_witness :
  tele_wf (mk_tele (response_frame 1 0x1E [1; 2; 3; 4; 5; 6; 7; 8]) 12) /\
  (Z.to_nat 2 <= length [0; 0; 99])%nat /\
  aoosp_des_readlast (P := quiet_bus)
    (Some (mk_tele (response_frame 1 0x1E [1; 2; 3; 4; 5; 6; 7; 8]) 12)) (Some [0; 0; 99]) 2 =
  (aoresult_ok, Some [7; 8; 99]) /\
  aoosp_des_readotp (P := quiet_bus)
    (Some (mk_tele (response_frame 1 0x58 [1; 2; 3; 4; 5; 6; 7; 8]) 12)) (Some [0; 0; 99]) 2 =
  (aoresult_ok, Some [8; 7; 99]).
Proof.
  set (t := mk_tele (response_frame 1 0x1E [1; 2; 3; 4; 5; 6; 7; 8]) 12).
  set (t' := mk_tele (response_frame 1 0x58 [1; 2; 3; 4; 5; 6; 7; 8]) 12).
  assert (Hwf : tele_wf t) by reflexivity.
  assert (Hwf' : tele_wf t') by reflexivity.
  assert (Hlen : (Z.to_nat 2 <= length [0; 0; 99])%nat) by (vm_compute; lia).
  assert (Hok : fst (aoosp_des_readlast (P := quiet_bus) (Some t) (Some [0; 0; 99]) 2)
                = aoresult_ok) by (vm_compute; reflexivity).
  assert (Hok' : fst (aoosp_des_readotp (P := quiet_bus) (Some t') (Some [0; 0; 99]) 2)
                 = aoresult_ok) by (vm_compute; reflexivity).
  pose proof (proj1 (buffer_decoders_copy (P := quiet_bus) t [0; 0; 99] 2 Hwf Hlen) Hok) as V.
  pose proof (proj2 (buffer_decoders_copy (P := quiet_bus) t' [0; 0; 99] 2 Hwf' Hlen) Hok') as V'.
  split; [ exact Hwf | split; [ exact Hlen | split ] ].
  - destruct (aoosp_des_readlast (P := quiet_bus) (Some t) (Some [0; 0; 99]) 2) as [r o].
    cbn [fst snd] in Hok, V. subst r o. reflexivity.
  - destruct (aoosp_des_readotp (P := quiet_bus) (Some t') (Some [0; 0; 99]) 2) as [r o].
    cbn [fst snd] in Hok', V'. subst r o. reflexivity.
Defined.

(** X12 on a chain of five nodes with a terminator, with a stale length
    cached from before. *)
Lemma resetinit_success_witness :
  aoosp_exec_resetinit (P := bidir_bus 5) (Some 0) (Some 0) (mk_host [] 9 0) =
  (aoresult_ok, (Some 5, Some 0),
   snd (aoosp_exec_resetinit (P := bidir_bus 5) (Some 0) (Some 0) (mk_host [] 9 0))) /\
  fst (aoosp_exec_resetinit_last
         (snd (aoosp_exec_resetinit (P := bidir_bus 5) (Some 0) (Some 0) (mk_host [] 9 0)))) = 5.
Proof.
  assert (Hrun :
    aoosp_exec_resetinit (P := bidir_bus 5) (Some 0) (Some 0) (mk_host [] 9 0) =
    (aoresult_ok, (Some 5, Some 0),
     snd (aoosp_exec_resetinit (P := bidir_bus 5) (Some 0) (Some 0) (mk_host [] 9 0))))
    by (vm_compute; reflexivity).
  split; [ exact Hrun | ].
  exact (proj1 (resetinit_success (P := bidir_bus 5) _ _ _ _ _ _ Hrun)).
Defined.

(** X14 at a SAID whose row 0x0D starts with 0x05: bridge and sync pin
    both enabled. *)
Lemma otp_enable_get_witness :
  AOOSP_ADDR_ISOK 1 = true /\
  aospi_txrx_result (Platform := otp_bus always_ok [5; 0; 0; 0; 0; 0; 0; 0])
    [] [160; 4; 216; 13; 226] 12 =
  (aoresult_ok, response_frame 1 0x58 [0; 0; 0; 0; 0; 0; 0; 5]) /\
  fst (aoosp_exec_i2cenable_get (P := otp_bus always_ok [5; 0; 0; 0; 0; 0; 0; 0])
         1 (Some 0) host0) = (aoresult_ok, Some 1) /\
  fst (aoosp_exec_syncpinenable_get (P := otp_bus always_ok [5; 0; 0; 0; 0; 0; 0; 0])
         1 (Some 0) host0) = (aoresult_ok, Some 1).
Proof.
  set (rx := response_frame 1 0x58 [0; 0; 0; 0; 0; 0; 0; 5]).
  assert (Haddr : AOOSP_ADDR_ISOK 1 = true) by reflexivity.
  assert (Hrx :
    aospi_txrx_result (Platform := otp_bus always_ok [5; 0; 0; 0; 0; 0; 0; 0]) (spi_log host0)
      (wire (fst (aoosp_con_readotp (P := otp_bus always_ok [5; 0; 0; 0; 0; 0; 0; 0])
                    (Some uninit_tele) 1 0x0D (Some 0)))) 12 = (aoresult_ok, rx))
    by (vm_compute; reflexivity).
  assert (Hdes :
    fst (aoosp_des_readotp (P := otp_bus always_ok [5; 0; 0; 0; 0; 0; 0; 0])
           (Some (mk_tele rx 12)) (Some (repeat 0 8)) 8) = aoresult_ok)
    by (vm_compute; reflexivity).
  destruct (proj1 (proj2 (otp_enable_get (P := otp_bus always_ok [5; 0; 0; 0; 0; 0; 0; 0])
                            1 0 host0 Haddr)) rx Hrx Hdes) as [G1 G2].
  split; [ exact Haddr | split; [ vm_compute; reflexivity | split ] ].
  - rewrite G1. reflexivity.
  - rewrite G2. reflexivity.
Defined.

(** X15 at a row starting with 0x06, enabling the bridge: 0x07 is written;
    disabling the sync pin would write 0x02. *)
Lemma otp_enable_set_witness :
  aoosp_send_settestpw (P := otp_bus always_ok [6; 2; 3; 4; 5; 6; 7; 8])
    1 (aoosp_said_testpw host0) host0 =
  (aoresult_ok, mk_host [ev_tx [160; 7; 95; 255; 255; 255; 255; 255; 255; 162]]
                        0 AOOSP_SAID_TESTPW_UNKNOWN) /\
  (exists write,
     spi_log (snd (aoosp_exec_i2cenable_set (P := otp_bus always_ok [6; 2; 3; 4; 5; 6; 7; 8])
                     1 1 host0)) =
     [ev_tx [160; 7; 95; 255; 255; 255; 255; 255; 255; 162];
      ev_txrx [160; 4; 216; 13; 226] 12; ev_tx write;
      ev_tx [160; 7; 95; 0; 0; 0; 0; 0; 0; 14]] /\
     Z.testbit (setotp_row write 0) 0 = true /\
     Z.testbit (setotp_row write 0) 1 = true) /\
  nth 9 (match spi_log (snd (aoosp_exec_syncpinenable_set
                               (P := otp_bus always_ok [6; 2; 3; 4; 5; 6; 7; 8]) 1 0 host0))
         with [_; _; ev_tx w; _] => w | _ => [] end) 0 = 2.
Proof.
  set (h1 := mk_host [ev_tx [160; 7; 95; 255; 255; 255; 255; 255; 255; 162]]
                     0 AOOSP_SAID_TESTPW_UNKNOWN).
  set (rx := response_frame 1 0x58 [8; 7; 6; 5; 4; 3; 2; 6]).
  assert (Hacq :
    aoosp_send_settestpw (P := otp_bus always_ok [6; 2; 3; 4; 5; 6; 7; 8])
      1 (aoosp_said_testpw host0) host0 = (aoresult_ok, h1)) by (vm_compute; reflexivity).
  assert (Hrx :
    aospi_txrx_result (Platform := otp_bus always_ok [6; 2; 3; 4; 5; 6; 7; 8]) (spi_log h1)
      (wire (fst (aoosp_con_readotp (P := otp_bus always_ok [6; 2; 3; 4; 5; 6; 7; 8])
                    (Some uninit_tele) 1 0x0D (Some 0)))) 12 = (aoresult_ok, rx))
    by (vm_compute; reflexivity).
  assert (Hdes :
    fst (aoosp_des_readotp (P := otp_bus always_ok [6; 2; 3; 4; 5; 6; 7; 8])
           (Some (mk_tele rx 12)) (Some (repeat 0 8)) 8) = aoresult_ok)
    by (vm_compute; reflexivity).
  assert (Hbytes : Forall (fun b => 0 <= b < 256) rx)
    by (vm_compute; repeat constructor; discriminate).
  destruct (proj1 (otp_enable_set (P := otp_bus always_ok [6; 2; 3; 4; 5; 6; 7; 8])
                     1 1 host0 h1 rx Hacq Hrx Hdes Hbytes))
    as (write & Hlog & Hbit & _).
  split; [ exact Hacq | split ].
  - exists write. split; [ exact Hlog | ].
    split; [ rewrite (Hbit 0) by lia; reflexivity | rewrite (Hbit 1) by lia; reflexivity ].
  - vm_compute. reflexivity.
Defined.

(** X16 on a transport that fails every SETTESTPW telegram: the error comes
    back and the log holds that one transmission only. *)
Lemma setotp_acquire_failure_witness :
  0x0D <= 0x0D <= 0x1F /\
  aoresult_other 3 <> aoresult_ok /\
  aoosp_exec_setotp (P := otp_bus (fail_tid 0x5F (aoresult_other 3)) [1; 2; 3; 4; 5; 6; 7; 8])
    1 0x0D 0x01 0xFF host0 =
  (aoresult_other 3,
   mk_host [ev_tx [160; 7; 95; 255; 255; 255; 255; 255; 255; 162]] 0 AOOSP_SAID_TESTPW_UNKNOWN).
Proof.
  assert (Hrow : 0x0D <= 0x0D <= 0x1F) by lia.
  assert (He : aoresult_other 3 <> aoresult_ok) by discriminate.
  assert (Hacq :
    aoosp_send_settestpw (P := otp_bus (fail_tid 0x5F (aoresult_other 3)) [1; 2; 3; 4; 5; 6; 7; 8])
      1 (aoosp_said_testpw host0) host0 =
    (aoresult_other 3,
     mk_host [ev_tx [160; 7; 95; 255; 255; 255; 255; 255; 255; 162]]
             0 AOOSP_SAID_TESTPW_UNKNOWN)) by (vm_compute; reflexivity).
  split; [ exact Hrow | split; [ exact He | ] ].
  exact (proj1 (setotp_acquire_failure
                  (P := otp_bus (fail_tid 0x5F (aoresult_other 3)) [1; 2; 3; 4; 5; 6; 7; 8])
                  1 0x0D 0x01 0xFF host0 _ _ Hrow Hacq He)).
Defined.

(** X17 with the password 0x123456789ABC stored, and with one of 49 bits. *)
Lemma setotp_uses_stored_password_witness :
  0x0D <= 0x0D <= 0x1F /\ AOOSP_ADDR_ISOK 1 = true /\
  (exists rest,
     spi_log (snd (aoosp_exec_setotp (P := quiet_bus) 1 0x0D 0x01 0xFF
                     (snd (aoosp_said_testpw_set 0x123456789ABC host0)))) =
     ev_tx [0xA0; 0x07; 0x5F; 0xBC; 0x9A; 0x78; 0x56; 0x34; 0x12; 0xFB] :: rest) /\
  aoosp_exec_setotp (P := quiet_bus) 1 0x0D 0x01 0xFF
    (snd (aoosp_said_testpw_set (2 ^ 48) host0)) =
  (aoresult_osp_arg, snd (aoosp_said_testpw_set (2 ^ 48) host0)).
Proof.
  assert (Hrow : 0x0D <= 0x0D <= 0x1F) by lia.
  assert (Haddr : AOOSP_ADDR_ISOK 1 = true) by reflexivity.
  split; [ exact Hrow | split; [ exact Haddr | split ] ].
  - destruct (proj1 (proj1 (proj2 (setotp_uses_stored_password (P := quiet_bus)
                                     0x123456789ABC 1 0x0D 0x01 0xFF host0 Hrow Haddr
                                     ltac:(lia))) ltac:(lia)))
      as (rest & Hlog).
    exists rest. exact Hlog.
  - apply (proj2 (proj2 (setotp_uses_stored_password (P := quiet_bus) (2 ^ 48)
                           1 0x0D 0x01 0xFF host0 Hrow Haddr ltac:(lia)))).
    lia.
Defined.

(** X18 at a SAID (id 0x40) with I2C_BRIDGE_EN set: three exchanges, the
    last one SETCURCHN. *)
Lemma i2cpower_cascade_witness :
  AOOSP_ADDR_ISOK 1 = true /\
  fst (aoosp_send_identify (P := node_bus always_ok 0x40 [1; 0; 0; 0; 0; 0; 0; 0])
         1 (Some 0) host0) = (aoresult_ok, Some 0x40) /\
  (0x40 / 2 ^ 6) mod 2 ^ 22 = 1 /\
  aoosp_exec_i2cpower (P := node_bus always_ok 0x40 [1; 0; 0; 0; 0; 0; 0; 0]) 1 host0 =
  (aoresult_ok,
   mk_host [ev_txrx [160; 4; 7; 58] 8; ev_txrx [160; 4; 216; 13; 226] 12;
            ev_tx [0xA0; 0x05; 0xD1; 2; 4; 68; 0xD2]] 0 AOOSP_SAID_TESTPW_UNKNOWN).
Proof.
  set (h1 := mk_host [ev_txrx [160; 4; 7; 58] 8] 0 AOOSP_SAID_TESTPW_UNKNOWN).
  set (h2 := mk_host [ev_txrx [160; 4; 7; 58] 8; ev_txrx [160; 4; 216; 13; 226] 12]
                     0 AOOSP_SAID_TESTPW_UNKNOWN).
  assert (Haddr : AOOSP_ADDR_ISOK 1 = true) by reflexivity.
  assert (Hid :
    aoosp_send_identify (P := node_bus always_ok 0x40 [1; 0; 0; 0; 0; 0; 0; 0]) 1 (Some 0) host0
    = (aoresult_ok, Some 0x40, h1)) by (vm_compute; reflexivity).
  assert (Hs : (0x40 / 2 ^ 6) mod 2 ^ 22 = 1) by reflexivity.
  assert (Hget :
    aoosp_exec_i2cenable_get (P := node_bus always_ok 0x40 [1; 0; 0; 0; 0; 0; 0; 0])
      1 (Some 0) h1 = (aoresult_ok, Some 1, h2)) by (vm_compute; reflexivity).
  split; [ exact Haddr | split; [ rewrite Hid; reflexivity | split; [ exact Hs | ] ] ].
  rewrite (proj1 (proj2 (proj2 (proj2 (i2cpower_cascade
                                   (P := node_bus always_ok 0x40 [1; 0; 0; 0; 0; 0; 0; 0])
                                   1 host0 0x40 h1 Haddr Hid) Hs aoresult_ok 1 h2 Hget))
              eq_refl ltac:(lia))).
  reflexivity.
Defined.

(** The same procedure at an RGBi (id 0): one exchange, then
    [aoresult_sys_id]. *)
Example i2cpower_not_a_said :
  aoosp_exec_i2cpower (P := node_bus always_ok 0x00 [1; 0; 0; 0; 0; 0; 0; 0]) 1 host0 =
  (aoresult_sys_id, mk_host [ev_txrx [160; 4; 7; 58] 8] 0 AOOSP_SAID_TESTPW_UNKNOWN).
Proof. vm_compute. reflexivity. Qed.

(** X19 on a transport that fails the fourth status read. *)
Lemma i2c_failure_aborts_witness :
  (3 < 10)%nat /\
  aoresult_other 7 <> aoresult_ok /\
  polls_all_busy (P := fail_status_read 3 (aoresult_other 7)) 1 3 AOOSP_I2CCFG_FLAGS_BUSY
    (snd (aoosp_send_i2cwrite8 (P := fail_status_read 3 (aoresult_other 7))
            1 0x50 0x10 (Some [0xAB]) 1 host0)) = true /\
  fst (aoosp_exec_i2cwrite8 (P := fail_status_read 3 (aoresult_other 7))
         1 0x50 0x10 (Some [0xAB]) 1 host0) = aoresult_other 7 /\
  count_txrx (spi_log (snd (aoosp_exec_i2cwrite8 (P := fail_status_read 3 (aoresult_other 7))
                              1 0x50 0x10 (Some [0xAB]) 1 host0))) = 4%nat.
Proof.
  set (Q := fail_status_read 3 (aoresult_other 7)).
  set (h0 := snd (aoosp_send_i2cwrite8 (P := Q) 1 0x50 0x10 (Some [0xAB]) 1 host0)).
  assert (Hn : (3 < 10)%nat) by lia.
  assert (He : aoresult_other 7 <> aoresult_ok) by discriminate.
  assert (Hall : polls_all_busy (P := Q) 1 3 AOOSP_I2CCFG_FLAGS_BUSY h0 = true)
    by (vm_compute; reflexivity).
  assert (Hsend : aoosp_send_i2cwrite8 (P := Q) 1 0x50 0x10 (Some [0xAB]) 1 host0
                  = (aoresult_ok, h0)) by (vm_compute; reflexivity).
  pose proof (run_polls_busy (P := Q) 1 3 AOOSP_I2CCFG_FLAGS_BUSY h0 Hall) as Hp.
  assert (Hpoll :
    aoosp_send_readi2ccfg (P := Q) 1
      (Some (fst (run_polls (P := Q) 1 3 AOOSP_I2CCFG_FLAGS_BUSY h0))) (Some 0)
      (snd (run_polls (P := Q) 1 3 AOOSP_I2CCFG_FLAGS_BUSY h0)) =
    (aoresult_other 7, (Some 1, Some 0),
     snd (aoosp_send_readi2ccfg (P := Q) 1
            (Some (fst (run_polls (P := Q) 1 3 AOOSP_I2CCFG_FLAGS_BUSY h0))) (Some 0)
            (snd (run_polls (P := Q) 1 3 AOOSP_I2CCFG_FLAGS_BUSY h0)))))
    by (vm_compute; reflexivity).
  pose proof (proj1 (proj2 (i2c_failure_aborts (P := Q) 1 0x50 0x10 (Some [0xAB]) 1 host0)
                       h0 3%nat _ _ _ _ _ Hn Hp Hpoll He) Hsend) as Hrun.
  split; [ exact Hn | split; [ exact He | split; [ exact Hall | ] ] ].
  rewrite Hrun. split; [ reflexivity | vm_compute; reflexivity ].
Defined.

(** X20 at the byte 0x5A. *)
Lemma temp_rgbi_rounds_witness :
  0 <= 0x5A < 256 /\ aoosp_prt_temp_rgbi 0x5A = -29 /\
  -126 <= aoosp_prt_temp_rgbi 0x5A <= 149.
Proof.
  assert (H : 0 <= 0x5A < 256) by lia.
  split; [ exact H | split; [ reflexivity | ] ].
  exact (proj1 (proj2 (temp_rgbi_rounds 0x5A H))).
Defined.

(** X21 at the byte 0x5A. *)
Lemma temp_said_rounds_witness :
  0 <= 0x5A < 256 /\ aoosp_prt_temp_said 0x5A = -6 /\
  -111 <= aoosp_prt_temp_said 0x5A <= 189.
Proof.
  assert (H : 0 <= 0x5A < 256) by lia.
  split; [ exact H | split; [ reflexivity | ] ].
  exact (proj1 (proj2 (temp_said_rounds 0x5A H))).
Defined.

(** X22 at the default speed setting 0x0C and the fastest, 0x01. *)
Lemma i2ccfg_speed_table_witness :
  0 <= 0x01 < 256 /\ 0x01 < 0x0C < 256 /\
  aoosp_prt_i2ccfg_speed 0x0C < aoosp_prt_i2ccfg_speed 0x01.
Proof.
  assert (H : 0 <= 0x01 < 256) by lia.
  assert (H' : 0x01 < 0x0C < 256) by lia.
  split; [ exact H | split; [ exact H' | ] ].
  exact (proj1 (proj2 (i2ccfg_speed_table 0x01 H)) 0x0C H').
Defined.

(** ** The arguments the constructors accept *)

Lemma mask_check_iff : forall x k,
  0 <= k -> 0 <= x ->
  (nonzero (Z.land x (Z.lnot (Z.ones k))) = false <-> x < 2 ^ k).
Proof.
  intros x k Hk Hx. split.
  - intros H. apply (mask_check x k Hk H).
  - intros H. unfold nonzero. apply negb_false_iff, Z.eqb_eq.
    rewrite <- Z.ldiff_land.
    destruct (Z.eq_dec x 0) as [-> | Hnz]; [ apply Z.ldiff_0_l | ].
    apply Z.ldiff_ones_r_low; [ exact Hx | ].
    apply Z.log2_lt_pow2; lia.
Qed.

Lemma channel_check : forall chn,
  0 <= chn -> (negb (chn =? 0) && negb (chn =? 1) && negb (chn =? 2) = false <-> chn <= 2).
Proof.
  intros chn H.
  destruct (Z.eqb_spec chn 0), (Z.eqb_spec chn 1), (Z.eqb_spec chn 2); cbn; split;
    intros; try lia; try reflexivity; try discriminate.
Qed.

Lemma current_check : forall cur,
  0 <= cur -> (negb (AOOSP_CUR_OK cur) = false <-> current_legal cur).
Proof.
  intros cur H. unfold AOOSP_CUR_OK, AOOSP_CUR_NORM_OK, AOOSP_CUR_AGE_OK, current_legal.
  rewrite negb_false_iff, orb_true_iff, !andb_true_iff, !Z.leb_le. lia.
Qed.

Section LegalArguments.
Context {P : Platform}.

(** X23.  Which arguments the constructors accept.  With a telegram to
    fill in, a valid address and arguments of their unsigned types, a
    constructor succeeds exactly on these: SETMULT takes 15 bits of groups;
    the I2C telegrams a 7-bit device address, and 1 to 8 bytes to read or
    1, 2, 4 or 6 bytes (from a non-null buffer) to write; the channel of the
    channel telegrams is 0, 1 or 2; SETPWM takes 15-bit colours and 3
    daytime bits; SETCURCHN 3 flag bits and currents 0..4 or 8..11;
    SETI2CCFG 4 flag bits and a speed of 1..15; the OTP telegrams a row
    address up to 0x1F, and SETOTP exactly 7 bytes; SETTESTPW 48 bits.
    Every other constructor accepts all its arguments. *)
Theorem construct_accepts_iff : forall (r : request) t0 respsize,
  0 <= request_addr r <= 0x3FE ->
  Forall (fun a => 0 <= a) (request_args r) ->
  (fst (construct r (Some t0) respsize) = aoresult_ok <-> request_legal r).
Proof.
  intros r t0 respsize Haddr Hargs.
  apply addr_isok_range in Haddr.
  destruct r; cbn [construct request_addr request_args request_legal] in *; unfold_con;
    rewrite Haddr; cbn [negb].
  all: repeat match goal with
       | H : Forall _ (_ :: _) |- _ => inversion H as [| ? ? ? ?]; subst; clear H
       | H : Forall _ [] |- _ => clear H
       end.
  all: try solve [ split; [ intros _; exact I | intros _; reflexivity ] ].
  all: try (destruct buf).
  all: change (Z.lnot 0x7FFF) with (Z.lnot (Z.ones 15));
       change (BITS_MASK 15) with (Z.ones 15); change (BITS_MASK 3) with (Z.ones 3);
       change (Z.lnot 0x07) with (Z.lnot (Z.ones 3));
       change (Z.lnot 0x0F) with (Z.lnot (Z.ones 4));
       change (Z.lnot 0x0000FFFFFFFFFFFF) with (Z.lnot (Z.ones 48)).
  all: repeat match goal with
       | |- context [nonzero (Z.land ?x (Z.lnot (Z.ones ?k)))] =>
           let E := fresh "E" in
           pose proof (mask_check_iff x k ltac:(lia) ltac:(assumption)) as E;
           destruct (nonzero (Z.land x (Z.lnot (Z.ones k))))
       | |- context [negb (?c =? 0) && negb (?c =? 1) && negb (?c =? 2)] =>
           let E := fresh "E" in
           pose proof (channel_check c ltac:(assumption)) as E;
           destruct (negb (c =? 0) && negb (c =? 1) && negb (c =? 2))
       | |- context [negb (AOOSP_CUR_OK ?c)] =>
           let E := fresh "E" in
           pose proof (current_check c ltac:(assumption)) as E;
           destruct (negb (AOOSP_CUR_OK c))
       | |- context [?a <? ?b] => destruct (Z.ltb_spec a b)
       | |- context [?a =? ?b] => destruct (Z.eqb_spec a b)
       end; cbn [orb negb fst].
  all: split; [ intros Hok; try discriminate Hok | intros Hl ].
  all: try reflexivity.
  all: repeat match goal with
       | E : false = false <-> _ |- _ => pose proof (proj1 E eq_refl); clear E
       | E : true = false <-> _ |- _ =>
           assert (~ _) by (let K := fresh in intros K; apply E in K; discriminate K); clear E
       end.
  all: try solve [ repeat split; first [ assumption | lia | discriminate ] ].
  all: try solve [ exfalso; intuition (try lia; try congruence) ].
Qed.

End LegalArguments.

(** ** The byte dump *)

Lemma prt_bytes_loop_cap : forall rounds bytes size i st,
  16 <= size ->
  prt_bytes_loop rounds bytes size i st = prt_bytes_loop rounds bytes 16 i st.
Proof.
  induction rounds as [|rounds IH]; intros bytes size i st Hs; [ reflexivity | ].
  cbn [prt_bytes_loop]. unfold AOOSP_PRT_BUF_SIZE.
  destruct (Z.ltb_spec (3 * i) (48 - 1)) as [H3 | H3].
  - replace (i <? size) with true by (symmetry; apply Z.ltb_lt; lia).
    replace (i <? 16) with true by (symmetry; apply Z.ltb_lt; lia).
    cbn [andb]. destruct st as [[buf p] remain].
    destruct (snprintf buf p remain _) as [buf' num]. apply IH. exact Hs.
  - rewrite !andb_false_r. reflexivity.
Qed.

Lemma hex_upper_not_nul : forall d, hex_upper d <> NUL.
Proof.
  intros d. unfold hex_upper.
  destruct (Z.to_nat d) as [|n]; [ discriminate | ].
  do 15 (destruct n as [|n]; [ discriminate | ]).
  destruct n; discriminate.
Qed.

(** X24.  [aoosp_prt_bytes], on bytes (values of [uint8_t]) of which the
    first [min(size, 16)] exist, never stores outside its 48-character
    buffer, whatever [size] is.  For a positive [size] the buffer then starts with
    the hex text of the first [min(size, 16)] bytes (two upper-case digits
    per byte, single spaces between) followed by NUL, so at most 16 bytes
    are shown; the text itself holds no NUL.  For a [size] of zero or less
    no character is stored: the buffer keeps the text of an earlier call. *)
Theorem prt_bytes_text : forall buf bytes size,
  length buf = 48%nat ->
  Forall (fun b => 0 <= b < 256) bytes ->
  (Z.to_nat (Z.min size 16) <= length bytes)%nat ->
  (size <= 0 -> aoosp_prt_bytes buf bytes size = Some buf) /\
  (0 < size ->
   let text := hex_text (firstn (Z.to_nat (Z.min size 16)) bytes) in
   exists rest,
     aoosp_prt_bytes buf bytes size = Some (text ++ NUL :: rest) /\
     length (text ++ NUL :: rest) = 48%nat /\
     Z.of_nat (length text) = 3 * Z.min size 16 - 1 /\
     ~ In NUL text).
Proof.
  intros buf bytes size Hbuf _ Hbytes. split.
  - intros Hs. unfold aoosp_prt_bytes. cbv zeta.
    change (Z.to_nat AOOSP_PRT_BUF_SIZE) with (S 47). cbn [prt_bytes_loop].
    replace (0 <? size) with false by (symmetry; apply Z.ltb_ge; lia).
    cbn [andb]. reflexivity.
  - intros Hs.
    assert (Hnn : forall l, ~ In NUL (hex_text l)).
    { intros l Hin. unfold hex_text in Hin.
      assert (Hall : forall c, In c (flat_map format_02X_space l) -> c <> NUL).
      { intros c Hc. apply in_flat_map in Hc as (b & _ & Hc).
        unfold format_02X_space in Hc. cbn [In] in Hc.
        destruct Hc as [<- | [<- | [<- | []]]];
          [ apply hex_upper_not_nul | apply hex_upper_not_nul | discriminate ]. }
      revert Hin Hall. generalize (flat_map format_02X_space l). intros t Hin Hall.
      apply (Hall NUL); [ | reflexivity ].
      destruct t as [|c t]; [ destruct Hin | ].
      rewrite (app_removelast_last NUL (l := c :: t)) by discriminate.
      apply in_or_app. left. exact Hin. }
    assert (Hcap : aoosp_prt_bytes buf bytes size = aoosp_prt_bytes buf bytes (Z.min size 16)).
    { destruct (Z.le_gt_cases 16 size) as [Hge | Hlt].
      - rewrite Z.min_r by lia. unfold aoosp_prt_bytes. cbv zeta.
        rewrite prt_bytes_loop_cap by exact Hge.
        replace (0 <? size) with true by (symmetry; apply Z.ltb_lt; lia). reflexivity.
      - rewrite Z.min_l by lia. reflexivity. }
    cbv zeta. rewrite Hcap.
    assert (Hn : 1 <= Z.min size 16 <= 16) by lia.
    revert Hbytes Hn. generalize (Z.min size 16). clear Hcap Hs size.
    intros n Hbytes Hn.
    do 48 (destruct buf as [|? buf]; [ discriminate Hbuf | ]).
    destruct buf as [|? buf]; [ | discriminate Hbuf ].
    clear Hbuf.
    assert (Hc : n = 1 \/ n = 2 \/ n = 3 \/ n = 4 \/ n = 5 \/ n = 6 \/ n = 7 \/ n = 8 \/
                 n = 9 \/ n = 10 \/ n = 11 \/ n = 12 \/ n = 13 \/ n = 14 \/ n = 15 \/ n = 16)
      by lia.
    destruct Hc as
      [-> | [-> | [-> | [-> | [-> | [-> | [-> | [-> | [-> | [-> | [-> | [-> | [-> | [-> | [-> | ->]]]]]]]]]]]]]]].
    all: match type of Hbytes with
         | (Z.to_nat ?k <= _)%nat =>
             let v := eval vm_compute in (Z.to_nat k) in change (Z.to_nat k) with v in *
         end.
    all: do 16 (try (destruct bytes as [|? bytes]; [ cbn [length] in Hbytes; lia | ])).
    all: clear Hbytes.
    all: eexists; split; [ cbv -[hex_upper Z.div Z.modulo]; reflexivity | ].
    all: split; [ reflexivity | split; [ reflexivity | apply Hnn ] ].
Qed.

(** ** The status and flag texts *)

Lemma store_at : forall pre x b c,
  store (pre ++ x :: b) (length pre) c = Some (pre ++ c :: b).
Proof.
  induction pre as [|y pre IH]; intros x b c; cbn [app length store].
  - reflexivity.
  - rewrite IH. reflexivity.
Qed.

Lemma store_all_at : forall s pre b,
  (length s <= length b)%nat ->
  store_all (Some (pre ++ b)) (length pre) s = Some (pre ++ s ++ skipn (length s) b).
Proof.
  induction s as [|c s IH]; intros pre b Hlen; cbn [store_all length skipn app].
  - reflexivity.
  - destruct b as [|x b]; [ cbn [length] in Hlen; lia | ].
    rewrite store_at.
    change (pre ++ c :: b) with (pre ++ [c] ++ b). rewrite app_assoc.
    replace (S (length pre)) with (length (pre ++ [c]))
      by (rewrite length_app; cbn [length]; lia).
    rewrite IH by (cbn [length] in Hlen; lia).
    rewrite <- app_assoc. reflexivity.
Qed.

(** A text of at most 47 characters is stored whole, with its NUL. *)
Lemma prt_text : forall buf s,
  length buf = 48%nat ->
  (String.length s <= 47)%nat ->
  prt buf (Some s) =
  Some (String.list_ascii_of_string s ++
        NUL :: skipn (S (String.length s)) buf).
Proof.
  intros buf s Hbuf Hs. unfold prt, snprintf. cbn [fst].
  change (0 <? AOOSP_PRT_BUF_SIZE) with true. cbv iota.
  change (Z.to_nat 0) with (length (@nil ascii)).
  change (Z.to_nat (AOOSP_PRT_BUF_SIZE - 1)) with 47%nat.
  assert (Hl : length (String.list_ascii_of_string s) = String.length s).
  { clear. induction s as [|c s IH]; cbn; [ reflexivity | rewrite IH; reflexivity ]. }
  rewrite firstn_all2 by (rewrite Hl; exact Hs).
  change (Some buf) with (Some ([] ++ buf)).
  rewrite store_all_at by (rewrite length_app, Hl, Hbuf; cbn [length]; lia).
  cbn [app]. rewrite <- app_assoc. cbn [app].
  rewrite length_app, Hl. cbn [length].
  replace (String.length s + 1)%nat with (S (String.length s)) by lia.
  reflexivity.
Qed.

(** X25.  The status texts.  [aoosp_prt_stat_rgbi] and [aoosp_prt_stat_said]
    store, for every status byte, the name of the state in bits 7:6, a dash,
    two letters for bits 5 and 4, a dash, and the letters c, l, o, u for
    bits 3 to 0, then NUL; a letter is upper case exactly when its bit is
    set.  The text always fits the buffer. *)
Theorem stat_flag_letters : forall buf stat,
  length buf = 48%nat ->
  0 <= stat < 256 ->
  let name :=
    String.list_ascii_of_string
      (nth (Z.to_nat (stat / 64)) aoosp_prt_stat_names String.EmptyString) in
  let low := [flag_letter stat 3 "c" "C"; flag_letter stat 2 "l" "L";
              flag_letter stat 1 "o" "O"; flag_letter stat 0 "u" "U"]%char in
  (exists rest,
     aoosp_prt_stat_rgbi buf stat =
     Some (name ++ ["-"; flag_letter stat 5 "o" "O"; flag_letter stat 4 "l" "L"; "-"]%char
                ++ low ++ NUL :: rest)) /\
  (exists rest,
     aoosp_prt_stat_said buf stat =
     Some (name ++ ["-"; flag_letter stat 5 "t" "T"; flag_letter stat 4 "v" "V"; "-"]%char
                ++ low ++ NUL :: rest)).
Proof.
  intros buf stat Hbuf Hstat name low. subst name low.
  pose (text := fun (t46 : list String.string) s =>
          format_s_s_s (table_at aoosp_prt_stat_names (BITS_SLICE s 6 8))
                       (table_at t46 (BITS_SLICE s 4 6))
                       (table_at aoosp_prt_stat_flags04 (BITS_SLICE s 0 4))).
  pose (expect := fun (l5 u5 l4 u4 : ascii) s =>
          String.list_ascii_of_string
            (nth (Z.to_nat (s / 64)) aoosp_prt_stat_names String.EmptyString) ++
          ["-"; flag_letter s 5 l5 u5; flag_letter s 4 l4 u4; "-"]%char ++
          [flag_letter s 3 "c" "C"; flag_letter s 2 "l" "L";
           flag_letter s 1 "o" "O"; flag_letter s 0 "u" "U"]%char).
  assert (Hall : forall t46 l5 u5 l4 u4,
            forallb (fun s =>
              match text t46 s with
              | Some t =>
                  (String.length t <=? 47)%nat &&
                  (if list_eq_dec ascii_dec (String.list_ascii_of_string t)
                                  (expect l5 u5 l4 u4 s) then true else false)
              | None => false
              end) all_bytes = true ->
            exists rest,
              prt buf (text t46 stat) = Some (expect l5 u5 l4 u4 stat ++ NUL :: rest)).
  { intros t46 l5 u5 l4 u4 Hc.
    pose proof (forall_bytes _ Hc stat Hstat) as H. cbv beta in H.
    destruct (text t46 stat) as [t|]; [ | discriminate H ].
    apply andb_true_iff in H as [Hlen Heq]. apply Nat.leb_le in Hlen.
    destruct (list_eq_dec ascii_dec _ _) as [E|]; [ | discriminate Heq ].
    rewrite prt_text by assumption. rewrite E. eexists. reflexivity. }
  split.
  - destruct (Hall aoosp_prt_stat_flags46_rgbi "o" "O" "l" "L"
                ltac:(vm_compute; reflexivity))%char as [rest Hr].
    exists rest. unfold aoosp_prt_stat_rgbi. fold (text aoosp_prt_stat_flags46_rgbi stat).
    rewrite Hr. unfold expect. rewrite <- !app_assoc. reflexivity.
  - destruct (Hall aoosp_prt_stat_flags46_said "t" "T" "v" "V"
                ltac:(vm_compute; reflexivity))%char as [rest Hr].
    exists rest. unfold aoosp_prt_stat_said. fold (text aoosp_prt_stat_flags46_said stat).
    rewrite Hr. unfold expect. rewrite <- !app_assoc. reflexivity.
Qed.

(** X26.  The channel flags text.  For the sixteen values of the 4-bit
    flags [aoosp_prt_curchn] stores the letters r, s, h, d for bits 3 to 0,
    a letter upper case exactly when its bit is set, then NUL.  The table
    has sixteen entries: a larger [flags] indexes outside it. *)
Theorem curchn_flag_letters : forall buf flags,
  length buf = 48%nat ->
  0 <= flags < 256 ->
  (flags < 16 ->
   exists rest,
     aoosp_prt_curchn buf flags =
     Some ([flag_letter flags 3 "r" "R"; flag_letter flags 2 "s" "S";
            flag_letter flags 1 "h" "H"; flag_letter flags 0 "d" "D"]%char
           ++ NUL :: rest)) /\
  (16 <= flags -> aoosp_prt_curchn buf flags = None).
Proof.
  intros buf flags Hbuf Hflags. split.
  - intros Hlt.
    pose proof (forall_bytes
      (fun f => (16 <=? f) ||
         match table_at aoosp_prt_curchn_flags f with
         | Some t =>
             (String.length t <=? 47)%nat &&
             (if list_eq_dec ascii_dec (String.list_ascii_of_string t)
                   [flag_letter f 3 "r" "R"; flag_letter f 2 "s" "S";
                    flag_letter f 1 "h" "H"; flag_letter f 0 "d" "D"]%char
              then true else false)
         | None => false
         end)
      ltac:(vm_compute; reflexivity) flags Hflags) as H.
    cbv beta in H. apply orb_true_iff in H as [H | H];
      [ apply Z.leb_le in H; lia | ].
    unfold aoosp_prt_curchn.
    destruct (table_at aoosp_prt_curchn_flags flags) as [t|]; [ | discriminate H ].
    apply andb_true_iff in H as [Hlen Heq]. apply Nat.leb_le in Hlen.
    destruct (list_eq_dec ascii_dec _ _) as [E|]; [ | discriminate Heq ].
    rewrite prt_text by assumption. rewrite E. eexists. reflexivity.
  - intros Hge. unfold aoosp_prt_curchn, table_at.
    replace (nth_error aoosp_prt_curchn_flags (Z.to_nat flags)) with (@None String.string);
      [ reflexivity | ].
    symmetry. apply nth_error_None. cbn [length aoosp_prt_curchn_flags]. lia.
Qed.

(** ** The OTP dump *)

Lemma des_readotp_response : forall mem r0 r1 r2 r3 r4 r5 r6 r7 buf,
  (8 <= length buf)%nat ->
  aoosp_des_readotp (P := said_otp_bus mem)
    (Some (mk_tele (response_frame 0x001 0x58 [r7; r6; r5; r4; r3; r2; r1; r0]) 12))
    (Some buf) 8 =
  (aoresult_ok, Some ([r0; r1; r2; r3; r4; r5; r6; r7] ++ skipn 8 buf)).
Proof.
  intros mem r0 r1 r2 r3 r4 r5 r6 r7 buf Hbuf.
  do 8 (destruct buf as [|? buf]; [ cbn [length] in Hbuf; lia | ]). clear Hbuf.
  unfold aoosp_des_readotp. cbv zeta.
  assert (Hcrc : @aoosp_crc (said_otp_bus mem)
                   (tele_bytes (mk_tele (response_frame 0x001 0x58
                                  [r7; r6; r5; r4; r3; r2; r1; r0]) 12) 12) = 0).
  { unfold response_frame. cbv zeta. cbn [length app].
    unfold tele_bytes. cbn [data].
    change (Z.to_nat 12) with 12%nat. cbn [firstn].
    change (@aoosp_crc (said_otp_bus mem)) with crc8.
    match goal with
    | |- crc8 [?a; ?b; ?c; _; _; _; _; _; _; _; _; crc8 ?body] =
         _ => change (crc8 (body ++ [crc8 body]) = 0)
    end.
    apply crc8_appended. }
  cbn [size]. rewrite Hcrc. clear Hcrc.
  unfold response_frame. cbv zeta. cbn [length app].
  unfold TELEPSI, data_at. cbn [data size nth].
  eval_closed.
  cbv -[crc8]. reflexivity.
Qed.

(** One row read from the simulated SAID. *)
Lemma said_otp_read : forall mem otpaddr buf h,
  length mem = 32%nat ->
  In otpaddr [0x00; 0x08; 0x10; 0x18] ->
  (8 <= length buf)%nat ->
  aoosp_send_readotp (P := said_otp_bus mem) 0x001 otpaddr (Some buf) 8 h =
  (aoresult_ok,
   Some (firstn 8 (skipn (Z.to_nat otpaddr) mem) ++ skipn 8 buf),
   snd (log_event (otpdump_request (P := said_otp_bus mem) 0x001 otpaddr) h)).
Proof.
  intros mem otpaddr buf h Hmem Hrow Hbuf.
  rewrite send_readotp_eq by
    (try reflexivity; cbn [In] in Hrow; lia).
  unfold aospi_txrx, otpdump_request.
  set (tx := wire (fst (aoosp_con_readotp (Some uninit_tele) 1 otpaddr (Some 0)))).
  assert (Htid : frame_tid tx = 0x58 /\ nth 3 tx 0 = otpaddr).
  { subst tx. cbn [In] in Hrow.
    destruct Hrow as [<- | [<- | [<- | [<- | []]]]]; vm_compute; split; reflexivity. }
  destruct Htid as [Htid Hat].
  cbn [aospi_txrx_result said_otp_bus]. rewrite Htid, Hat.
  change (0x58 =? 0x58) with true. cbv iota. cbv zeta.
  do 33 (destruct mem as [|? mem]; try discriminate Hmem). clear Hmem.
  cbn [In] in Hrow.
  destruct Hrow as [<- | [<- | [<- | [<- | []]]]];
    match goal with
    | |- context [Z.to_nat ?k] => let v := eval vm_compute in (Z.to_nat k) in
                                  change (Z.to_nat k) with v
    end;
    cbn [skipn firstn rev app];
    rewrite des_readotp_response by exact Hbuf; reflexivity.
Qed.

Lemma send_readotp_log : forall {P : Platform} addr otpaddr buf h,
  AOOSP_ADDR_ISOK addr = true -> otpaddr <= 0x1F ->
  snd (aoosp_send_readotp addr otpaddr buf 8 h) =
  snd (log_event (otpdump_request addr otpaddr) h).
Proof.
  intros P addr otpaddr buf h Haddr Hrow.
  rewrite send_readotp_eq by assumption.
  unfold aospi_txrx, otpdump_request.
  destruct (aospi_txrx_result _ _ _) as [r rx].
  destruct r; try reflexivity.
  destruct (aoosp_des_readotp _ buf 8) as [d b]. reflexivity.
Qed.

Lemma otpdump_hex_loglevel : forall otp c,
  aoosp_loglevel (otpdump_customer_hex otp c) = aoosp_loglevel c.
Proof. intros otp c. reflexivity. Qed.

Lemma otpdump_fields_loglevel : forall otp c,
  aoosp_loglevel (otpdump_customer_fields otp c) = aoosp_loglevel c.
Proof. intros otp c. reflexivity. Qed.

Lemma des_readotp_any_buffer : forall {P : Platform} tele b b',
  fst (aoosp_des_readotp tele (Some b) 8) = fst (aoosp_des_readotp tele (Some b') 8).
Proof.
  intros P tele b b'. unfold aoosp_des_readotp. cbv zeta.
  destruct tele as [t|]; [ | reflexivity ].
  repeat match goal with
  | |- context [if ?c then _ else _] => destruct c; [ reflexivity | ]
  end.
  reflexivity.
Qed.

Lemma send_readotp_result : forall {P : Platform} addr otpaddr buf h,
  AOOSP_ADDR_ISOK addr = true -> otpaddr <= 0x1F ->
  fst (fst (aoosp_send_readotp addr otpaddr (Some buf) 8 h)) =
  otpdump_read_result addr otpaddr (spi_log h).
Proof.
  intros P addr otpaddr buf h Haddr Hrow.
  rewrite send_readotp_eq by assumption.
  unfold aospi_txrx, otpdump_read_result. cbv zeta.
  destruct (aospi_txrx_result _ _ _) as [r rx].
  destruct r; try reflexivity.
  rewrite (des_readotp_any_buffer (Some (mk_tele rx 12)) (repeat 0 8) buf).
  destruct (aoosp_des_readotp _ (Some buf) 8) as [d b]. reflexivity.
Qed.

Lemma otpdump_read_log : forall {P : Platform} n addr otp0 h,
  AOOSP_ADDR_ISOK addr = true ->
  let run := otpdump_read (5 + n) addr 0x00 aoresult_ok otp0 h in
  let rows := [0x00; 0x08; 0x10; 0x18] in
  let log_before := fun j => spi_log h ++ map (otpdump_request addr) (firstn j rows) in
  exists k,
    (1 <= k <= 4)%nat /\
    spi_log (snd run) = log_before k /\
    (forall j, (j < k - 1)%nat ->
       otpdump_read_result addr (nth j rows 0) (log_before j) = aoresult_ok) /\
    otpdump_read_result addr (nth (k - 1) rows 0) (log_before (k - 1)%nat) = fst (fst run) /\
    (fst (fst run) = aoresult_ok -> k = 4%nat).
Proof.
  intros P n addr otp0 h Haddr run rows log_before. subst run rows log_before.
  cbn [Nat.add].
  assert (Hstep : forall otpaddr buf h0 r b h1,
            otpaddr <= 0x1F ->
            aoosp_send_readotp addr otpaddr (Some buf) 8 h0 = (r, b, h1) ->
            spi_log h1 = spi_log h0 ++ [otpdump_request addr otpaddr] /\
            otpdump_read_result addr otpaddr (spi_log h0) = r).
  { intros otpaddr buf h0 r b h1 Hrow Hrun.
    pose proof (send_readotp_log addr otpaddr (Some buf) h0 Haddr Hrow) as Hl.
    pose proof (send_readotp_result addr otpaddr buf h0 Haddr Hrow) as Hr.
    rewrite Hrun in Hl, Hr. cbn [fst snd] in Hl, Hr. subst h1.
    split; [ reflexivity | symmetry; exact Hr ]. }
  cbn [otpdump_read]. unfold bind, ret. change OTPSTEP with 8. change OTPSIZE with 32.
  change (0 + 8) with 8. change (8 + 8) with 16. change (16 + 8) with 24.
  change (24 + 8) with 32.
  change (0 <? 32) with true. change (8 <? 32) with true. change (16 <? 32) with true.
  change (24 <? 32) with true. change (32 <? 32) with false.
  cbv beta iota.
  (* first row *)
  match goal with
  | |- context [aoosp_send_readotp addr ?a ?b 8 ?hh] =>
      destruct (aoosp_send_readotp addr a b 8 hh) as [[r1 b1] h1] eqn:E1
  end.
  apply Hstep in E1; [ | lia ]. destruct E1 as [L1 R1].
  destruct r1; cbn [is_ok negb fst snd];
    try (exists 1%nat; cbn [Nat.sub nth firstn map]; rewrite ?app_nil_r;
         split; [ lia | split; [ exact L1 | split; [ intros j Hj; lia
                | split; [ exact R1 | discriminate ] ] ] ]).
  (* second row *)
  match goal with
  | |- context [aoosp_send_readotp addr ?a ?b 8 ?hh] =>
      destruct (aoosp_send_readotp addr a b 8 hh) as [[r2 b2] h2] eqn:E2
  end.
  apply Hstep in E2; [ | lia ]. destruct E2 as [L2 R2].
  rewrite L1 in R2. rewrite L1, <- app_assoc in L2. cbn [app] in L2.
  destruct r2; cbn [is_ok negb fst snd];
    try (exists 2%nat; cbn [Nat.sub nth firstn map];
         split; [ lia | split; [ exact L2 | split;
                [ intros j Hj; destruct j as [|j]; [ | lia ];
                  cbn [nth firstn map]; rewrite app_nil_r; exact R1
                | split; [ exact R2 | discriminate ] ] ] ]).
  (* third row *)
  match goal with
  | |- context [aoosp_send_readotp addr ?a ?b 8 ?hh] =>
      destruct (aoosp_send_readotp addr a b 8 hh) as [[r3 b3] h3] eqn:E3
  end.
  apply Hstep in E3; [ | lia ]. destruct E3 as [L3 R3].
  rewrite L2 in R3. rewrite L2, <- app_assoc in L3. cbn [app] in L3.
  destruct r3; cbn [is_ok negb fst snd];
    try (exists 3%nat; cbn [Nat.sub nth firstn map];
         split; [ lia | split; [ exact L3 | split;
                [ intros j Hj; destruct j as [|[|j]]; [ | | lia ];
                  cbn [nth firstn map]; rewrite ?app_nil_r; assumption
                | split; [ exact R3 | discriminate ] ] ] ]).
  (* fourth row *)
  match goal with
  | |- context [aoosp_send_readotp addr ?a ?b 8 ?hh] =>
      destruct (aoosp_send_readotp addr a b 8 hh) as [[r4 b4] h4] eqn:E4
  end.
  apply Hstep in E4; [ | lia ]. destruct E4 as [L4 R4].
  rewrite L3 in R4. rewrite L3, <- app_assoc in L4. cbn [app] in L4.
  exists 4%nat. cbn [Nat.sub nth firstn map].
  destruct r4; cbn [is_ok negb fst snd];
    (split; [ lia | split; [ exact L4 | split;
            [ intros j Hj; destruct j as [|[|[|j]]]; [ | | | lia ];
              cbn [nth firstn map]; rewrite ?app_nil_r; assumption
            | split; [ exact R4 | reflexivity ] ] ] ]).
Qed.

(** The read loop against the simulated SAID leaves the memory in [otp]. *)
Lemma otpdump_read_said : forall mem n h,
  length mem = 32%nat ->
  otpdump_read (P := said_otp_bus mem) (5 + n) 0x001 0x00 aoresult_ok (repeat 0 32) h =
  (aoresult_ok, mem,
   mk_host (spi_log h ++
            map (otpdump_request (P := said_otp_bus mem) 0x001) [0x00; 0x08; 0x10; 0x18])
           (aoosp_exec_resetinit_last_ h) (aoosp_said_testpw h)).
Proof.
  intros mem n h Hmem.
  do 33 (destruct mem as [|? mem]; try discriminate Hmem). clear Hmem.
  cbn [Nat.add otpdump_read]. unfold bind, ret. change OTPSTEP with 8. change OTPSIZE with 32.
  eval_closed.
  change (0 <? 32) with true. change (8 <? 32) with true. change (16 <? 32) with true.
  change (24 <? 32) with true. change (32 <? 32) with false.
  cbv beta iota.
  cbn [repeat skipn firstn app].
  do 4 (rewrite said_otp_read by
          first [ reflexivity | solve [ cbn [In]; auto 6 ] | cbn [length]; lia ];
        eval_closed; cbn [is_ok negb skipn firstn app]; cbv beta iota).
  unfold log_event. cbn [snd spi_log aoosp_exec_resetinit_last_ aoosp_said_testpw map].
  rewrite <- !app_assoc. reflexivity.
Qed.

Section OtpDumpProperties.
Import String.
Context {P : Platform}.

(** X27.  [aoosp_exec_otpdump] reads the OTP with READOTP requests for the
    rows 0x00, 0x08, 0x10 and 0x18, in this order, and stops at the first
    one that fails.  With a valid address, [k] requests go out, one to
    four: every read before the last one sent succeeded, the last one sent
    gave the result of the call, and nothing follows it; all four go out
    when the result is ok.  The outcome of a read is
    [otpdump_read_result], which is what [aoosp_send_readotp] returns for
    that row at that point of the log.  When a read fails nothing is
    printed.  In every case the log level is the one from before the
    call. *)
Theorem otpdump_reads_rows : forall addr flags c h,
  AOOSP_ADDR_ISOK addr = true ->
  let run := aoosp_exec_otpdump addr flags c h in
  let rows := [0x00; 0x08; 0x10; 0x18] in
  let log_before := fun j => spi_log h ++ map (otpdump_request addr) (firstn j rows) in
  aoosp_loglevel (snd (fst run)) = aoosp_loglevel c /\
  (fst (fst run) <> aoresult_ok -> snd (fst run) = c) /\
  (forall otpaddr buf h0,
     otpaddr <= 0x1F ->
     fst (fst (aoosp_send_readotp addr otpaddr (Some buf) 8 h0)) =
     otpdump_read_result addr otpaddr (spi_log h0)) /\
  exists k,
    (1 <= k <= 4)%nat /\
    spi_log (snd run) = log_before k /\
    (forall j, (j < k - 1)%nat ->
       otpdump_read_result addr (nth j rows 0) (log_before j) = aoresult_ok) /\
    otpdump_read_result addr (nth (k - 1) rows 0) (log_before (k - 1)%nat) = fst (fst run) /\
    (fst (fst run) = aoresult_ok -> k = 4%nat).
Proof.
  intros addr flags c h Haddr run rows log_before. subst run rows log_before.
  unfold aoosp_exec_otpdump. cbv zeta. unfold bind, ret.
  change (Z.to_nat OTPSIZE) with 32%nat.
  unfold aoosp_loglevel_get, aoosp_loglevel_set. cbn [serial].
  assert (Hc : {| aoosp_loglevel := aoosp_loglevel c; serial := serial c |} = c)
    by (destruct c; reflexivity).
  rewrite Hc.
  pose proof (otpdump_read_log 27 addr (repeat 0 32) h Haddr) as Hread.
  cbv zeta in Hread. destruct Hread as [k [Hk [Hlog [Hbefore [Hlast Hok]]]]].
  change (5 + 27)%nat with 32%nat in Hlog, Hlast, Hok.
  destruct (otpdump_read 32 addr 0 aoresult_ok (repeat 0 32) h) as [[r otp] h'].
  cbn [fst snd] in Hlog, Hlast, Hok.
  assert (Hsend : forall otpaddr buf h0,
            otpaddr <= 0x1F ->
            fst (fst (aoosp_send_readotp addr otpaddr (Some buf) 8 h0)) =
            otpdump_read_result addr otpaddr (spi_log h0))
    by (intros otpaddr buf h0 Hrow; apply send_readotp_result; assumption).
  destruct r; cbn [is_ok negb fst snd].
  1: { split; [ | split; [ intros E; exfalso; apply E; reflexivity | split; [ exact Hsend | ] ] ].
       - destruct (nonzero (Z.land flags AOOSP_OTPDUMP_CUSTOMER_FIELDS));
           destruct (nonzero (Z.land flags AOOSP_OTPDUMP_CUSTOMER_HEX));
           rewrite ?otpdump_fields_loglevel, ?otpdump_hex_loglevel; reflexivity.
       - exists k. repeat (split; [ assumption | ]). intros _. apply Hok. reflexivity. }
  all: split; [ reflexivity | split; [ reflexivity | split; [ exact Hsend | ] ] ].
  all: exists k; repeat (split; [ assumption | ]); intros E; discriminate E.
Qed.

(** X28.  Run against a SAID with the OTP memory [mem],
    [aoosp_exec_otpdump] succeeds with four READOTP exchanges and prints
    from the memory as it is: the requested blocks see [mem].  The hex
    block prints the address 0x0D, then the bytes of [mem] from 0x0D to
    0x1F in order, then a newline. *)
Theorem otpdump_shows_memory : forall mem flags c h,
  List.length mem = 32%nat ->
  Forall (fun b => 0 <= b < 256) mem ->
  aoosp_exec_otpdump (P := said_otp_bus mem) 0x001 flags c h =
  (aoresult_ok,
   (if nonzero (Z.land flags AOOSP_OTPDUMP_CUSTOMER_FIELDS)
    then otpdump_customer_fields mem else fun c => c)
     ((if nonzero (Z.land flags AOOSP_OTPDUMP_CUSTOMER_HEX)
       then otpdump_customer_hex mem else fun c => c) c),
   mk_host (spi_log h ++
            map (otpdump_request (P := said_otp_bus mem) 0x001) [0x00; 0x08; 0x10; 0x18])
           (aoosp_exec_resetinit_last_ h) (aoosp_said_testpw h)) /\
  serial (otpdump_customer_hex mem c) =
    serial c ++ ("otp: 0x%02X:"%string, [0x0D]) ::
                map (fun b => (" %02X"%string, [b])) (skipn 0x0D mem) ++ [(LF, [])].
Proof.
  intros mem flags c h Hmem _.
  assert (Hc : {| aoosp_loglevel := aoosp_loglevel c; serial := serial c |} = c)
    by (destruct c; reflexivity).
  split.
  - unfold aoosp_exec_otpdump. cbv zeta. unfold bind, ret.
    unfold aoosp_loglevel_get, aoosp_loglevel_set. cbn [serial]. rewrite Hc.
    change (Z.to_nat OTPSIZE) with 32%nat.
    pose proof (otpdump_read_said mem 27 h Hmem) as Hread.
    change (5 + 27)%nat with 32%nat in Hread. rewrite Hread.
    cbn [is_ok negb].
    destruct (nonzero (Z.land flags AOOSP_OTPDUMP_CUSTOMER_FIELDS));
      destruct (nonzero (Z.land flags AOOSP_OTPDUMP_CUSTOMER_HEX)); reflexivity.
  - assert (Hp : forall f a c0, serial (Serial_printf f a c0) = serial c0 ++ [(f, a)])
      by reflexivity.
    do 33 (destruct mem as [|? mem]; try discriminate Hmem). clear Hmem.
    unfold otpdump_customer_hex. cbv zeta.
    change (0x20 - 0x0D)%nat with 19%nat.
    cbn [for_loop]. rewrite !Hp. cbn [nth skipn map].
    rewrite <- !app_assoc. reflexivity.
Qed.
End OtpDumpProperties.

(** X23 at SETCURCHN with channel 1, the three flags set and the currents
    4, 8 and 11: the arguments are legal and the constructor accepts them. *)
Lemma construct_accepts_iff_witness :
  0 <= request_addr (SETCURCHN 5 1 7 4 8 11) <= 0x3FE /\
  Forall (fun a => 0 <= a) (request_args (SETCURCHN 5 1 7 4 8 11)) /\
  request_legal (SETCURCHN 5 1 7 4 8 11) /\
  fst (construct (P := quiet_bus) (SETCURCHN 5 1 7 4 8 11) (Some uninit_tele) None) =
  aoresult_ok.
Proof.
  assert (Ha : 0 <= request_addr (SETCURCHN 5 1 7 4 8 11) <= 0x3FE) by (cbn; lia).
  assert (Hn : Forall (fun a => 0 <= a) (request_args (SETCURCHN 5 1 7 4 8 11)))
    by (cbn; repeat constructor; lia).
  assert (Hl : request_legal (SETCURCHN 5 1 7 4 8 11))
    by (cbn; unfold current_legal; lia).
  repeat (split; [ assumption | ]).
  exact (proj2 (construct_accepts_iff (P := quiet_bus) (SETCURCHN 5 1 7 4 8 11)
                  uninit_tele None Ha Hn) Hl).
Defined.

(** X24 at the telegram bytes A0 09 02 and a buffer of 48 characters 'x':
    the buffer then starts with the eight characters of the text and NUL. *)
Lemma prt_bytes_text_witness :
  length (repeat "x"%char 48) = 48%nat /\
  Forall (fun b => 0 <= b < 256) [0xA0; 0x09; 0x02] /\
  (Z.to_nat (Z.min 3 16) <= length [0xA0; 0x09; 0x02])%nat /\
  exists rest,
    aoosp_prt_bytes (repeat "x"%char 48) [0xA0; 0x09; 0x02] 3 =
    Some (["A"; "0"; " "; "0"; "9"; " "; "0"; "2"]%char ++ NUL :: rest).
Proof.
  assert (Hb : length (repeat "x"%char 48) = 48%nat) by reflexivity.
  assert (Hn : (Z.to_nat (Z.min 3 16) <= length [0xA0; 0x09; 0x02])%nat)
    by (vm_compute; lia).
  assert (Hr : Forall (fun b => 0 <= b < 256) [0xA0; 0x09; 0x02])
    by (repeat constructor; lia).
  split; [ exact Hb | ]. split; [ exact Hr | ]. split; [ exact Hn | ].
  destruct (proj2 (prt_bytes_text (repeat "x"%char 48) [0xA0; 0x09; 0x02] 3 Hb Hr Hn))
    as [rest [Hrun _]]; [ lia | ].
  exists rest. exact Hrun.
Defined.

(** X25 at the status byte 0x92 (active, bit 4 set, bit 1 set) and a
    buffer of 48 characters 'x'. *)
Lemma stat_flag_letters_witness :
  length (repeat "x"%char 48) = 48%nat /\
  0 <= 0x92 < 256 /\
  (exists rest,
     aoosp_prt_stat_rgbi (repeat "x"%char 48) 0x92 =
     Some (["a"; "c"; "t"; "i"; "v"; "e"; "-"; "o"; "L"; "-"; "c"; "l"; "O"; "u"]%char
           ++ NUL :: rest)) /\
  (exists rest,
     aoosp_prt_stat_said (repeat "x"%char 48) 0x92 =
     Some (["a"; "c"; "t"; "i"; "v"; "e"; "-"; "t"; "V"; "-"; "c"; "l"; "O"; "u"]%char
           ++ NUL :: rest)).
Proof.
  assert (Hb : length (repeat "x"%char 48) = 48%nat) by reflexivity.
  assert (Hs : 0 <= 0x92 < 256) by lia.
  split; [ exact Hb | ]. split; [ exact Hs | ].
  exact (stat_flag_letters (repeat "x"%char 48) 0x92 Hb Hs).
Defined.

(** X26 at the flags 0x5 (sync and dithering enabled). *)
Lemma curchn_flag_letters_witness :
  length (repeat "x"%char 48) = 48%nat /\
  0 <= 0x5 < 256 /\
  exists rest,
    aoosp_prt_curchn (repeat "x"%char 48) 0x5 =
    Some (["r"; "S"; "h"; "D"]%char ++ NUL :: rest).
Proof.
  assert (Hb : length (repeat "x"%char 48) = 48%nat) by reflexivity.
  assert (Hf : 0 <= 0x5 < 256) by lia.
  split; [ exact Hb | ]. split; [ exact Hf | ].
  apply (proj1 (curchn_flag_letters (repeat "x"%char 48) 0x5 Hb Hf)). lia.
Defined.

(** X27 on a bus where nothing answers: the first read fails, one request
    went out and the console is as before. *)
Lemma otpdump_reads_rows_witness :
  AOOSP_ADDR_ISOK 0x001 = true /\
  aoosp_exec_otpdump (P := quiet_bus) 0x001 AOOSP_OTPDUMP_CUSTOMER_HEX
    (mk_console aoosp_loglevel_args []) host0 =
  (aoresult_spi_noclock, mk_console aoosp_loglevel_args [],
   mk_host [otpdump_request (P := quiet_bus) 0x001 0x00] 0 AOOSP_SAID_TESTPW_UNKNOWN) /\
  otpdump_read_result (P := quiet_bus) 0x001 0x00 [] = aoresult_spi_noclock /\
  exists k,
    (1 <= k <= 4)%nat /\
    spi_log (snd (aoosp_exec_otpdump (P := quiet_bus) 0x001 AOOSP_OTPDUMP_CUSTOMER_HEX
                    (mk_console aoosp_loglevel_args []) host0)) =
    spi_log host0 ++
    map (otpdump_request (P := quiet_bus) 0x001) (firstn k [0x00; 0x08; 0x10; 0x18]).
Proof.
  assert (Ha : AOOSP_ADDR_ISOK 0x001 = true) by reflexivity.
  split; [ exact Ha | ]. split; [ vm_compute; reflexivity | ].
  split; [ vm_compute; reflexivity | ].
  destruct (proj2 (proj2 (proj2 (otpdump_reads_rows (P := quiet_bus) 0x001
                                   AOOSP_OTPDUMP_CUSTOMER_HEX
                                   (mk_console aoosp_loglevel_args []) host0 Ha))))
    as [k [Hk [Hlog _]]].
  exists k. split; [ exact Hk | exact Hlog ].
Defined.

(** X28 at a memory that holds its own addresses, with the hex block
    requested: the dump prints 0D, 0E, ..., 1F. *)
Lemma otpdump_shows_memory_witness :
  length (map Z.of_nat (seq 0 32)) = 32%nat /\
  Forall (fun b => 0 <= b < 256) (map Z.of_nat (seq 0 32)) /\
  fst (fst (aoosp_exec_otpdump (P := said_otp_bus (map Z.of_nat (seq 0 32))) 0x001
              AOOSP_OTPDUMP_CUSTOMER_HEX (mk_console aoosp_loglevel_none []) host0)) =
  aoresult_ok /\
  map snd (serial (snd (fst (aoosp_exec_otpdump
                               (P := said_otp_bus (map Z.of_nat (seq 0 32))) 0x001
                               AOOSP_OTPDUMP_CUSTOMER_HEX
                               (mk_console aoosp_loglevel_none []) host0)))) =
  [[0x0D]; [0x0D]; [0x0E]; [0x0F]; [0x10]; [0x11]; [0x12]; [0x13]; [0x14]; [0x15]; [0x16];
   [0x17]; [0x18]; [0x19]; [0x1A]; [0x1B]; [0x1C]; [0x1D]; [0x1E]; [0x1F]; []].
Proof.
  assert (Hl : length (map Z.of_nat (seq 0 32)) = 32%nat) by reflexivity.
  assert (Hr : Forall (fun b => 0 <= b < 256) (map Z.of_nat (seq 0 32)))
    by (cbn [seq map]; repeat constructor; lia).
  split; [ exact Hl | ]. split; [ exact Hr | ].
  rewrite (proj1 (otpdump_shows_memory (map Z.of_nat (seq 0 32))
                    AOOSP_OTPDUMP_CUSTOMER_HEX (mk_console aoosp_loglevel_none [])
                    host0 Hl Hr)).
  split; reflexivity.
Defined.
